(** * recurring_events: next-occurrence evaluation and enumeration

    A shallow embedding of [recurring_events.py].  Python integers are [Z];
    an optional argument is an [option]; an exception is the [Raise] case of
    [result]; the mutable [RecurringEvent] object is a record that the
    mutating method [get_events] returns next to its outcome; the
    [while True] loop of [get_events] runs on fuel.

    The module imports [timedelta] and [date] from [datetime] and the module
    [calendar].  Their behaviour is modelled first, following the pure
    Python implementation of the standard library ([_ymd2ord], [_ord2ymd],
    [date.__add__], [date.replace], [date.weekday]). *)

From Stdlib Require Import ZArith List Bool Lia String.
Import ListNotations.
Local Open Scope Z_scope.

(** ** Exceptions and results *)

Inductive exn : Type :=
| ValueError
| AssertionError
| TypeError
| NameError
| NotImplementedError
| OverflowError
| AttributeError.

Inductive result (A : Type) : Type :=
| Ok (a : A)
| Raise (e : exn).
Arguments Ok {A} a.
Arguments Raise {A} e.

Definition bind {A B : Type} (m : result A) (k : A -> result B) : result B :=
  match m with
  | Ok a => k a
  | Raise e => Raise e
  end.

Notation "x <- m ;; k" := (bind m (fun x => k))
  (at level 61, m at next level, right associativity).

(** [try: m except ValueError: h] *)
Definition except_ValueError {A : Type} (m h : result A) : result A :=
  match m with
  | Raise ValueError => h
  | other => other
  end.

(** ** The [datetime.date] model *)

Definition MINYEAR : Z := 1.
Definition MAXYEAR : Z := 9999.
Definition MAXORDINAL : Z := 3652059.

Record date : Type := mkdate { year : Z; month : Z; day : Z }.

Definition is_leap (y : Z) : bool :=
  (y mod 4 =? 0) && (negb (y mod 100 =? 0) || (y mod 400 =? 0)).

(** [_DAYS_IN_MONTH]; index 0 holds the placeholder -1. *)
Definition DAYS_IN_MONTH (m : Z) : Z :=
  match m with
  | 1 => 31 | 2 => 28 | 3 => 31 | 4 => 30 | 5 => 31 | 6 => 30
  | 7 => 31 | 8 => 31 | 9 => 30 | 10 => 31 | 11 => 30 | 12 => 31
  | _ => -1
  end.

(** [_DAYS_BEFORE_MONTH] *)
Definition DAYS_BEFORE_MONTH (m : Z) : Z :=
  match m with
  | 1 => 0 | 2 => 31 | 3 => 59 | 4 => 90 | 5 => 120 | 6 => 151
  | 7 => 181 | 8 => 212 | 9 => 243 | 10 => 273 | 11 => 304 | 12 => 334
  | _ => -1
  end.

Definition days_before_year (y : Z) : Z :=
  let y := y - 1 in y * 365 + y / 4 - y / 100 + y / 400.

Definition days_in_month (y m : Z) : Z :=
  if (m =? 2) && is_leap y then 29 else DAYS_IN_MONTH m.

Definition days_before_month (y m : Z) : Z :=
  DAYS_BEFORE_MONTH m + (if (2 <? m) && is_leap y then 1 else 0).

Definition ymd2ord (y m d : Z) : Z :=
  days_before_year y + days_before_month y m + d.

Definition DI400Y : Z := 146097.
Definition DI100Y : Z := 36524.
Definition DI4Y : Z := 1461.

Definition ord2ymd (n : Z) : date :=
  let n := n - 1 in
  let n400 := n / DI400Y in
  let n := n mod DI400Y in
  let y := n400 * 400 + 1 in
  let n100 := n / DI100Y in
  let n := n mod DI100Y in
  let n4 := n / DI4Y in
  let n := n mod DI4Y in
  let n1 := n / 365 in
  let n := n mod 365 in
  let y := y + (n100 * 100 + n4 * 4 + n1) in
  if (n1 =? 4) || (n100 =? 4) then mkdate (y - 1) 12 31
  else
    let leapyear := (n1 =? 3) && (negb (n4 =? 24) || (n100 =? 3)) in
    let m := Z.shiftr (n + 50) 5 in
    let preceding :=
      DAYS_BEFORE_MONTH m + (if (2 <? m) && leapyear then 1 else 0) in
    if n <? preceding then
      let m := m - 1 in
      let preceding :=
        preceding
        - (DAYS_IN_MONTH m + (if (m =? 2) && leapyear then 1 else 0)) in
      mkdate y m (n - preceding + 1)
    else mkdate y m (n - preceding + 1).

(** [_check_date_fields]: what the [date] constructor accepts. *)
Definition check_date_fields (y m d : Z) : bool :=
  (MINYEAR <=? y) && (y <=? MAXYEAR) &&
  (1 <=? m) && (m <=? 12) &&
  (1 <=? d) && (d <=? days_in_month y m).

Definition valid_date (d : date) : Prop :=
  check_date_fields (year d) (month d) (day d) = true.

(** [date(year, month, day)] *)
Definition new_date (y m d : Z) : result date :=
  if check_date_fields y m d then Ok (mkdate y m d) else Raise ValueError.

(** [d.replace(year=..., month=..., day=...)]; an absent keyword keeps the
    field of [d]. *)
Definition replace (d : date) (y m dd : option Z) : result date :=
  new_date (match y with Some v => v | None => year d end)
           (match m with Some v => v | None => month d end)
           (match dd with Some v => v | None => day d end).

Definition toordinal (d : date) : Z := ymd2ord (year d) (month d) (day d).

Definition fromordinal (n : Z) : date := ord2ymd n.

(** [d.weekday()]: Monday is 0, Sunday is 6. *)
Definition weekday (d : date) : Z := (toordinal d + 6) mod 7.

(** [d + timedelta(days=n)].  [timedelta] itself raises [OverflowError]
    beyond 999999999 days, where the ordinal test below fails as well, so
    the two failures are one case. *)
Definition add_days (d : date) (n : Z) : result date :=
  let o := toordinal d + n in
  if (0 <? o) && (o <=? MAXORDINAL) then Ok (fromordinal o)
  else Raise OverflowError.

(** Comparison of dates is comparison of the triples (year, month, day). *)
Definition date_ltb (a b : date) : bool :=
  (year a <? year b)
  || ((year a =? year b)
      && ((month a <? month b)
          || ((month a =? month b) && (day a <? day b)))).

Definition date_gtb (a b : date) : bool := date_ltb b a.
Definition date_leb (a b : date) : bool := negb (date_ltb b a).

(** [calendar.monthrange(year, month)[1]] *)
Definition monthrange_ndays (y m : Z) : Z := days_in_month y m.

(** ** Python values that reach the module from its callers *)

(** An argument that is expected to be a date: [None], a [date], or some
    other object; for the latter only its [.date()] method matters (absent,
    or returning a date). *)
Inductive pyval : Type :=
| PyNone
| PyDate (d : date)
| PyOther (date_method : option date).

(** Truth value of an attribute that holds [None] or an integer. *)
Definition truthy (o : option Z) : bool :=
  match o with
  | Some v => negb (v =? 0)
  | None => false
  end.

(** The integer held by an attribute known to be truthy. *)
Definition val (o : option Z) : Z :=
  match o with
  | Some v => v
  | None => 0
  end.

(** [o == k] for an attribute [o] and an integer literal [k]. *)
Definition eq_int (o : option Z) (k : Z) : bool :=
  match o with
  | Some v => v =? k
  | None => false
  end.

(** [x if x else None] *)
Definition or_None (o : option Z) : option Z :=
  if truthy o then o else None.

(** Names bound at module level: the two [import] lines and the
    definitions of the module. *)
Definition module_globals : list string :=
  [ "timedelta"; "date"; "calendar";
    "get_next_workday_by_interval"; "get_next_weekday";
    "get_nth_weekday_of_month"; "get_last_workday_of_month";
    "get_first_workday_of_month"; "get_nth_workday_of_month";
    "RecurringEvent" ]%string.

Definition global_bound (name : string) : bool :=
  existsb (String.eqb name) module_globals.

(** Evaluating a global name: [NameError] when it is not bound. *)
Definition lookup_global {A : Type} (name : string) (v : A) : result A :=
  if global_bound name then Ok v else Raise NameError.

(** ** Date functions *)

Definition get_next_workday_by_interval (cur_date : date) (interval : Z)
  : result date :=
  cur_date <- add_days cur_date interval ;;
  (* skip weekend *)
  if 4 <? weekday cur_date then add_days cur_date 2
  else Ok cur_date.

Definition get_next_weekday (cur_date : date) (wd : Z) : result date :=
  let days_ahead := wd - 1 - weekday cur_date in
  add_days cur_date days_ahead.

(** The body of [get_nth_weekday_of_month], with its recursive call taken
    as the parameter [self_call]. *)
Definition nth_weekday_body (self_call : date -> Z -> Z -> result date)
    (cur_date : date) (ordinal wd : Z) : result date :=
  if 7 <? wd then Raise ValueError
  else if 5 <? ordinal then Raise ValueError
  else if ordinal =? 5 then
    next_month_date <-
      (if month cur_date <? 12 then
         replace cur_date None (Some (month cur_date + 1)) (Some 1)
       else
         replace cur_date (Some (year cur_date + 1)) (Some 1) (Some 1)) ;;
    reference_date <- self_call next_month_date 1 wd ;;
    add_days reference_date (-7)
  else
    reference_date <- replace cur_date None None (Some 1) ;;
    let adj := (wd - 1 - weekday reference_date) mod 7 in
    reference_date <- add_days reference_date adj ;;
    reference_date <- add_days reference_date (7 * (ordinal - 1)) ;;
    Ok reference_date.

(** The recursion is one call deep: the inner call has ordinal 1. *)
Definition get_nth_weekday_of_month : date -> Z -> Z -> result date :=
  nth_weekday_body (nth_weekday_body (fun _ _ _ => Raise ValueError)).

Definition get_last_workday_of_month (cur_date : date) : result date :=
  (* date of last day in month *)
  let last_day_of_month :=
    monthrange_ndays (year cur_date) (month cur_date) in
  cur_date <- replace cur_date None None (Some last_day_of_month) ;;
  let wd := weekday cur_date in
  if (weekday cur_date =? 5) || (weekday cur_date =? 6) then
    add_days cur_date (- (wd - 4))
  else Ok cur_date.

Definition get_first_workday_of_month (cur_date : date) : result date :=
  (* date of first day in month *)
  cur_date <- replace cur_date None None (Some 1) ;;
  let wd := weekday cur_date in
  if (weekday cur_date =? 5) || (weekday cur_date =? 6) then
    add_days cur_date (7 - wd)
  else Ok cur_date.

(** [ordinal] is passed on from an attribute, so it may be [None]; then
    [ordinal - 1] raises [TypeError]. *)
Definition get_nth_workday_of_month (cur_date : date) (ordinal : option Z)
  : result date :=
  let day_delta := 0 in
  first_workday <- get_first_workday_of_month cur_date ;;
  match ordinal with
  | None => Raise TypeError
  | Some ordinal =>
      nth_workday <- add_days first_workday (ordinal - 1) ;;
      let day_delta :=
        if 4 <? weekday first_workday + ordinal - 1 then 2 else day_delta in
      add_days nth_workday day_delta
  end.

(** ** The class [RecurringEvent] *)

Record RecurringEvent : Type := mkRecurringEvent {
  _last_occurence : pyval;
  _recurs : Z;
  _interval : Z;
  _day : option Z;
  _ordinal : option Z;
  _weekday : option Z;
  _interval_end : option date
}.

Definition with_last_occurence (self : RecurringEvent) (d : date)
  : RecurringEvent :=
  mkRecurringEvent (PyDate d) (_recurs self) (_interval self) (_day self)
                   (_ordinal self) (_weekday self) (_interval_end self).

Definition with_interval_end (self : RecurringEvent) (d : date)
  : RecurringEvent :=
  mkRecurringEvent (_last_occurence self) (_recurs self) (_interval self)
                   (_day self) (_ordinal self) (_weekday self) (Some d).

Definition isinstance_date (v : pyval) : bool :=
  match v with
  | PyDate _ => true
  | _ => false
  end.

Definition _check_consistency (self : RecurringEvent) : result unit :=
  if negb (isinstance_date (_last_occurence self)) then Raise ValueError
  else if truthy (_day self)
          && ((val (_day self) <? 1) || (31 <? val (_day self)))
  then Raise ValueError
  else if truthy (_ordinal self)
          && ((val (_ordinal self) <? 1) || (5 <? val (_ordinal self)))
  then Raise ValueError
  else if truthy (_day self) && truthy (_ordinal self)
  then Raise AssertionError
  else if truthy (_day self) && truthy (_weekday self)
  then Raise AssertionError
  else if eq_int (_weekday self) 8 && negb (_recurs self =? 4)
  then Raise AssertionError
  else if eq_int (_weekday self) 8 && negb (truthy (_ordinal self))
  then Raise AssertionError
  else if negb (_recurs self =? 4) && truthy (_day self)
  then Raise AssertionError
  else if negb ((_recurs self =? 2) || (_recurs self =? 4))
          && truthy (_ordinal self)
  then Raise AssertionError
  else if negb ((_recurs self =? 3) || (_recurs self =? 4))
          && truthy (_weekday self)
  then Raise AssertionError
  else Ok tt.

(** [RecurringEvent(last_occurence, recurs, interval, day, ordinal, weekday,
    first_occurence)] *)
Definition __init__ (last_occurence : pyval) (recurs interval : Z)
    (day ordinal wd : option Z) (first_occurence : pyval)
  : result RecurringEvent :=
  let self :=
    mkRecurringEvent
      (match last_occurence with
       | PyNone => first_occurence
       | _ => last_occurence
       end)
      recurs interval (or_None day) (or_None ordinal) (or_None wd) None in
  _ <- _check_consistency self ;;
  Ok self.

(** [today] is the date the clock would give: the value of
    [datetime.now().date()] once the name [datetime] is resolved. *)
Definition set_interval_end (today : date) (self : RecurringEvent)
    (interval_end : pyval) : result RecurringEvent :=
  match interval_end with
  | PyNone =>
      now <- lookup_global "datetime" today ;;
      Ok (with_interval_end self now)
  | PyDate d => Ok (with_interval_end self d)
  | PyOther (Some d) => Ok (with_interval_end self d)
  | PyOther None => Raise AttributeError
  end.

(** *** Period calculations *)

(** The month and year rollover shared by the three monthly methods:
    [month = m + interval; year_incr = int(month / 13)], giving the year
    increment and the target month [month - year_incr * 12].  [int]
    truncates, hence [Z.quot]. *)
Definition rollover (m interval : Z) : Z * Z :=
  let mth := m + interval in
  let year_incr := Z.quot mth 13 in
  (year_incr, mth - year_incr * 12).

Definition _get_daily_period (self : RecurringEvent) (starting_date : date)
  : result date :=
  add_days starting_date (_interval self).

Definition _get_workdaily_period (self : RecurringEvent)
    (starting_date : date) : result date :=
  if truthy (_ordinal self) then Raise NotImplementedError
  else get_next_workday_by_interval starting_date (_interval self).

Definition _get_ordinal_workday_period (self : RecurringEvent)
    (starting_date : date) : result date :=
  (* ordinal weekday period must be monthly recurrence *)
  let mth := month starting_date + _interval self in
  let year_incr := Z.quot mth 13 in
  starting_date <-
    replace starting_date (Some (year starting_date + year_incr))
            (Some (mth - year_incr * 12)) (Some 1) ;;
  if eq_int (_ordinal self) 5 then get_last_workday_of_month starting_date
  else get_nth_workday_of_month starting_date (_ordinal self).

Definition _get_weekday_period (self : RecurringEvent)
    (starting_date : date) : result date :=
  if truthy (_ordinal self) then
    (* ordinal weekday period must be monthly recurrence *)
    let mth := month starting_date + _interval self in
    let year_incr := Z.quot mth 13 in
    starting_date <-
      replace starting_date (Some (year starting_date + year_incr))
              (Some (mth - year_incr * 12)) (Some 1) ;;
    get_nth_weekday_of_month starting_date (val (_ordinal self))
                             (val (_weekday self))
  else
    (* Example: Every 4 weeks on Saturday *)
    starting_date <- add_days starting_date (7 * _interval self) ;;
    get_next_weekday starting_date (val (_weekday self)).

Definition _get_day_period (self : RecurringEvent) (starting_date : date)
  : result date :=
  let mth := month starting_date + _interval self in
  let year_incr := Z.quot mth 13 in
  except_ValueError
    (replace starting_date (Some (year starting_date + year_incr))
             (Some (mth - year_incr * 12)) (Some (val (_day self))))
    (starting_date <-
       replace starting_date (Some (year starting_date + year_incr))
               (Some (mth - year_incr * 12 + 1)) (Some 1) ;;
     add_days starting_date (-1)).

(** The value returned is a date, or [None] when no branch returns. *)
Definition get_next_date (self : RecurringEvent) (starting_date : date)
  : result (option date) :=
  if truthy (_weekday self) then
    if val (_weekday self) <? 8 then
      d <- _get_weekday_period self starting_date ;; Ok (Some d)
    else
      d <- _get_ordinal_workday_period self starting_date ;; Ok (Some d)
  else if truthy (_day self) then
    d <- _get_day_period self starting_date ;; Ok (Some d)
  else
    if _recurs self =? 1 then
      (* daily occurence *)
      d <- _get_daily_period self starting_date ;; Ok (Some d)
    else if _recurs self =? 2 then
      (* workdaily occurence *)
      d <- _get_workdaily_period self starting_date ;; Ok (Some d)
    else Ok None.

(** *** Enumeration *)

(** The [while True] loop of [get_events].  The outcome comes with the
    object as the loop left it; [None] stands for a loop still running when
    the fuel is spent.  Comparing [None] with a date raises [TypeError]. *)
Fixpoint get_events_loop (fuel : nat) (self : RecurringEvent)
    (periods : list date) (observed_date : date)
  : option (result (list date) * RecurringEvent) :=
  match fuel with
  | O => None
  | S fuel =>
      match get_next_date self observed_date with
      | Raise e => Some (Raise e, self)
      | Ok None => Some (Raise TypeError, self)
      | Ok (Some observed_date) =>
          match _interval_end self with
          | None => Some (Raise TypeError, self)
          | Some interval_end =>
              if date_gtb observed_date interval_end then
                Some (Ok periods, self)
              else
                get_events_loop fuel
                  (with_last_occurence self observed_date)
                  (periods ++ [observed_date]) observed_date
          end
      end
  end.

(** [_check_consistency] leaves a date in [_last_occurence]; on any other
    value the first date operation fails, which the model gives as
    [TypeError]. *)
Definition get_events (today : date) (fuel : nat) (self : RecurringEvent)
    (interval_end : pyval)
  : option (result (list date) * RecurringEvent) :=
  match set_interval_end today self interval_end with
  | Raise e => Some (Raise e, self)
  | Ok self =>
      match _last_occurence self with
      | PyDate observed_date => get_events_loop fuel self [] observed_date
      | _ => Some (Raise TypeError, self)
      end
  end.

Definition number_of_periods (today : date) (fuel : nat)
    (self : RecurringEvent) (interval_end : pyval)
  : option (result Z * RecurringEvent) :=
  match get_events today fuel self interval_end with
  | Some (Ok periods, self) => Some (Ok (Z.of_nat (List.length periods)), self)
  | Some (Raise e, self) => Some (Raise e, self)
  | None => None
  end.

Definition last_occurence (self : RecurringEvent) : pyval :=
  _last_occurence self.

(** The month and day that [ord2ymd] finds from the zero-based day [r] of a
    year. *)
Definition month_day (leapyear : bool) (r : Z) : Z * Z :=
  let m := Z.shiftr (r + 50) 5 in
  let preceding :=
    DAYS_BEFORE_MONTH m + (if (2 <? m) && leapyear then 1 else 0) in
  if r <? preceding then
    (m - 1,
     r - (preceding
          - (DAYS_IN_MONTH (m - 1)
             + (if (m - 1 =? 2) && leapyear then 1 else 0))) + 1)
  else (m, r - preceding + 1).


(** Case analysis on a month number known to lie in 1..12. *)
Ltac month_cases m :=
  let H := fresh "Hm" in
  assert (H : m = 1 \/ m = 2 \/ m = 3 \/ m = 4 \/ m = 5 \/ m = 6 \/ m = 7
              \/ m = 8 \/ m = 9 \/ m = 10 \/ m = 11 \/ m = 12) by lia;
  repeat (destruct H as [H | H]); subst m.


(** ** Vocabulary of the statements *)

(** The value [__init__] stores in [_last_occurence]. *)
Definition effective_last_occurence (last_occurence first_occurence : pyval)
  : pyval :=
  match last_occurence with
  | PyNone => first_occurence
  | _ => last_occurence
  end.

(** An argument counts as set when it is an integer other than 0. *)
Definition is_set (o : option Z) : Prop := exists v, o = Some v /\ v <> 0.

(** The combinations of arguments that the documentation of the rule
    excludes. *)
Definition invariant_violated (recurs : Z) (day ordinal wd : option Z)
  : Prop :=
  (is_set day /\ is_set ordinal)
  \/ (is_set day /\ is_set wd)
  \/ (wd = Some 8 /\ recurs <> 4)
  \/ (wd = Some 8 /\ ~ is_set ordinal)
  \/ (is_set day /\ recurs <> 4)
  \/ (is_set ordinal /\ recurs <> 2 /\ recurs <> 4)
  \/ (is_set wd /\ recurs <> 3 /\ recurs <> 4).

(** A rule that passed the checks of the constructor. *)
Definition constructed (self : RecurringEvent) : Prop :=
  _check_consistency self = Ok tt.

(** The weekday, when set, lies in the range 1..8 that the docstring of
    [__init__] lists; the constructor tests the ranges of day and ordinal
    only. *)
Definition weekday_documented (self : RecurringEvent) : Prop :=
  match _weekday self with
  | Some w => w = 0 \/ 1 <= w <= 8
  | None => True
  end.

(** Order of dates as propositions. *)
Definition date_lt (a b : date) : Prop := date_ltb a b = true.
Definition date_le (a b : date) : Prop := date_leb a b = true.

(** [get_next_date] yields the date [d']. *)
Definition next_date_is (self : RecurringEvent) (d d' : date) : Prop :=
  get_next_date self d = Ok (Some d').

(** [l] is a chain of successive next occurrences that starts after [d]. *)
Fixpoint chain_from (self : RecurringEvent) (d : date) (l : list date)
  : Prop :=
  match l with
  | [] => True
  | d' :: l' => next_date_is self d d' /\ chain_from self d' l'
  end.

(** The first of the month after the month of [d] (not checked for the
    year range). *)
Definition first_of_next_month (d : date) : date :=
  if month d <? 12 then mkdate (year d) (month d + 1) 1
  else mkdate (year d + 1) 1 1.

(** The first of the month of [d], as an ordinal. *)
Definition month_start (d : date) : Z := ymd2ord (year d) (month d) 1.

(** Every evaluator step of the enumeration from [d0] up to the horizon [h]
    yields a date. *)
Definition steps_yield_dates (self : RecurringEvent) (d0 h : date) : Prop :=
  forall l,
    chain_from self d0 l -> Forall (fun x => date_le x h) l ->
    exists d', next_date_is self (last l d0) d'.

(** [L] is the maximal prefix of the chain of next occurrences from [d0]
    under the horizon [h]: a chain, every element at most [h], and the next
    occurrence after it beyond [h]. *)
Definition maximal_prefix (self : RecurringEvent) (d0 h : date)
    (L : list date) : Prop :=
  chain_from self d0 L
  /\ Forall (fun x => date_le x h) L
  /\ exists d', next_date_is self (last L d0) d' /\ date_lt h d'.

(** The chain of next occurrences from [d0] gets to a date beyond the
    horizon [h], every step on the way yielding a date. *)
Definition reaches_beyond (self : RecurringEvent) (d0 h : date) : Prop :=
  exists l d',
    chain_from self d0 l /\ next_date_is self (last l d0) d' /\ date_lt h d'.

(** The call [get_events(h)] returns the list [L]: the loop ends with [L]
    once it is given more rounds than [L] has elements, and it ends in no
    other way, whatever the number of rounds. *)
Definition get_events_returns (today : date) (self : RecurringEvent)
    (h : date) (L : list date) : Prop :=
  (forall fuel, (List.length L < fuel)%nat ->
     exists self', get_events today fuel self (PyDate h) = Some (Ok L, self'))
  /\ (forall fuel r self',
         get_events today fuel self (PyDate h) = Some (r, self') -> r = Ok L).

(** Scenario 5 of the documentation. *)
Definition daily_from_2023_06_30 : RecurringEvent :=
  mkRecurringEvent (PyDate (mkdate 2023 6 30)) 1 1 None None None None.

(** [l] is strictly increasing and starts after [d]. *)
Fixpoint increasing_from (d : date) (l : list date) : Prop :=
  match l with
  | [] => True
  | a :: l' => date_lt d a /\ increasing_from a l'
  end.

(** The object after an enumeration from the cursor [d0] that consumed the
    occurrences [consumed] under the horizon [h]. *)
Definition after_enumeration (self : RecurringEvent) (d0 h : date)
    (consumed : list date) : RecurringEvent :=
  match consumed with
  | [] => with_interval_end self h
  | _ => with_last_occurence (with_interval_end self h) (last consumed d0)
  end.

(** The values of a rule that [get_events] has no assignment for. *)
Definition same_rule (a b : RecurringEvent) : Prop :=
  _recurs a = _recurs b /\ _interval a = _interval b /\ _day a = _day b
  /\ _ordinal a = _ordinal b /\ _weekday a = _weekday b.

(** The exceptions of the [date] operations: [ValueError] from the
    constructor, [OverflowError] from the addition of days. *)
Definition date_error (e : exn) : Prop := e = ValueError \/ e = OverflowError.

(** Months counted from year 0. *)
Definition month_index (d : date) : Z := 12 * year d + month d.

(** Each date of [l] lies [i] months after the one before, the first one
    [i] months after [d]. *)
Fixpoint months_apart (i : Z) (d : date) (l : list date) : Prop :=
  match l with
  | [] => True
  | a :: l' => month_index a = month_index d + i /\ months_apart i a l'
  end.

(** The rules that the three monthly methods serve: a weekday with an
    ordinal, or a day of the month. *)
Definition monthly_rule (self : RecurringEvent) : Prop :=
  (truthy (_weekday self) = true /\ truthy (_ordinal self) = true)
  \/ (truthy (_weekday self) = false /\ truthy (_day self) = true).

(** ** Scenarios of the documentation, run on the model *)

Definition d_2023_01_07 : date := mkdate 2023 1 7.
Definition every_4_weeks_on_saturday : RecurringEvent :=
  mkRecurringEvent (PyDate d_2023_01_07) 3 4 None None (Some 6) None.

Example scenario_weekly :
  get_next_date every_4_weeks_on_saturday d_2023_01_07
  = Ok (Some (mkdate 2023 2 4)).
Proof. vm_compute. reflexivity. Qed.

Example scenario_monthly_day_15 :
  get_next_date
    (mkRecurringEvent (PyDate (mkdate 2023 1 15)) 4 2 (Some 15) None None None)
    (mkdate 2023 1 15)
  = Ok (Some (mkdate 2023 3 15)).
Proof. vm_compute. reflexivity. Qed.

Example scenario_daily_enumeration :
  get_events (mkdate 2024 1 1) 10
    (mkRecurringEvent (PyDate (mkdate 2023 6 30)) 1 1 None None None None)
    (PyDate (mkdate 2023 7 3))
  = Some (Ok [mkdate 2023 7 1; mkdate 2023 7 2; mkdate 2023 7 3],
          mkRecurringEvent (PyDate (mkdate 2023 7 3)) 1 1 None None None
                           (Some (mkdate 2023 7 3))).
Proof. vm_compute. reflexivity. Qed.

Example scenario_next_workday :
  get_next_workday_by_interval (mkdate 2023 6 2) 1 = Ok (mkdate 2023 6 5).
Proof. vm_compute. reflexivity. Qed.

Example weekday_2023_06_02 : weekday (mkdate 2023 6 2) = 4.
Proof. reflexivity. Qed.

Example maxordinal_is_last_day :
  toordinal (mkdate 9999 12 31) = MAXORDINAL /\ fromordinal MAXORDINAL = mkdate 9999 12 31
  /\ fromordinal 1 = mkdate 1 1 1 /\ weekday (mkdate 9999 12 31) = 4.
Proof. vm_compute. repeat split. Qed.

(** ** The calendar *)

Lemma is_leap_cases y :
  (is_leap y = true /\ y mod 4 = 0 /\ (y mod 100 <> 0 \/ y mod 400 = 0))
  \/ (is_leap y = false /\ (y mod 4 <> 0 \/ (y mod 100 = 0 /\ y mod 400 <> 0))).
Proof.
  unfold is_leap.
  destruct (Z.eqb_spec (y mod 4) 0), (Z.eqb_spec (y mod 100) 0),
    (Z.eqb_spec (y mod 400) 0); simpl; intuition lia.
Qed.

Lemma days_before_year_succ y :
  days_before_year (y + 1)
  = days_before_year y + (if is_leap y then 366 else 365).
Proof.
  unfold days_before_year.
  destruct (is_leap_cases y) as [(-> & H4 & H100) | (-> & H)];
    replace (y + 1 - 1) with y by lia;
    Z.div_mod_to_equations; lia.
Qed.

Lemma days_in_month_bounds y m :
  1 <= m <= 12 -> 28 <= days_in_month y m <= 31.
Proof.
  intros Hm. unfold days_in_month.
  month_cases m; destruct (is_leap y); simpl; lia.
Qed.

Lemma days_before_month_succ y m :
  1 <= m <= 11 ->
  days_before_month y (m + 1) = days_before_month y m + days_in_month y m.
Proof.
  intros Hm. unfold days_before_month, days_in_month.
  month_cases m; destruct (is_leap y); simpl; lia.
Qed.

Lemma days_before_month_december y :
  days_before_month y 12 + 31 = if is_leap y then 366 else 365.
Proof. unfold days_before_month. destruct (is_leap y); reflexivity. Qed.

Lemma days_before_month_bounds y m :
  1 <= m <= 12 ->
  0 <= days_before_month y m
  /\ days_before_month y m + days_in_month y m
     <= if is_leap y then 366 else 365.
Proof.
  intros Hm. unfold days_before_month, days_in_month.
  month_cases m; destruct (is_leap y); simpl; lia.
Qed.

Lemma days_before_month_mono y m1 m2 :
  1 <= m1 -> m1 < m2 -> m2 <= 12 ->
  days_before_month y m1 + days_in_month y m1 <= days_before_month y m2.
Proof.
  intros H1 H2 H3. unfold days_before_month, days_in_month.
  month_cases m1; month_cases m2; try lia; destruct (is_leap y); simpl; lia.
Qed.

Lemma days_before_year_lt y1 y2 :
  y1 < y2 ->
  days_before_year y1 + (if is_leap y1 then 366 else 365)
  <= days_before_year y2.
Proof.
  intros H.
  replace y2 with (y1 + 1 + Z.of_nat (Z.to_nat (y2 - y1 - 1))) by lia.
  induction (Z.to_nat (y2 - y1 - 1)) as [|k IH].
  - rewrite Z.add_0_r, days_before_year_succ. lia.
  - rewrite Nat2Z.inj_succ.
    replace (y1 + 1 + Z.succ (Z.of_nat k))
      with (y1 + 1 + Z.of_nat k + 1) by lia.
    rewrite days_before_year_succ.
    destruct (is_leap (y1 + 1 + Z.of_nat k)); lia.
Qed.

Lemma check_date_fields_true y m d :
  check_date_fields y m d = true <->
  (1 <= y <= 9999 /\ 1 <= m <= 12 /\ 1 <= d <= days_in_month y m).
Proof.
  unfold check_date_fields, MINYEAR, MAXYEAR.
  rewrite !andb_true_iff, !Z.leb_le. tauto.
Qed.

Lemma valid_date_iff d :
  valid_date d <->
  (1 <= year d <= 9999 /\ 1 <= month d <= 12
   /\ 1 <= day d <= days_in_month (year d) (month d)).
Proof. apply check_date_fields_true. Qed.

Lemma date_ltb_lt a b :
  date_ltb a b = true <->
  (year a < year b
   \/ (year a = year b
       /\ (month a < month b \/ (month a = month b /\ day a < day b)))).
Proof.
  unfold date_ltb.
  rewrite !orb_true_iff, !andb_true_iff, !orb_true_iff, !andb_true_iff,
    !Z.ltb_lt, !Z.eqb_eq.
  tauto.
Qed.

(** On valid dates the order of the triples is the order of the ordinals. *)
Lemma toordinal_lt a b :
  valid_date a -> valid_date b ->
  (date_ltb a b = true <-> toordinal a < toordinal b).
Proof.
  rewrite !valid_date_iff, date_ltb_lt.
  destruct a as [ya ma da], b as [yb mb db]; unfold toordinal, ymd2ord; simpl.
  intros (Hya & Hma & Hda) (Hyb & Hmb & Hdb).
  pose proof (days_before_month_bounds ya ma Hma) as Ba.
  pose proof (days_before_month_bounds yb mb Hmb) as Bb.
  assert (Hy : ya < yb \/ ya = yb \/ yb < ya) by lia.
  destruct Hy as [Hy | [Hy | Hy]].
  - pose proof (days_before_year_lt ya yb Hy). split; intros _; [|lia].
    destruct (is_leap ya); lia.
  - subst yb.
    assert (Hm : ma < mb \/ ma = mb \/ mb < ma) by lia.
    destruct Hm as [Hm | [Hm | Hm]].
    + pose proof (days_before_month_mono ya ma mb). lia.
    + subst mb. lia.
    + pose proof (days_before_month_mono ya mb ma). lia.
  - pose proof (days_before_year_lt yb ya Hy). split; intros Hlt; [lia|].
    destruct (is_leap yb); lia.
Qed.

Lemma toordinal_inj a b :
  valid_date a -> valid_date b -> toordinal a = toordinal b -> a = b.
Proof.
  intros Ha Hb Heq.
  pose proof (toordinal_lt a b Ha Hb) as H1.
  pose proof (toordinal_lt b a Hb Ha) as H2.
  rewrite date_ltb_lt in H1, H2.
  destruct a as [ya ma da], b as [yb mb db]; simpl in *.
  assert (ya = yb) by lia. subst.
  assert (ma = mb) by lia. subst.
  assert (da = db) by lia. subst. reflexivity.
Qed.

Lemma month_day_spec leapyear r :
  0 <= r <= 364 ->
  let m := fst (month_day leapyear r) in
  let d := snd (month_day leapyear r) in
  1 <= m <= 12
  /\ 1 <= d <= DAYS_IN_MONTH m + (if (m =? 2) && leapyear then 1 else 0)
  /\ DAYS_BEFORE_MONTH m + (if (2 <? m) && leapyear then 1 else 0) + d
     = r + 1.
Proof.
  intros Hr. unfold month_day.
  rewrite Z.shiftr_div_pow2 by lia. change (2 ^ 5) with 32.
  pose proof (Z.div_mod (r + 50) 32 ltac:(lia)) as Hdm.
  pose proof (Z.mod_pos_bound (r + 50) 32 ltac:(lia)) as Hmb.
  set (m := (r + 50) / 32) in *.
  clearbody m.
  assert (Hm : 1 <= m <= 12) by lia.
  month_cases m; destruct leapyear; cbn -[Z.add Z.sub Z.mul];
    match goal with
    | |- context [ r <? ?p ] => destruct (Z.ltb_spec r p)
    end;
    repeat match goal with
      | |- context [Z.pos ?p - 1] =>
          let v := eval vm_compute in (Z.pos p - 1) in
          change (Z.pos p - 1) with v
      end;
    cbn -[Z.add Z.sub Z.mul]; lia.
Qed.

Lemma days_in_month_alt y m :
  days_in_month y m
  = DAYS_IN_MONTH m + (if (m =? 2) && is_leap y then 1 else 0).
Proof.
  unfold days_in_month. destruct (Z.eqb_spec m 2) as [-> | _].
  - destruct (is_leap y); reflexivity.
  - cbn [andb]. lia.
Qed.

(** [ord2ymd] inverts [ymd2ord]: the triple found for [n] is a calendar
    date (year bound apart) whose ordinal is [n]. *)
Lemma ord2ymd_spec n :
  1 <= n ->
  1 <= year (ord2ymd n)
  /\ 1 <= month (ord2ymd n) <= 12
  /\ 1 <= day (ord2ymd n)
          <= days_in_month (year (ord2ymd n)) (month (ord2ymd n))
  /\ toordinal (ord2ymd n) = n.
Proof.
  intros Hn. unfold toordinal, ord2ymd, DI400Y, DI100Y, DI4Y. cbv zeta.
  pose proof (Z.div_mod (n - 1) 146097 ltac:(lia)) as E400.
  pose proof (Z.mod_pos_bound (n - 1) 146097 ltac:(lia)) as B400.
  pose proof (Z.div_pos (n - 1) 146097 ltac:(lia) ltac:(lia)) as P400.
  set (n400 := (n - 1) / 146097) in *. set (r400 := (n - 1) mod 146097) in *.
  clearbody n400 r400.
  pose proof (Z.div_mod r400 36524 ltac:(lia)) as E100.
  pose proof (Z.mod_pos_bound r400 36524 ltac:(lia)) as B100.
  set (n100 := r400 / 36524) in *. set (r100 := r400 mod 36524) in *.
  clearbody n100 r100.
  pose proof (Z.div_mod r100 1461 ltac:(lia)) as E4.
  pose proof (Z.mod_pos_bound r100 1461 ltac:(lia)) as B4.
  set (n4 := r100 / 1461) in *. set (r4 := r100 mod 1461) in *.
  clearbody n4 r4.
  pose proof (Z.div_mod r4 365 ltac:(lia)) as E1.
  pose proof (Z.mod_pos_bound r4 365 ltac:(lia)) as B1.
  set (n1 := r4 / 365) in *. set (r := r4 mod 365) in *.
  clearbody n1 r.
  assert (R100 : 0 <= n100 <= 4) by lia.
  assert (R4 : 0 <= n4 <= 24) by lia.
  assert (R1 : 0 <= n1 <= 4) by lia.
  set (Y := n400 * 400 + 100 * n100 + 4 * n4 + n1).
  destruct ((n1 =? 4) || (n100 =? 4)) eqn:Edge.
  - (* the last day of a leap year *)
    assert (Hedge : n1 = 4 \/ n100 = 4)
      by (apply orb_true_iff in Edge; rewrite !Z.eqb_eq in Edge; exact Edge).
    cbn [year month day].
    replace (n400 * 400 + 1 + (n100 * 100 + n4 * 4 + n1) - 1) with Y by lia.
    assert (HL : is_leap Y = true).
    { destruct (is_leap_cases Y) as [(-> & _) | (_ & HY)]; [reflexivity|].
      exfalso. subst Y. Z.div_mod_to_equations. lia. }
    assert (DY : days_before_year Y + 366 = n).
    { unfold days_before_year. cbv zeta. subst Y.
      Z.div_mod_to_equations. lia. }
    unfold ymd2ord, days_in_month, days_before_month. rewrite HL.
    cbn -[Z.add Z.sub Z.mul days_before_year]. lia.
  - apply orb_false_iff in Edge. rewrite !Z.eqb_neq in Edge.
    destruct Edge as [N1 N100].
    assert (DY : days_before_year (Y + 1)
                 = 146097 * n400 + 36524 * n100 + 1461 * n4 + 365 * n1).
    { unfold days_before_year. cbv zeta. replace (Y + 1 - 1) with Y by lia.
      subst Y. Z.div_mod_to_equations. lia. }
    set (leapyear := (n1 =? 3) && (negb (n4 =? 24) || (n100 =? 3))).
    pose proof (month_day_spec leapyear r ltac:(lia)) as MD.
    unfold month_day in MD. cbv zeta in MD.
    replace (n400 * 400 + 1 + (n100 * 100 + n4 * 4 + n1)) with (Y + 1) by lia.
    assert (HL : is_leap (Y + 1) = leapyear).
    { subst leapyear.
      destruct (Z.eqb_spec n1 3), (Z.eqb_spec n4 24), (Z.eqb_spec n100 3);
        cbn [andb orb negb];
        destruct (is_leap_cases (Y + 1)) as [(-> & HY) | (-> & HY)];
        try reflexivity; exfalso; subst Y; Z.div_mod_to_equations; lia. }
    rewrite days_in_month_alt. unfold ymd2ord, days_before_month.
    assert (HY0 : 0 <= Y) by (subst Y; lia).
    clearbody leapyear Y.
    destruct (r <? _) eqn:Hlt; cbn [year month day fst snd] in *;
      rewrite HL; rewrite DY; lia.
Qed.


Lemma days_before_year_1 : days_before_year 1 = 0.
Proof. reflexivity. Qed.

Lemma days_before_year_10000 : days_before_year 10000 = MAXORDINAL.
Proof. reflexivity. Qed.

Lemma days_before_year_nonneg y : 1 <= y -> 0 <= days_before_year y.
Proof.
  intros Hy. destruct (Z.eq_dec y 1) as [-> | Hne].
  - rewrite days_before_year_1. lia.
  - pose proof (days_before_year_lt 1 y ltac:(lia)) as H.
    rewrite days_before_year_1 in H. destruct (is_leap 1); lia.
Qed.

Lemma toordinal_bounds d :
  valid_date d -> 1 <= toordinal d <= MAXORDINAL.
Proof.
  rewrite valid_date_iff. intros (Hy & Hm & Hd).
  unfold toordinal, ymd2ord.
  pose proof (days_before_year_nonneg (year d) ltac:(lia)).
  pose proof (days_before_month_bounds (year d) (month d) Hm).
  pose proof (days_before_year_lt (year d) 10000 ltac:(lia)) as H10.
  rewrite days_before_year_10000 in H10.
  destruct (is_leap (year d)); lia.
Qed.

Lemma fromordinal_spec n :
  1 <= n <= MAXORDINAL ->
  valid_date (fromordinal n) /\ toordinal (fromordinal n) = n.
Proof.
  intros Hn. unfold fromordinal.
  destruct (ord2ymd_spec n ltac:(lia)) as (Hy & Hm & Hd & Ho).
  generalize dependent (ord2ymd n). intros [y m d]. cbn [year month day].
  intros Hy Hm Hd Ho.
  split; [|exact Ho].
  apply valid_date_iff. cbn [year month day]. repeat split; try lia.
  destruct (Z.le_gt_cases y 9999) as [Hle | Hgt]; [exact Hle|].
  exfalso. unfold toordinal, ymd2ord in Ho. cbn [year month day] in Ho.
  pose proof (days_before_month_bounds y m Hm) as Hb.
  assert (Hmax : MAXORDINAL <= days_before_year y).
  { rewrite <- days_before_year_10000.
    destruct (Z.eq_dec y 10000) as [-> | Hne]; [lia|].
    pose proof (days_before_year_lt 10000 y ltac:(lia)) as H1.
    destruct (is_leap 10000); lia. }
  lia.
Qed.

Lemma fromordinal_toordinal d :
  valid_date d -> fromordinal (toordinal d) = d.
Proof.
  intros Hd. pose proof (toordinal_bounds d Hd) as Hb.
  destruct (fromordinal_spec _ Hb) as [Hv Ho].
  apply toordinal_inj; assumption.
Qed.

Lemma toordinal_le a b :
  valid_date a -> valid_date b ->
  (date_leb a b = true <-> toordinal a <= toordinal b).
Proof.
  intros Ha Hb. unfold date_leb. rewrite negb_true_iff.
  pose proof (toordinal_lt b a Hb Ha) as H.
  destruct (date_ltb b a); split; intros; try discriminate; try reflexivity.
  - destruct H as [H _]. specialize (H eq_refl). lia.
  - destruct (Z.lt_ge_cases (toordinal b) (toordinal a)) as [Hlt | Hge]; [|lia].
    apply H in Hlt. discriminate.
Qed.

Lemma toordinal_gt a b :
  valid_date a -> valid_date b ->
  (date_gtb a b = true <-> toordinal b < toordinal a).
Proof. intros Ha Hb. unfold date_gtb. apply toordinal_lt; assumption. Qed.

(** *** [date] operations on valid dates *)

Lemma add_days_Ok d n d' :
  valid_date d -> add_days d n = Ok d' ->
  valid_date d' /\ toordinal d' = toordinal d + n.
Proof.
  intros Hd. unfold add_days. cbv zeta.
  destruct ((0 <? toordinal d + n) && (toordinal d + n <=? MAXORDINAL)) eqn:E;
    [|discriminate].
  apply andb_true_iff in E. destruct E as [E1 E2].
  apply Z.ltb_lt in E1. apply Z.leb_le in E2.
  intros [= <-]. apply fromordinal_spec. lia.
Qed.

Lemma add_days_in_range d n :
  1 <= toordinal d + n <= MAXORDINAL ->
  add_days d n = Ok (fromordinal (toordinal d + n)).
Proof.
  intros H. unfold add_days. cbv zeta.
  destruct (Z.ltb_spec 0 (toordinal d + n)); [|lia].
  destruct (Z.leb_spec (toordinal d + n) MAXORDINAL); [|lia].
  reflexivity.
Qed.

Lemma add_days_Raise d n e :
  add_days d n = Raise e ->
  e = OverflowError /\ ~ (1 <= toordinal d + n <= MAXORDINAL).
Proof.
  unfold add_days. cbv zeta.
  destruct (Z.ltb_spec 0 (toordinal d + n));
    destruct (Z.leb_spec (toordinal d + n) MAXORDINAL); cbn [andb];
    intros [= <-]; split; try reflexivity; lia.
Qed.

Lemma new_date_Ok y m d r :
  new_date y m d = Ok r -> r = mkdate y m d /\ valid_date r.
Proof.
  unfold new_date. destruct (check_date_fields y m d) eqn:E; [|discriminate].
  intros [= <-]. split; [reflexivity | exact E].
Qed.

Lemma new_date_valid y m d :
  check_date_fields y m d = true -> new_date y m d = Ok (mkdate y m d).
Proof. unfold new_date. intros ->. reflexivity. Qed.

Lemma new_date_Raise y m d e :
  new_date y m d = Raise e ->
  e = ValueError /\ check_date_fields y m d = false.
Proof.
  unfold new_date. destruct (check_date_fields y m d); [discriminate|].
  intros [= <-]. split; reflexivity.
Qed.

Lemma weekday_bounds d : 0 <= weekday d <= 6.
Proof. unfold weekday. pose proof (Z.mod_pos_bound (toordinal d + 6) 7). lia. Qed.

(** The first day of a month, of the following month and of the following
    year, as ordinals. *)
Lemma ymd2ord_next_month y m :
  1 <= m <= 11 -> ymd2ord y (m + 1) 1 = ymd2ord y m 1 + days_in_month y m.
Proof.
  intros Hm. unfold ymd2ord. rewrite days_before_month_succ by exact Hm. lia.
Qed.

Lemma ymd2ord_next_year y :
  ymd2ord (y + 1) 1 1 = ymd2ord y 12 1 + days_in_month y 12.
Proof.
  unfold ymd2ord. rewrite days_before_year_succ.
  pose proof (days_before_month_december y).
  replace (days_in_month y 12) with 31 by reflexivity.
  replace (days_before_month (y + 1) 1) with 0 by reflexivity.
  destruct (is_leap y); lia.
Qed.

Lemma ymd2ord_day y m d : ymd2ord y m d = ymd2ord y m 1 + (d - 1).
Proof. unfold ymd2ord. lia. Qed.

(** The first of a later month lies after every date of an earlier one. *)
Lemma ymd2ord_later_month y m d y' m' :
  1 <= m <= 12 -> 1 <= m' <= 12 -> d <= days_in_month y m ->
  (y < y' \/ (y = y' /\ m < m')) ->
  ymd2ord y m d < ymd2ord y' m' 1.
Proof.
  intros Hm Hm' Hd Hlt. unfold ymd2ord.
  pose proof (days_before_month_bounds y m Hm).
  pose proof (days_before_month_bounds y' m' Hm').
  destruct Hlt as [Hy | [-> Hmm]].
  - pose proof (days_before_year_lt y y' Hy). destruct (is_leap y); lia.
  - pose proof (days_before_month_mono y' m m'). lia.
Qed.

(** ** The horizon setter *)

Lemma datetime_not_bound : global_bound "datetime" = false.
Proof. reflexivity. Qed.

(** C3: [set_interval_end] called without argument is meant to store the
    current date, but the name [datetime] is not imported by the module:
    the call raises [NameError] whatever the clock says, and so does
    [get_events] called without a horizon, which leaves the rule as it
    was. *)
Theorem set_interval_end_no_argument (today : date) (self : RecurringEvent) :
  set_interval_end today self PyNone = Raise NameError
  /\ forall fuel, get_events today fuel self PyNone
                  = Some (Raise NameError, self).
Proof.
  split.
  - reflexivity.
  - intros fuel. reflexivity.
Qed.

(** With a date as argument the horizon is stored. *)
Lemma set_interval_end_date today self h :
  set_interval_end today self (PyDate h) = Ok (with_interval_end self h).
Proof. reflexivity. Qed.

(** ** Construction *)

Lemma truthy_is_set o : truthy o = true <-> is_set o.
Proof.
  unfold truthy, is_set. destruct o as [v|].
  - rewrite negb_true_iff, Z.eqb_neq. split.
    + intros H. exists v. split; [reflexivity | exact H].
    + intros (v' & [= <-] & H). exact H.
  - split; [discriminate | intros (v & H & _); discriminate].
Qed.

Lemma truthy_or_None o : truthy (or_None o) = truthy o.
Proof. unfold or_None. destruct (truthy o) eqn:E; [exact E | reflexivity]. Qed.

Lemma val_or_None o : truthy o = true -> val (or_None o) = val o.
Proof. unfold or_None. intros ->. reflexivity. Qed.

Lemma eq_int_or_None o k : k <> 0 -> eq_int (or_None o) k = eq_int o k.
Proof.
  intros Hk. unfold or_None, truthy. destruct o as [v|]; [|reflexivity].
  destruct (Z.eqb_spec v 0) as [-> | _]; cbn [negb]; [|reflexivity].
  cbn [eq_int]. symmetry. apply Z.eqb_neq. lia.
Qed.

Lemma init_Ok last_occurence recurs interval day ordinal wd
    first_occurence self :
  __init__ last_occurence recurs interval day ordinal wd first_occurence
  = Ok self ->
  constructed self
  /\ self = mkRecurringEvent
              (effective_last_occurence last_occurence first_occurence)
              recurs interval (or_None day) (or_None ordinal) (or_None wd)
              None.
Proof.
  unfold __init__, constructed. cbv zeta.
  destruct (_check_consistency _) as [[]|e] eqn:E; [|discriminate].
  cbn [bind]. intros [= <-]. split; [exact E | reflexivity].
Qed.

(** [__init__] stores its optional arguments through [x if x else None],
    which changes nothing when applied again. *)
Lemma or_None_idem o : or_None (or_None o) = or_None o.
Proof.
  destruct o as [v|]; [|reflexivity]. unfold or_None, truthy.
  destruct (v =? 0) eqn:Ev; cbn [negb]; rewrite ?Ev; reflexivity.
Qed.

(** C6, counterexample: a day of 0 lies outside 1..31 and an ordinal of 0
    outside 1..5, yet the constructor accepts both: it takes 0 as an
    argument that was not given. *)
Lemma init_accepts_day_zero :
  ~ (1 <= 0 <= 31) /\ ~ (1 <= 0 <= 5)
  /\ __init__ (PyDate (mkdate 2023 1 15)) 4 1 (Some 0) None None PyNone
     = Ok (mkRecurringEvent (PyDate (mkdate 2023 1 15)) 4 1 None None None
                            None)
  /\ __init__ (PyDate (mkdate 2023 1 15)) 4 1 None (Some 0) None PyNone
     = Ok (mkRecurringEvent (PyDate (mkdate 2023 1 15)) 4 1 None None None
                            None).
Proof. repeat split; try lia; reflexivity. Qed.

(** C6, amended: construction raises when the date kept as last occurrence
    is not a date, when the day is an integer other than 0 outside 1..31,
    when the ordinal is an integer other than 0 outside 1..5, and when an
    invariant is violated by the arguments that are set.  A day, an ordinal
    or a weekday of 0 is taken as not given: whatever the other arguments
    are, the constructor ends as it does with [None] in that place, and as
    it does on the arguments with every 0 replaced by [None]. *)
Theorem init_rejects last_occurence recurs interval day ordinal wd
    first_occurence :
  ((isinstance_date
      (effective_last_occurence last_occurence first_occurence) = false
    \/ (exists v, day = Some v /\ v <> 0 /\ ~ (1 <= v <= 31))
    \/ (exists v, ordinal = Some v /\ v <> 0 /\ ~ (1 <= v <= 5))
    \/ invariant_violated recurs day ordinal wd) ->
   exists e,
     __init__ last_occurence recurs interval day ordinal wd first_occurence
     = Raise e)
  /\ __init__ last_occurence recurs interval (Some 0) ordinal wd
              first_occurence
     = __init__ last_occurence recurs interval None ordinal wd
                first_occurence
  /\ __init__ last_occurence recurs interval day (Some 0) wd first_occurence
     = __init__ last_occurence recurs interval day None wd first_occurence
  /\ __init__ last_occurence recurs interval day ordinal (Some 0)
              first_occurence
     = __init__ last_occurence recurs interval day ordinal None
                first_occurence
  /\ __init__ last_occurence recurs interval (or_None day) (or_None ordinal)
              (or_None wd) first_occurence
     = __init__ last_occurence recurs interval day ordinal wd
                first_occurence.
Proof.
  split; [|split; [|split; [|split]]]; try reflexivity.
  2: { unfold __init__. cbv zeta. rewrite !or_None_idem. reflexivity. }
  - intros H.
    destruct (__init__ _ _ _ _ _ _ _) as [self|e] eqn:E;
      [|exists e; reflexivity].
    exfalso. apply init_Ok in E. destruct E as [C ->].
    unfold constructed, _check_consistency in C.
    cbn [_last_occurence _recurs _interval _day _ordinal _weekday] in C.
    fold (effective_last_occurence last_occurence first_occurence) in C.
    rewrite !truthy_or_None in C.
    rewrite !(eq_int_or_None wd 8) in C by lia.
    destruct (isinstance_date _) eqn:Edate; [|discriminate].
    cbn [negb] in C.
    destruct H as [H | [(v & -> & Hv0 & Hv) | [(v & -> & Hv0 & Hv) | H]]].
    + discriminate.
    + assert (Ht : truthy (Some v) = true)
        by (apply truthy_is_set; exists v; auto).
      rewrite (val_or_None _ Ht), Ht in C. cbn [val andb] in C.
      destruct (Z.ltb_spec v 1), (Z.ltb_spec 31 v); cbn [orb] in C;
        try discriminate; lia.
    + assert (Ht : truthy (Some v) = true)
        by (apply truthy_is_set; exists v; auto).
      destruct (truthy day && _); [discriminate|].
      rewrite (val_or_None _ Ht), Ht in C. cbn [val andb] in C.
      destruct (Z.ltb_spec v 1), (Z.ltb_spec 5 v); cbn [orb] in C;
        try discriminate; lia.
    + destruct (truthy day && (_ || _)); [discriminate|].
      destruct (truthy ordinal && (_ || _)); [discriminate|].
      unfold invariant_violated in H. rewrite <- !truthy_is_set in H.
      destruct (truthy day), (truthy ordinal), (truthy wd);
        cbn [andb negb orb] in C; try discriminate;
        destruct (Z.eqb_spec recurs 4), (Z.eqb_spec recurs 2),
          (Z.eqb_spec recurs 3); cbn [andb negb orb] in C;
        try discriminate;
        try (destruct (eq_int wd 8) eqn:E8; cbn [andb negb orb] in C;
             try discriminate);
        repeat match goal with
          | H : _ \/ _ |- _ => destruct H
          | H : _ /\ _ |- _ => destruct H
          end;
        try discriminate; try lia; try congruence;
        try (subst wd; cbn in E8; discriminate).
Qed.

Lemma init_rejects_witness :
  (exists e,
      __init__ (PyDate (mkdate 2023 1 15)) 4 1 (Some 32) None None PyNone
      = Raise e)
  /\ __init__ (PyDate (mkdate 2023 1 15)) 3 1 None None (Some 0) PyNone
     = Ok (mkRecurringEvent (PyDate (mkdate 2023 1 15)) 3 1 None None None
                            None).
Proof.
  destruct (init_rejects (PyDate (mkdate 2023 1 15)) 4 1 (Some 32) None None
                         PyNone) as [Rejects _].
  destruct (init_rejects (PyDate (mkdate 2023 1 15)) 3 1 None None None
                         PyNone) as (_ & _ & _ & Weekday0 & _).
  split.
  - apply Rejects. right. left. exists 32. repeat split; lia.
  - rewrite Weekday0. reflexivity.
Defined.

Lemma constructed_last_occurence self :
  constructed self -> exists d, _last_occurence self = PyDate d.
Proof.
  unfold constructed, _check_consistency.
  destruct (_last_occurence self) as [|d|o]; cbn [isinstance_date negb];
    try discriminate.
  intros _. exists d. reflexivity.
Qed.

(** ** Rules that no branch of the dispatch handles *)

(** C10: on a constructed rule with neither weekday nor day set whose
    recurrence is weekly (3) or monthly (4), [get_next_date] returns [None]
    for every starting date, and [get_events], given a horizon, raises
    [TypeError] at its first comparison without recording an occurrence. *)
Theorem get_next_date_falls_through (self : RecurringEvent) :
  constructed self ->
  _weekday self = None -> _day self = None ->
  _recurs self = 3 \/ _recurs self = 4 ->
  (forall starting_date, get_next_date self starting_date = Ok None)
  /\ (forall today fuel horizon,
         get_events today (S fuel) self (PyDate horizon)
         = Some (Raise TypeError, with_interval_end self horizon)).
Proof.
  intros C Hw Hd Hr.
  assert (N : forall d, get_next_date self d = Ok None).
  { intros d. unfold get_next_date. rewrite Hw, Hd. cbn [truthy].
    destruct Hr as [-> | ->]; reflexivity. }
  split; [exact N|].
  intros today fuel horizon.
  destruct (constructed_last_occurence self C) as [d0 Hd0].
  unfold get_events. rewrite set_interval_end_date.
  cbn [with_interval_end _last_occurence]. rewrite Hd0.
  cbn [get_events_loop].
  assert (N' : get_next_date (with_interval_end self horizon) d0 = Ok None).
  { rewrite <- (N d0). reflexivity. }
  unfold with_interval_end in *. rewrite N'. reflexivity.
Qed.

(** The shape [RecurringEvent(4, 1, ordinal=5)] of the module's comments. *)
Lemma get_next_date_falls_through_witness :
  __init__ (PyDate (mkdate 2023 1 31)) 4 1 None (Some 5) None PyNone
  = Ok (mkRecurringEvent (PyDate (mkdate 2023 1 31)) 4 1 None (Some 5) None
                         None)
  /\ (forall starting_date,
         get_next_date
           (mkRecurringEvent (PyDate (mkdate 2023 1 31)) 4 1 None (Some 5)
                             None None) starting_date = Ok None)
  /\ (forall today fuel horizon,
         get_events today (S fuel)
           (mkRecurringEvent (PyDate (mkdate 2023 1 31)) 4 1 None (Some 5)
                             None None) (PyDate horizon)
         = Some (Raise TypeError,
                 with_interval_end
                   (mkRecurringEvent (PyDate (mkdate 2023 1 31)) 4 1 None
                                     (Some 5) None None) horizon)).
Proof.
  split; [reflexivity|].
  apply (get_next_date_falls_through
           (mkRecurringEvent (PyDate (mkdate 2023 1 31)) 4 1 None (Some 5)
                             None None)).
  - reflexivity.
  - reflexivity.
  - reflexivity.
  - right. reflexivity.
Defined.

(** ** The month and year rollover *)

Lemma get_day_period_rollover self d :
  _get_day_period self d
  = let '(year_incr, target_month) := rollover (month d) (_interval self) in
    except_ValueError
      (replace d (Some (year d + year_incr)) (Some target_month)
               (Some (val (_day self))))
      (d1 <- replace d (Some (year d + year_incr)) (Some (target_month + 1))
                     (Some 1) ;;
       add_days d1 (-1)).
Proof. reflexivity. Qed.

Lemma get_weekday_period_rollover self d :
  truthy (_ordinal self) = true ->
  _get_weekday_period self d
  = let '(year_incr, target_month) := rollover (month d) (_interval self) in
    d1 <- replace d (Some (year d + year_incr)) (Some target_month) (Some 1) ;;
    get_nth_weekday_of_month d1 (val (_ordinal self)) (val (_weekday self)).
Proof. intros H. unfold _get_weekday_period. rewrite H. reflexivity. Qed.

Lemma get_ordinal_workday_period_rollover self d :
  _get_ordinal_workday_period self d
  = let '(year_incr, target_month) := rollover (month d) (_interval self) in
    d1 <- replace d (Some (year d + year_incr)) (Some target_month) (Some 1) ;;
    if eq_int (_ordinal self) 5 then get_last_workday_of_month d1
    else get_nth_workday_of_month d1 (_ordinal self).
Proof. reflexivity. Qed.

Lemma rollover_small m i :
  1 <= m <= 12 -> 1 <= i <= 12 ->
  rollover m i = if m + i <? 13 then (0, m + i) else (1, m + i - 12).
Proof.
  intros Hm Hi. unfold rollover. cbv zeta.
  destruct (Z.ltb_spec (m + i) 13).
  - rewrite Z.quot_small by lia. f_equal. lia.
  - assert (Hq : Z.quot (m + i) 13 = 1).
    { rewrite Z.quot_div_nonneg by lia. symmetry.
      apply Z.div_unique with (r := m + i - 13); lia. }
    rewrite Hq. f_equal.
Qed.

Lemma rollover_in_range m i :
  1 <= m <= 12 -> 1 <= i <= 12 -> 1 <= snd (rollover m i) <= 12.
Proof.
  intros Hm Hi. rewrite (rollover_small m i Hm Hi).
  destruct (Z.ltb_spec (m + i) 13); cbn [snd]; lia.
Qed.

(** C5, counterexample: from December an interval of 13 months gives
    month 13 of the following year, which is no month. *)
Lemma rollover_december_13 :
  rollover 12 13 = (1, 13) /\ ~ (1 <= snd (rollover 12 13) <= 12).
Proof. split; [reflexivity | cbn; lia]. Qed.

(** C5, amended: for a month m in 1..12 and an interval i in 1..12 (the
    range the docstring gives for the interval) the rollover yields a
    target month in 1..12, and target year and month lie exactly i months
    after (year, m). *)
Theorem rollover_correct (m i : Z) :
  1 <= m <= 12 -> 1 <= i <= 12 ->
  1 <= snd (rollover m i) <= 12
  /\ forall y,
       12 * (y + fst (rollover m i)) + snd (rollover m i) = 12 * y + m + i.
Proof.
  intros Hm Hi. rewrite (rollover_small m i Hm Hi).
  destruct (Z.ltb_spec (m + i) 13); cbn [fst snd]; split; intros; lia.
Qed.

Lemma rollover_correct_witness :
  1 <= snd (rollover 12 12) <= 12
  /\ forall y,
       12 * (y + fst (rollover 12 12)) + snd (rollover 12 12)
       = 12 * y + 12 + 12.
Proof. apply (rollover_correct 12 12); lia. Defined.

(** Beyond 12 the formula breaks for some month, whatever the interval. *)
Lemma rollover_long_interval i :
  13 <= i ->
  exists m, 1 <= m <= 12 /\ ~ (1 <= snd (rollover m i) <= 12).
Proof.
  intros Hi.
  (* the month that makes m + i congruent to 1 modulo 12 *)
  exists (12 - (i + 11) mod 12).
  pose proof (Z.mod_pos_bound (i + 11) 12 ltac:(lia)) as Hb.
  pose proof (Z.div_mod (i + 11) 12 ltac:(lia)) as Hdm.
  set (m := 12 - (i + 11) mod 12) in *.
  split; [lia|]. unfold rollover. cbv zeta. cbn [fst snd].
  rewrite Z.quot_div_nonneg by lia.
  pose proof (Z.div_mod (m + i) 13 ltac:(lia)) as H13.
  pose proof (Z.mod_pos_bound (m + i) 13 ltac:(lia)) as B13.
  lia.
Qed.

(** ** Workday skipping *)

Lemma weekday_add d k :
  weekday d = (toordinal d + 6) mod 7
  /\ (toordinal d + k + 6) mod 7 = (weekday d + k) mod 7.
Proof.
  unfold weekday. split; [reflexivity|].
  rewrite Zplus_mod_idemp_l. f_equal. lia.
Qed.

(** No weekend day lies within two days of the last date, a Friday. *)
Lemma weekend_before_max d :
  valid_date d -> 5 <= weekday d -> toordinal d + 2 <= MAXORDINAL.
Proof.
  intros Hd. pose proof (toordinal_bounds d Hd) as Hb.
  unfold weekday, MAXORDINAL in *. Z.div_mod_to_equations. lia.
Qed.

(** C4, counterexample: from Saturday 2023-06-03 one day ahead is Sunday
    2023-06-04; the result is Tuesday 2023-06-06, not the Monday that
    follows the Sunday. *)
Lemma get_next_workday_by_interval_sunday :
  add_days (mkdate 2023 6 3) 1 = Ok (mkdate 2023 6 4)
  /\ weekday (mkdate 2023 6 4) = 6
  /\ get_next_workday_by_interval (mkdate 2023 6 3) 1 = Ok (mkdate 2023 6 6)
  /\ weekday (mkdate 2023 6 6) = 1
  /\ get_next_workday_by_interval (mkdate 2023 6 3) 1
     <> add_days (mkdate 2023 6 4) 1.
Proof. vm_compute. repeat split; discriminate. Qed.

(** C4, amended: when d + n is a Monday to Friday the result is d + n;
    when d + n is a Saturday or a Sunday the result is two days later: the
    Monday that follows a Saturday, the Tuesday that follows a Sunday. *)
Theorem get_next_workday_by_interval_spec (d : date) (n : Z) (landing : date) :
  valid_date d ->
  add_days d n = Ok landing ->
  (weekday landing <= 4 -> get_next_workday_by_interval d n = Ok landing)
  /\ (5 <= weekday landing ->
      exists r,
        get_next_workday_by_interval d n = Ok r
        /\ valid_date r
        /\ toordinal r = toordinal d + n + 2
        /\ (weekday landing = 5 -> weekday r = 0)
        /\ (weekday landing = 6 -> weekday r = 1)).
Proof.
  intros Hd Hadd.
  destruct (add_days_Ok d n landing Hd Hadd) as [Hl Ho].
  unfold get_next_workday_by_interval. rewrite Hadd. cbn [bind].
  split; intros Hw.
  - destruct (Z.ltb_spec 4 (weekday landing)); [lia | reflexivity].
  - destruct (Z.ltb_spec 4 (weekday landing)); [|lia].
    pose proof (weekend_before_max landing Hl Hw) as Hmax.
    pose proof (toordinal_bounds landing Hl) as Hb.
    rewrite add_days_in_range by lia.
    destruct (fromordinal_spec (toordinal landing + 2) ltac:(lia)) as [Hv Hr].
    eexists. split; [reflexivity|]. split; [exact Hv|].
    split; [lia|].
    unfold weekday in *. rewrite Hr.
    split; intros H5; Z.div_mod_to_equations; lia.
Qed.

Lemma get_next_workday_by_interval_spec_witness :
  (weekday (mkdate 2023 6 3) <= 4 ->
   get_next_workday_by_interval (mkdate 2023 6 2) 1 = Ok (mkdate 2023 6 3))
  /\ (5 <= weekday (mkdate 2023 6 3) ->
      exists r,
        get_next_workday_by_interval (mkdate 2023 6 2) 1 = Ok r
        /\ valid_date r
        /\ toordinal r = toordinal (mkdate 2023 6 2) + 1 + 2
        /\ (weekday (mkdate 2023 6 3) = 5 -> weekday r = 0)
        /\ (weekday (mkdate 2023 6 3) = 6 -> weekday r = 1)).
Proof.
  apply (get_next_workday_by_interval_spec (mkdate 2023 6 2) 1
                                           (mkdate 2023 6 3)).
  - reflexivity.
  - reflexivity.
Defined.

(** ** Monthly recurrence on a day of the month *)

Lemma replace_first_of_month d y m :
  1 <= y <= 9999 -> 1 <= m <= 12 ->
  replace d (Some y) (Some m) (Some 1) = Ok (mkdate y m 1)
  /\ valid_date (mkdate y m 1).
Proof.
  intros Hy Hm. unfold replace.
  assert (V : check_date_fields y m 1 = true).
  { apply check_date_fields_true.
    pose proof (days_in_month_bounds y m Hm). lia. }
  rewrite (new_date_valid _ _ _ V). split; [reflexivity | exact V].
Qed.

Lemma last_day_of_month_valid y m :
  1 <= y <= 9999 -> 1 <= m <= 12 ->
  valid_date (mkdate y m (days_in_month y m)).
Proof.
  intros Hy Hm. apply valid_date_iff. cbn [year month day].
  pose proof (days_in_month_bounds y m Hm). lia.
Qed.

(** The day before the first of the next month is the last of the month. *)
Lemma day_before_next_month y m :
  1 <= y <= 9999 -> 1 <= m <= 11 ->
  add_days (mkdate y (m + 1) 1) (-1) = Ok (mkdate y m (days_in_month y m)).
Proof.
  intros Hy Hm.
  pose proof (last_day_of_month_valid y m Hy ltac:(lia)) as Hv.
  pose proof (toordinal_bounds _ Hv) as Hb.
  assert (E : toordinal (mkdate y (m + 1) 1) + -1
              = toordinal (mkdate y m (days_in_month y m))).
  { unfold toordinal. cbn [year month day].
    rewrite ymd2ord_next_month by lia.
    rewrite (ymd2ord_day y m (days_in_month y m)). lia. }
  rewrite add_days_in_range by (rewrite E; exact Hb).
  rewrite E. rewrite fromordinal_toordinal by exact Hv. reflexivity.
Qed.

(** C7, counterexample: from a reference date in December 9999 the target
    month is January 10000, which no date can hold: both [replace] calls
    raise [ValueError], although the day exists in the target month. *)
Lemma get_day_period_year_overflow :
  valid_date (mkdate 9999 12 15)
  /\ _get_day_period
       (mkRecurringEvent (PyDate (mkdate 9999 12 15)) 4 1 (Some 15) None None
                         None)
       (mkdate 9999 12 15)
     = Raise ValueError.
Proof. split; reflexivity. Qed.

(** C7, amended: for a day in 1..31, an interval in 1..12 and a reference
    date whose target month does not leave the years up to 9999,
    [_get_day_period] returns the last day of the target month when that
    month is shorter than the day, and the day in the target month
    otherwise. *)
Theorem get_day_period_spec (self : RecurringEvent) (d : date) :
  valid_date d ->
  1 <= val (_day self) <= 31 ->
  1 <= _interval self <= 12 ->
  year d + fst (rollover (month d) (_interval self)) <= 9999 ->
  let ty := year d + fst (rollover (month d) (_interval self)) in
  let tm := snd (rollover (month d) (_interval self)) in
  (days_in_month ty tm < val (_day self) ->
   _get_day_period self d = Ok (mkdate ty tm (days_in_month ty tm)))
  /\ (val (_day self) <= days_in_month ty tm ->
      _get_day_period self d = Ok (mkdate ty tm (val (_day self)))).
Proof.
  intros Hd Hday Hi Hy. cbv zeta.
  apply valid_date_iff in Hd. destruct Hd as (Hyd & Hmd & Hdd).
  pose proof (rollover_in_range (month d) (_interval self) Hmd Hi) as Htm.
  assert (Hty : 1 <= year d + fst (rollover (month d) (_interval self))
                <= 9999).
  { rewrite (rollover_small _ _ Hmd Hi) in *.
    destruct (_ <? 13); cbn [fst] in *; lia. }
  rewrite get_day_period_rollover.
  destruct (rollover (month d) (_interval self)) as [yi tm] eqn:Er.
  cbn [fst snd] in *. set (ty := year d + yi) in *.
  split; intros Hcmp.
  - (* the day does not exist in the target month *)
    assert (F : check_date_fields ty tm (val (_day self)) = false).
    { destruct (check_date_fields _ _ _) eqn:E; [|reflexivity].
      apply check_date_fields_true in E. lia. }
    unfold replace at 1. unfold new_date. rewrite F.
    cbn [except_ValueError].
    assert (Htm11 : tm <= 11).
    { destruct (Z.eq_dec tm 12) as [E12 | ]; [|lia].
      rewrite E12 in Hcmp. unfold days_in_month in Hcmp.
      cbn [Z.eqb andb DAYS_IN_MONTH] in Hcmp. cbn in Hcmp. lia. }
    destruct (replace_first_of_month d ty (tm + 1) Hty ltac:(lia)) as [-> _].
    cbn [bind]. apply day_before_next_month; lia.
  - assert (T : check_date_fields ty tm (val (_day self)) = true)
      by (apply check_date_fields_true; lia).
    unfold replace at 1. rewrite (new_date_valid _ _ _ T). reflexivity.
Qed.

(** Scenario 4 of the documentation: day 31, reference 2023-01-31. *)
Lemma get_day_period_spec_witness :
  (days_in_month 2023 2 < 31 ->
   _get_day_period
     (mkRecurringEvent (PyDate (mkdate 2023 1 31)) 4 1 (Some 31) None None
                       None) (mkdate 2023 1 31)
   = Ok (mkdate 2023 2 28))
  /\ (31 <= days_in_month 2023 2 ->
      _get_day_period
        (mkRecurringEvent (PyDate (mkdate 2023 1 31)) 4 1 (Some 31) None None
                          None) (mkdate 2023 1 31)
      = Ok (mkdate 2023 2 31)).
Proof.
  apply (get_day_period_spec
           (mkRecurringEvent (PyDate (mkdate 2023 1 31)) 4 1 (Some 31) None
                             None None) (mkdate 2023 1 31)).
  - reflexivity.
  - cbn. lia.
  - cbn. lia.
  - cbn. lia.
Defined.

(** ** The n-th weekday of a month *)

(** The recursive call of the source is the function itself. *)
Lemma get_nth_weekday_of_month_unfold d o w :
  get_nth_weekday_of_month d o w
  = nth_weekday_body get_nth_weekday_of_month d o w.
Proof.
  unfold get_nth_weekday_of_month, nth_weekday_body.
  destruct (7 <? w) eqn:Ew; [reflexivity|].
  destruct (5 <? o); [reflexivity|].
  destruct (o =? 5); [|reflexivity].
  destruct (if month d <? 12 then _ else _) as [nm|e]; [|reflexivity].
  reflexivity.
Qed.

Lemma replace_day_1 d :
  valid_date d ->
  replace d None None (Some 1) = Ok (mkdate (year d) (month d) 1)
  /\ valid_date (mkdate (year d) (month d) 1).
Proof.
  intros Hd. apply valid_date_iff in Hd. destruct Hd as (Hy & Hm & Hdd).
  unfold replace.
  assert (V : check_date_fields (year d) (month d) 1 = true)
    by (apply check_date_fields_true; lia).
  rewrite (new_date_valid _ _ _ V). split; [reflexivity | exact V].
Qed.

Lemma month_start_bounds d :
  valid_date d ->
  1 <= month_start d
  /\ month_start d + days_in_month (year d) (month d) - 1 <= MAXORDINAL
  /\ toordinal d = month_start d + (day d - 1).
Proof.
  intros Hd. pose proof Hd as Hd'.
  apply valid_date_iff in Hd'. destruct Hd' as (Hy & Hm & Hdd).
  pose proof (replace_day_1 d Hd) as [_ V1].
  pose proof (toordinal_bounds _ V1) as B1.
  pose proof (toordinal_bounds _ (last_day_of_month_valid _ _ Hy Hm)) as B2.
  unfold toordinal in *. cbn [year month day] in *.
  rewrite (ymd2ord_day _ _ (days_in_month _ _)) in B2.
  rewrite (ymd2ord_day _ _ (day d)). unfold month_start. lia.
Qed.

(** A date is determined by its month and its ordinal. *)
Lemma fromordinal_in_month d k :
  valid_date d -> 1 <= k <= days_in_month (year d) (month d) ->
  fromordinal (month_start d + (k - 1)) = mkdate (year d) (month d) k.
Proof.
  intros Hd Hk. apply valid_date_iff in Hd. destruct Hd as (Hy & Hm & Hdd).
  assert (V : valid_date (mkdate (year d) (month d) k))
    by (apply valid_date_iff; cbn [year month day]; lia).
  rewrite <- (fromordinal_toordinal _ V). f_equal.
  unfold toordinal, month_start. cbn [year month day].
  rewrite (ymd2ord_day _ _ k). reflexivity.
Qed.

(** Ordinals 1 to 4, and whatever lies below: the first matching weekday of
    the month plus whole weeks. *)
Lemma nth_weekday_body_ordinal f d o w r :
  valid_date d -> w <= 7 -> o <= 4 ->
  nth_weekday_body f d o w = Ok r ->
  valid_date r
  /\ toordinal r
     = month_start d + (w - 1 - (month_start d + 6) mod 7) mod 7
       + 7 * (o - 1).
Proof.
  intros Hd Hw Ho. unfold nth_weekday_body.
  destruct (Z.ltb_spec 7 w); [lia|].
  destruct (Z.ltb_spec 5 o); [lia|].
  destruct (Z.eqb_spec o 5); [lia|].
  destruct (replace_day_1 d Hd) as [-> V1]. cbn [bind].
  destruct (add_days _ ((w - 1 - _) mod 7)) as [r1|] eqn:E1; [|discriminate].
  cbn [bind].
  destruct (add_days r1 _) as [r2|] eqn:E2; [|discriminate].
  cbn [bind]. intros [= <-].
  destruct (add_days_Ok _ _ _ V1 E1) as [V2 O2].
  destruct (add_days_Ok _ _ _ V2 E2) as [V3 O3].
  split; [exact V3|]. rewrite O3, O2. reflexivity.
Qed.

Lemma nth_weekday_body_ordinal_Ok f d o w :
  valid_date d -> w <= 7 -> o <= 4 ->
  1 <= month_start d + (w - 1 - (month_start d + 6) mod 7) mod 7
       + 7 * (o - 1) <= MAXORDINAL ->
  nth_weekday_body f d o w
  = Ok (fromordinal
          (month_start d + (w - 1 - (month_start d + 6) mod 7) mod 7
           + 7 * (o - 1))).
Proof.
  intros Hd Hw Ho Hr. unfold nth_weekday_body.
  destruct (Z.ltb_spec 7 w); [lia|].
  destruct (Z.ltb_spec 5 o); [lia|].
  destruct (Z.eqb_spec o 5); [lia|].
  destruct (replace_day_1 d Hd) as [-> V1]. cbn [bind].
  pose proof (month_start_bounds d Hd) as (B1 & B2 & _).
  pose proof (days_in_month_bounds (year d) (month d)
                ltac:(apply valid_date_iff in Hd; lia)) as Bd.
  pose proof (Z.mod_pos_bound (w - 1 - (month_start d + 6) mod 7) 7
                ltac:(lia)) as Ba.
  assert (E : toordinal (mkdate (year d) (month d) 1) = month_start d)
    by reflexivity.
  unfold weekday. rewrite E.
  rewrite add_days_in_range by (rewrite E; lia). cbn [bind].
  destruct (fromordinal_spec
              (month_start d + (w - 1 - (month_start d + 6) mod 7) mod 7)
              ltac:(lia)) as [V2 O2].
  rewrite E.
  rewrite add_days_in_range by (rewrite O2; lia). cbn [bind].
  rewrite O2. reflexivity.
Qed.

Lemma next_month_replace d :
  valid_date d -> ~ (year d = 9999 /\ month d = 12) ->
  (if month d <? 12 then replace d None (Some (month d + 1)) (Some 1)
   else replace d (Some (year d + 1)) (Some 1) (Some 1))
  = Ok (first_of_next_month d)
  /\ valid_date (first_of_next_month d)
  /\ month_start (first_of_next_month d)
     = month_start d + days_in_month (year d) (month d).
Proof.
  intros Hd Hlast. apply valid_date_iff in Hd. destruct Hd as (Hy & Hm & Hdd).
  unfold first_of_next_month, month_start.
  destruct (Z.ltb_spec (month d) 12) as [Hlt | Hge].
  - destruct (replace_first_of_month d (year d) (month d + 1) Hy ltac:(lia))
      as [E V].
    unfold replace in *. rewrite E. cbn [year month].
    repeat split; [exact V|]. apply ymd2ord_next_month. lia.
  - assert (Hm12 : month d = 12) by lia.
    destruct (replace_first_of_month d (year d + 1) 1 ltac:(lia) ltac:(lia))
      as [E V].
    rewrite E. cbn [year month]. repeat split; [exact V|].
    rewrite Hm12. apply ymd2ord_next_year.
Qed.

(** C8, counterexample: in December 9999 the following month is January
    10000, so [replace] raises [ValueError], although the last Friday of
    that December, 9999-12-31, is a date. *)
Lemma get_nth_weekday_of_month_december_9999 :
  valid_date (mkdate 9999 12 15)
  /\ get_nth_weekday_of_month (mkdate 9999 12 15) 5 5 = Raise ValueError
  /\ valid_date (mkdate 9999 12 31) /\ weekday (mkdate 9999 12 31) = 5 - 1.
Proof. repeat split. Qed.

(** C8, amended: for every date d outside December 9999 and every weekday w
    in 1..7, [get_nth_weekday_of_month d 5 w] returns the last date of the
    month of d that falls on weekday w (December, with the step to January
    of the next year, included), and that date is the result for ordinal 1
    at the first of the following month, less 7 days. *)
Theorem get_nth_weekday_of_month_last (d : date) (w : Z) :
  valid_date d -> 1 <= w <= 7 ->
  ~ (year d = 9999 /\ month d = 12) ->
  exists r first_next,
    get_nth_weekday_of_month d 5 w = Ok r
    /\ valid_date r
    /\ year r = year d /\ month r = month d /\ weekday r = w - 1
    /\ (forall d', valid_date d' -> year d' = year d -> month d' = month d ->
                   weekday d' = w - 1 -> day d' <= day r)
    /\ get_nth_weekday_of_month (first_of_next_month d) 1 w = Ok first_next
    /\ add_days first_next (-7) = Ok r.
Proof.
  intros Hd Hw Hlast.
  destruct (next_month_replace d Hd Hlast) as (Enm & Vnm & Snm).
  pose proof (month_start_bounds d Hd) as (B1 & B2 & _).
  pose proof (month_start_bounds _ Vnm) as (B1' & B2' & _).
  assert (Hm : 1 <= month d <= 12) by (apply valid_date_iff in Hd; lia).
  pose proof (days_in_month_bounds (year d) (month d) Hm) as Bd.
  assert (Hm' : 1 <= month (first_of_next_month d) <= 12)
    by (apply valid_date_iff in Vnm; lia).
  pose proof (days_in_month_bounds (year (first_of_next_month d)) _ Hm') as Bd'.
  set (ms' := month_start (first_of_next_month d)) in *.
  set (adj := (w - 1 - (ms' + 6) mod 7) mod 7).
  pose proof (Z.mod_pos_bound (w - 1 - (ms' + 6) mod 7) 7 ltac:(lia)) as Ba.
  fold adj in Ba.
  (* the inner call, at ordinal 1 *)
  assert (Inner : get_nth_weekday_of_month (first_of_next_month d) 1 w
                  = Ok (fromordinal (ms' + adj))).
  { rewrite get_nth_weekday_of_month_unfold.
    rewrite nth_weekday_body_ordinal_Ok; try assumption; try lia.
    - fold ms' adj. f_equal. f_equal. lia.
    - fold ms' adj. lia. }
  destruct (fromordinal_spec (ms' + adj) ltac:(lia)) as [V1 O1].
  set (k := days_in_month (year d) (month d) - 6 + adj).
  assert (Hk : 1 <= k <= days_in_month (year d) (month d)) by (subst k; lia).
  assert (Er : add_days (fromordinal (ms' + adj)) (-7)
               = Ok (mkdate (year d) (month d) k)).
  { rewrite add_days_in_range by (rewrite O1; lia).
    rewrite O1. f_equal. rewrite <- (fromordinal_in_month d k Hd Hk).
    f_equal. subst k. lia. }
  exists (mkdate (year d) (month d) k), (fromordinal (ms' + adj)).
  assert (Vr : valid_date (mkdate (year d) (month d) k)).
  { apply valid_date_iff. apply valid_date_iff in Hd.
    cbn [year month day]. lia. }
  assert (Wr : weekday (mkdate (year d) (month d) k) = w - 1).
  { unfold weekday, toordinal. cbn [year month day].
    rewrite (ymd2ord_day _ _ k). fold (month_start d).
    replace (month_start d + (k - 1) + 6) with (ms' + adj - 7 + 6)
      by (subst k; lia).
    subst adj. clearbody ms'. Z.div_mod_to_equations. lia. }
  repeat split; try assumption; try reflexivity.
  - rewrite get_nth_weekday_of_month_unfold. unfold nth_weekday_body.
    destruct (Z.ltb_spec 7 w); [lia|]. cbn [Z.ltb Z.eqb Z.compare Pos.compare Pos.compare_cont].
    rewrite Enm. cbn [bind]. rewrite Inner. cbn [bind]. exact Er.
  - intros d' Vd' Hy' Hm'' Hwd'. cbn [day].
    pose proof (month_start_bounds d' Vd') as (_ & _ & Od').
    assert (Hdd' : 1 <= day d' <= days_in_month (year d) (month d)).
    { apply valid_date_iff in Vd'. rewrite <- Hy', <- Hm''. lia. }
    unfold weekday in Hwd', Wr. rewrite Od' in Hwd'.
    unfold toordinal in Wr. cbn [year month day] in Wr.
    rewrite (ymd2ord_day _ _ k) in Wr.
    unfold month_start in Hwd'. rewrite Hy', Hm'' in Hwd'.
    fold (month_start d) in Hwd', Wr.
    destruct (Z.le_gt_cases (day d') k) as [Hle | Hgt]; [exact Hle|].
    exfalso. assert (k < day d' < k + 7) by (subst k; lia).
    clearbody k ms'. Z.div_mod_to_equations. lia.
Qed.

Lemma get_nth_weekday_of_month_last_witness :
  exists r first_next,
    get_nth_weekday_of_month (mkdate 2023 12 5) 5 5 = Ok r
    /\ valid_date r
    /\ year r = 2023 /\ month r = 12 /\ weekday r = 5 - 1
    /\ (forall d', valid_date d' -> year d' = 2023 -> month d' = 12 ->
                   weekday d' = 5 - 1 -> day d' <= day r)
    /\ get_nth_weekday_of_month (first_of_next_month (mkdate 2023 12 5)) 1 5
       = Ok first_next
    /\ add_days first_next (-7) = Ok r.
Proof.
  apply (get_nth_weekday_of_month_last (mkdate 2023 12 5) 5).
  - reflexivity.
  - lia.
  - cbn. lia.
Defined.

Example last_friday_of_december_2023 :
  get_nth_weekday_of_month (mkdate 2023 12 5) 5 5 = Ok (mkdate 2023 12 29).
Proof. vm_compute. reflexivity. Qed.

(** ** Every branch of the evaluator moves forward *)

Lemma rollover_advances m i :
  1 <= m <= 12 -> 1 <= i ->
  0 <= fst (rollover m i)
  /\ 1 <= snd (rollover m i)
  /\ (fst (rollover m i) = 0 -> m < snd (rollover m i)).
Proof.
  intros Hm Hi. unfold rollover. cbv zeta. cbn [fst snd].
  rewrite Z.quot_div_nonneg by lia.
  pose proof (Z.div_mod (m + i) 13 ltac:(lia)).
  pose proof (Z.mod_pos_bound (m + i) 13 ltac:(lia)).
  pose proof (Z.div_pos (m + i) 13 ltac:(lia) ltac:(lia)).
  repeat split; lia.
Qed.

(** The first of the target month lies after the reference date. *)
Lemma target_month_later d i r dd :
  valid_date d -> 1 <= i ->
  new_date (year d + fst (rollover (month d) i)) (snd (rollover (month d) i))
           dd = Ok r ->
  valid_date r /\ toordinal d < month_start r.
Proof.
  intros Hd Hi E. apply new_date_Ok in E. destruct E as [-> V].
  split; [exact V|].
  apply valid_date_iff in Hd. destruct Hd as (Hy & Hm & Hdd).
  apply valid_date_iff in V. cbn [year month day] in V.
  destruct V as (Hy' & Hm' & _).
  pose proof (rollover_advances (month d) i Hm Hi) as (A1 & A2 & A3).
  unfold month_start, toordinal. cbn [year month].
  apply ymd2ord_later_month; try lia.
Qed.

Lemma get_nth_weekday_of_month_Ok d o w r :
  valid_date d -> 1 <= o <= 5 -> w <= 7 ->
  get_nth_weekday_of_month d o w = Ok r ->
  valid_date r /\ month_start d <= toordinal r.
Proof.
  intros Hd Ho Hw E.
  destruct (Z.eq_dec o 5) as [-> | Hne].
  - rewrite get_nth_weekday_of_month_unfold in E. unfold nth_weekday_body in E.
    destruct (Z.ltb_spec 7 w); [lia|].
    cbn [Z.ltb Z.eqb Z.compare Pos.compare Pos.compare_cont] in E.
    assert (Hlast : ~ (year d = 9999 /\ month d = 12)).
    { intros [H9 H12]. rewrite H9, H12 in E. discriminate. }
    destruct (next_month_replace d Hd Hlast) as (Enm & Vnm & Snm).
    rewrite Enm in E. cbn [bind] in E.
    destruct (get_nth_weekday_of_month (first_of_next_month d) 1 w)
      as [r1|] eqn:E1; [|discriminate].
    cbn [bind] in E.
    rewrite get_nth_weekday_of_month_unfold in E1.
    destruct (nth_weekday_body_ordinal get_nth_weekday_of_month
                (first_of_next_month d) 1 w r1 Vnm Hw ltac:(lia) E1)
      as [V1 O1].
    destruct (add_days_Ok _ _ _ V1 E) as [Vr Or].
    split; [exact Vr|].
    pose proof (days_in_month_bounds (year d) (month d)
                  ltac:(apply valid_date_iff in Hd; lia)).
    pose proof (Z.mod_pos_bound
                  (w - 1 - (month_start (first_of_next_month d) + 6) mod 7) 7
                  ltac:(lia)).
    lia.
  - rewrite get_nth_weekday_of_month_unfold in E.
    destruct (nth_weekday_body_ordinal get_nth_weekday_of_month d o w r
                Hd Hw ltac:(lia) E)
      as [Vr Or].
    split; [exact Vr|].
    pose proof (Z.mod_pos_bound (w - 1 - (month_start d + 6) mod 7) 7
                  ltac:(lia)).
    lia.
Qed.

Lemma replace_last_day d :
  valid_date d ->
  replace d None None (Some (monthrange_ndays (year d) (month d)))
  = Ok (mkdate (year d) (month d) (days_in_month (year d) (month d)))
  /\ valid_date (mkdate (year d) (month d) (days_in_month (year d) (month d))).
Proof.
  intros Hd. apply valid_date_iff in Hd. destruct Hd as (Hy & Hm & Hdd).
  pose proof (last_day_of_month_valid _ _ Hy Hm) as V.
  unfold replace, monthrange_ndays.
  rewrite (new_date_valid (year d) (month d)
             (days_in_month (year d) (month d)) V).
  split; [reflexivity | exact V].
Qed.

Lemma get_last_workday_of_month_Ok d r :
  valid_date d -> get_last_workday_of_month d = Ok r ->
  valid_date r /\ month_start d <= toordinal r.
Proof.
  intros Hd. unfold get_last_workday_of_month. cbv zeta.
  destruct (replace_last_day d Hd) as [-> V]. cbn [bind].
  pose proof (days_in_month_bounds (year d) (month d)
                ltac:(apply valid_date_iff in Hd; lia)) as Bd.
  pose proof (month_start_bounds _ V) as (_ & _ & O).
  cbn [year month day] in O.
  change (month_start (mkdate (year d) (month d) _)) with (month_start d) in O.
  pose proof (weekday_bounds
                (mkdate (year d) (month d) (days_in_month (year d) (month d)))).
  destruct ((_ =? 5) || (_ =? 6)).
  - intros E. destruct (add_days_Ok _ _ _ V E) as [Vr Or].
    split; [exact Vr | lia].
  - intros [= <-]. split; [exact V | lia].
Qed.

Lemma get_first_workday_of_month_Ok d r :
  valid_date d -> get_first_workday_of_month d = Ok r ->
  valid_date r /\ month_start d <= toordinal r.
Proof.
  intros Hd. unfold get_first_workday_of_month. cbv zeta.
  destruct (replace_day_1 d Hd) as [-> V]. cbn [bind].
  pose proof (weekday_bounds (mkdate (year d) (month d) 1)).
  assert (O : toordinal (mkdate (year d) (month d) 1) = month_start d)
    by reflexivity.
  destruct ((_ =? 5) || (_ =? 6)).
  - intros E. destruct (add_days_Ok _ _ _ V E) as [Vr Or].
    split; [exact Vr | lia].
  - intros [= <-]. split; [exact V | lia].
Qed.

Lemma get_nth_workday_of_month_Ok d o r :
  valid_date d -> 1 <= o ->
  get_nth_workday_of_month d (Some o) = Ok r ->
  valid_date r /\ month_start d <= toordinal r.
Proof.
  intros Hd Ho. unfold get_nth_workday_of_month. cbv zeta.
  destruct (get_first_workday_of_month d) as [fw|] eqn:Efw; [|discriminate].
  cbn [bind].
  destruct (get_first_workday_of_month_Ok d fw Hd Efw) as [Vfw Ofw].
  destruct (add_days fw (o - 1)) as [nth|] eqn:En; [|discriminate].
  cbn [bind]. destruct (add_days_Ok _ _ _ Vfw En) as [Vn On].
  intros E. destruct (add_days_Ok _ _ _ Vn E) as [Vr Or].
  split; [exact Vr|]. destruct (4 <? _); lia.
Qed.

Lemma constructed_ordinal self :
  constructed self -> truthy (_ordinal self) = true ->
  1 <= val (_ordinal self) <= 5.
Proof.
  unfold constructed, _check_consistency. intros C Ht. rewrite Ht in C.
  destruct (negb _); [discriminate|].
  destruct (truthy (_day self) && _); [discriminate|].
  cbn [andb] in C.
  destruct (Z.ltb_spec (val (_ordinal self)) 1);
    destruct (Z.ltb_spec 5 (val (_ordinal self)));
    cbn [orb] in C; try discriminate; lia.
Qed.

Lemma constructed_workday self :
  constructed self -> eq_int (_weekday self) 8 = true ->
  truthy (_ordinal self) = true.
Proof.
  unfold constructed, _check_consistency. intros C H8. rewrite H8 in C.
  destruct (truthy (_ordinal self)); [reflexivity|].
  destruct (isinstance_date _), (truthy (_day self)),
    (truthy (_weekday self)), (_recurs self =? 4),
    ((val (_day self) <? 1) || (31 <? val (_day self)));
    cbn [andb negb orb] in C; discriminate.
Qed.

(** The step of [get_next_date] in ordinals: a date, and a later one. *)
Lemma get_next_date_forward self d d' :
  constructed self -> 1 <= _interval self -> weekday_documented self ->
  valid_date d ->
  get_next_date self d = Ok (Some d') ->
  valid_date d' /\ toordinal d < toordinal d'.
Proof.
  intros C Hi Hw Hd. unfold get_next_date.
  destruct (truthy (_weekday self)) eqn:Tw.
  - (* a weekday is set *)
    assert (W : 1 <= val (_weekday self) <= 8).
    { unfold weekday_documented in Hw. unfold truthy in Tw.
      destruct (_weekday self) as [w|]; [|discriminate]. cbn [val].
      destruct (Z.eqb_spec w 0); [discriminate | lia]. }
    destruct (Z.ltb_spec (val (_weekday self)) 8) as [W8 | W8].
    + destruct (_get_weekday_period self d) as [r|] eqn:E; [|discriminate].
      cbn [bind]. intros [= <-]. unfold _get_weekday_period in E.
      destruct (truthy (_ordinal self)) eqn:To.
      * (* monthly, ordinal weekday *)
        cbv zeta in E.
        destruct (replace d _ _ _) as [d1|] eqn:E1; [|discriminate].
        cbn [bind] in E.
        destruct (target_month_later d (_interval self) d1 1 Hd Hi E1)
          as [V1 L1].
        destruct (get_nth_weekday_of_month_Ok d1 (val (_ordinal self))
                    (val (_weekday self)) r V1
                    (constructed_ordinal self C To) ltac:(lia) E) as [Vr Lr].
        split; [exact Vr | lia].
      * (* weekly *)
        destruct (add_days d (7 * _interval self)) as [d1|] eqn:E1;
          [|discriminate].
        cbn [bind] in E. unfold get_next_weekday in E. cbv zeta in E.
        destruct (add_days_Ok _ _ _ Hd E1) as [V1 O1].
        destruct (add_days_Ok _ _ _ V1 E) as [Vr Or].
        pose proof (weekday_bounds d1). split; [exact Vr | lia].
    + (* monthly, ordinal workday *)
      destruct (_get_ordinal_workday_period self d) as [r|] eqn:E;
        [|discriminate].
      cbn [bind]. intros [= <-]. unfold _get_ordinal_workday_period in E.
      cbv zeta in E.
      destruct (replace d _ _ _) as [d1|] eqn:E1; [|discriminate].
      cbn [bind] in E.
      destruct (target_month_later d (_interval self) d1 1 Hd Hi E1)
        as [V1 L1].
      assert (To : truthy (_ordinal self) = true).
      { apply (constructed_workday self C).
        unfold truthy in Tw. destruct (_weekday self) as [w|]; [|discriminate].
        cbn [val eq_int] in *. apply Z.eqb_eq. lia. }
      pose proof (constructed_ordinal self C To) as Ro.
      destruct (eq_int (_ordinal self) 5).
      * destruct (get_last_workday_of_month_Ok d1 r V1 E) as [Vr Lr].
        split; [exact Vr | lia].
      * unfold truthy in To. destruct (_ordinal self) as [o|]; [|discriminate].
        cbn [val] in Ro.
        destruct (get_nth_workday_of_month_Ok d1 o r V1 ltac:(lia) E)
          as [Vr Lr].
        split; [exact Vr | lia].
  - destruct (truthy (_day self)) eqn:Td.
    + (* monthly, day of the month *)
      destruct (_get_day_period self d) as [r|] eqn:E; [|discriminate].
      cbn [bind]. intros [= <-]. unfold _get_day_period in E. cbv zeta in E.
      pose proof Hd as Hd'. apply valid_date_iff in Hd'.
      destruct Hd' as (Hy & Hm & Hdd).
      pose proof (rollover_advances (month d) (_interval self) Hm Hi)
        as (A1 & A2 & A3).
      unfold rollover in A1, A2, A3. cbv zeta in A1, A2, A3.
      cbn [fst snd] in A1, A2, A3.
      destruct (replace d _ _ (Some (val (_day self)))) as [r1|e1] eqn:E1.
      * cbn [except_ValueError] in E. injection E as <-.
        destruct (target_month_later d (_interval self) r1 _ Hd Hi E1)
          as [V1 L1].
        pose proof (month_start_bounds r1 V1) as (_ & _ & O1).
        apply valid_date_iff in V1. split; [apply valid_date_iff; exact V1|].
        lia.
      * destruct e1; cbn [except_ValueError] in E; try discriminate.
        destruct (replace d _ _ (Some 1)) as [d2|] eqn:E2; [|discriminate].
        cbn [bind] in E. unfold replace in E2.
        apply new_date_Ok in E2. destruct E2 as [-> V2].
        destruct (add_days_Ok _ _ _ V2 E) as [Vr Or].
        split; [exact Vr|]. rewrite Or.
        apply valid_date_iff in V2. cbn [year month day] in V2.
        destruct V2 as (Hy2 & Hm2 & _).
        unfold toordinal at 2. cbn [year month day].
        rewrite ymd2ord_next_month by lia.
        pose proof (days_in_month_bounds
                      (year d + Z.quot (month d + _interval self) 13)
                      (month d + _interval self
                       - Z.quot (month d + _interval self) 13 * 12)
                      ltac:(lia)).
        pose proof (ymd2ord_later_month (year d) (month d) (day d)
                      (year d + Z.quot (month d + _interval self) 13)
                      (month d + _interval self
                       - Z.quot (month d + _interval self) 13 * 12)
                      Hm ltac:(lia) ltac:(lia) ltac:(lia)) as L.
        unfold toordinal. lia.
    + destruct (Z.eqb_spec (_recurs self) 1).
      * (* daily *)
        unfold _get_daily_period.
        destruct (add_days d (_interval self)) as [r|] eqn:E; [|discriminate].
        cbn [bind]. intros [= <-].
        destruct (add_days_Ok _ _ _ Hd E) as [Vr Or].
        split; [exact Vr | lia].
      * destruct (Z.eqb_spec (_recurs self) 2); [|discriminate].
        (* workdaily *)
        unfold _get_workdaily_period.
        destruct (truthy (_ordinal self)); [discriminate|].
        unfold get_next_workday_by_interval.
        destruct (add_days d (_interval self)) as [d1|] eqn:E1;
          [|discriminate].
        cbn [bind]. destruct (add_days_Ok _ _ _ Hd E1) as [V1 O1].
        destruct (4 <? weekday d1).
        -- destruct (add_days d1 2) as [r|] eqn:E; [|discriminate].
           cbn [bind]. intros [= <-].
           destruct (add_days_Ok _ _ _ V1 E) as [Vr Or].
           split; [exact Vr | lia].
        -- cbn [bind]. intros [= <-]. split; [exact V1 | lia].
Qed.





(** The weekly branch does step back after the advance by whole weeks:
    from Sunday 2023-01-08, one week on Monday gives 2023-01-09. *)
Example weekly_snap_steps_back :
  get_next_date
    (mkRecurringEvent (PyDate (mkdate 2023 1 8)) 3 1 None None (Some 1) None)
    (mkdate 2023 1 8)
  = Ok (Some (mkdate 2023 1 9)).
Proof. vm_compute. reflexivity. Qed.

(** The other branches on dates of 2023: workdaily, first Friday every
    three months, last workday of the next month, second workday every two
    months, and the 31st of every month. *)
Example branch_workdaily :
  get_next_date
    (mkRecurringEvent (PyDate (mkdate 2023 6 2)) 2 1 None None None None)
    (mkdate 2023 6 2)
  = Ok (Some (mkdate 2023 6 5)).
Proof. vm_compute. reflexivity. Qed.

Example branch_ordinal_weekday :
  get_next_date
    (mkRecurringEvent (PyDate (mkdate 2023 1 6)) 4 3 None (Some 1) (Some 5)
                      None)
    (mkdate 2023 1 6)
  = Ok (Some (mkdate 2023 4 7)).
Proof. vm_compute. reflexivity. Qed.

Example branch_last_workday :
  get_next_date
    (mkRecurringEvent (PyDate (mkdate 2023 11 30)) 4 1 None (Some 5) (Some 8)
                      None)
    (mkdate 2023 11 30)
  = Ok (Some (mkdate 2023 12 29)).
Proof. vm_compute. reflexivity. Qed.

Example branch_ordinal_workday :
  get_next_date
    (mkRecurringEvent (PyDate (mkdate 2023 11 30)) 4 2 None (Some 2) (Some 8)
                      None)
    (mkdate 2023 11 30)
  = Ok (Some (mkdate 2024 1 2)).
Proof. vm_compute. reflexivity. Qed.

Example branch_day_of_month :
  get_next_date
    (mkRecurringEvent (PyDate (mkdate 2023 1 31)) 4 1 (Some 31) None None
                      None)
    (mkdate 2023 1 31)
  = Ok (Some (mkdate 2023 2 28)).
Proof. vm_compute. reflexivity. Qed.

(** Branches that produce no date: workdaily with an ordinal. *)
Example branch_workdaily_ordinal :
  get_next_date
    (mkRecurringEvent (PyDate (mkdate 2023 1 31)) 2 1 None (Some 2) None None)
    (mkdate 2023 1 31)
  = Raise NotImplementedError.
Proof. vm_compute. reflexivity. Qed.

(** Below the documented range the bound is lost: the constructor accepts a
    weekday of -1, and on a Saturday the weekly branch then returns the
    reference date itself. *)
Example weekday_below_documented_range :
  __init__ (PyDate d_2023_01_07) 3 1 None None (Some (-1)) PyNone
  = Ok (mkRecurringEvent (PyDate d_2023_01_07) 3 1 None None (Some (-1)) None)
  /\ get_next_date
       (mkRecurringEvent (PyDate d_2023_01_07) 3 1 None None (Some (-1)) None)
       d_2023_01_07
     = Ok (Some d_2023_01_07).
Proof. split; vm_compute; reflexivity. Qed.

(** ** Enumeration *)

Lemma get_next_date_cursor self d x :
  get_next_date (with_last_occurence self d) x = get_next_date self x.
Proof. reflexivity. Qed.

Lemma last_cons (a : date) l d : last (a :: l) d = last l a.
Proof.
  revert a d. induction l as [|b l IH]; intros a d; [reflexivity|].
  change (last (a :: b :: l) d) with (last (b :: l) d).
  rewrite (IH b d), (IH b a). reflexivity.
Qed.

Lemma chain_from_cursor self d x l :
  chain_from (with_last_occurence self d) x l <-> chain_from self x l.
Proof.
  revert x. induction l as [|a l IH]; intros x; [reflexivity|].
  cbn [chain_from]. rewrite IH. reflexivity.
Qed.

Lemma chain_from_interval_end self h x l :
  chain_from (with_interval_end self h) x l <-> chain_from self x l.
Proof.
  revert x. induction l as [|a l IH]; intros x; [reflexivity|].
  cbn [chain_from]. rewrite IH. reflexivity.
Qed.

(** What a finished run of the loop has done. *)
Lemma get_events_loop_Ok fuel :
  forall self periods observed L self',
    get_events_loop fuel self periods observed = Some (Ok L, self') ->
    exists new d' h,
      L = periods ++ new
      /\ _interval_end self = Some h
      /\ chain_from self observed new
      /\ Forall (fun x => date_le x h) new
      /\ next_date_is self (last new observed) d'
      /\ date_lt h d'
      /\ self' = match new with
                 | [] => self
                 | _ => with_last_occurence self (last new observed)
                 end.
Proof.
  induction fuel as [|fuel IH]; intros self periods observed L self' E;
    [discriminate|].
  cbn [get_events_loop] in E.
  destruct (get_next_date self observed) as [[d1|]|] eqn:En;
    try (injection E as E _; discriminate).
  destruct (_interval_end self) as [h|] eqn:Eh;
    [|injection E as E _; discriminate].
  destruct (date_gtb d1 h) eqn:Eg.
  - injection E as <- <-. exists [], d1, h. rewrite app_nil_r.
    split; [reflexivity|]. split; [reflexivity|]. split; [exact I|].
    split; [constructor|]. split; [exact En|]. split; [exact Eg|].
    reflexivity.
  - apply IH in E. destruct E as (new & d' & h' & -> & Eh' & Ch & Fa & Nx & Lt & ->).
    cbn [with_last_occurence _interval_end] in Eh'. rewrite Eh in Eh'.
    injection Eh' as <-.
    exists (d1 :: new), d', h. rewrite <- app_assoc. cbn [app].
    rewrite last_cons.
    split; [reflexivity|]. split; [reflexivity|].
    split; [split; [exact En | apply chain_from_cursor in Ch; exact Ch]|].
    split.
    { constructor; [|exact Fa]. unfold date_le, date_leb.
      unfold date_gtb in Eg. rewrite Eg. reflexivity. }
    split; [exact Nx|]. split; [exact Lt|].
    destruct new; reflexivity.
Qed.

(** The frame of a call with a date as horizon. *)
Lemma get_events_frame_date (today : date) (fuel : nat)
    (self : RecurringEvent) (h : date) (L : list date)
    (self' : RecurringEvent) :
  get_events today fuel self (PyDate h) = Some (Ok L, self') ->
  (L = [] -> last_occurence self' = last_occurence self)
  /\ (forall dflt, L <> [] -> last_occurence self' = PyDate (last L dflt))
  /\ _recurs self' = _recurs self
  /\ _interval self' = _interval self
  /\ _day self' = _day self
  /\ _ordinal self' = _ordinal self
  /\ _weekday self' = _weekday self
  /\ _interval_end self' = Some h
  /\ forall fuel',
       get_events today (S fuel') self' (PyDate h) = Some (Ok [], self').
Proof.
  unfold get_events. rewrite !set_interval_end_date.
  cbn [with_interval_end _last_occurence].
  destruct (_last_occurence self) as [|d0|o] eqn:E0;
    try (intros [= ?]; discriminate).
  intros E. apply get_events_loop_Ok in E.
  destruct E as (new & d' & h' & -> & Eh & Ch & Fa & Nx & Lt & ->).
  cbn [_interval_end app] in *. injection Eh as <-.
  unfold last_occurence.
  assert (Second : forall (s : RecurringEvent) d fuel',
             _interval_end s = Some h -> _last_occurence s = PyDate d ->
             get_next_date s d = Ok (Some d') ->
             match
               _last_occurence
                 (mkRecurringEvent (_last_occurence s) (_recurs s)
                    (_interval s) (_day s) (_ordinal s) (_weekday s) (Some h))
             with
             | PyDate observed_date =>
                 get_events_loop (S fuel')
                   (mkRecurringEvent (_last_occurence s) (_recurs s)
                      (_interval s) (_day s) (_ordinal s) (_weekday s)
                      (Some h)) [] observed_date
             | _ =>
                 Some (Raise TypeError,
                       mkRecurringEvent (_last_occurence s) (_recurs s)
                         (_interval s) (_day s) (_ordinal s) (_weekday s)
                         (Some h))
             end = Some (Ok [], s)).
  { intros [lo rc iv dy od wd ie] d fuel'. cbn. intros -> -> Hn.
    cbn [get_events_loop].
    change (get_next_date _ d) with
      (get_next_date (mkRecurringEvent (PyDate d) rc iv dy od wd (Some h)) d).
    rewrite Hn. cbn [_interval_end]. unfold date_lt in Lt. unfold date_gtb.
    rewrite Lt. reflexivity. }
  destruct new as [|a new].
  - split; [intros _; reflexivity|]. split; [intros dflt H; contradiction|].
    repeat (split; [reflexivity|]).
    intros fuel'.
    apply (Second (with_interval_end self h) d0);
      [reflexivity | exact E0 | exact Nx].
  - split; [intros H; discriminate|].
    split.
    { intros dflt _. cbn [with_last_occurence _last_occurence]. f_equal.
      rewrite !last_cons. reflexivity. }
    repeat (split; [reflexivity|]).
    intros fuel'.
    apply (Second (with_last_occurence (with_interval_end self h)
                                       (last (a :: new) d0))
                  (last (a :: new) d0)); [reflexivity | reflexivity |].
    exact Nx.
Qed.


(** C9: a call of [get_events] that returns the list L leaves recurs,
    interval, day, ordinal and weekday as they were, stores a horizon, and
    leaves in [_last_occurence] the last element of L, or the former value
    when L is empty; a second call with the same horizon then returns the
    empty list and changes nothing. *)
Theorem get_events_frame (today : date) (fuel : nat) (self : RecurringEvent)
    (interval_end : pyval) (L : list date) (self' : RecurringEvent) :
  get_events today fuel self interval_end = Some (Ok L, self') ->
  (L = [] -> last_occurence self' = last_occurence self)
  /\ (forall dflt, L <> [] -> last_occurence self' = PyDate (last L dflt))
  /\ _recurs self' = _recurs self
  /\ _interval self' = _interval self
  /\ _day self' = _day self
  /\ _ordinal self' = _ordinal self
  /\ _weekday self' = _weekday self
  /\ (exists h, _interval_end self' = Some h)
  /\ forall fuel',
       get_events today (S fuel') self' interval_end = Some (Ok [], self').
Proof.
  destruct interval_end as [|h|[h|]]; try (intros [= ?]; discriminate);
    intros E.
  - destruct (get_events_frame_date today fuel self h L self' E)
      as (F1 & F2 & F3 & F4 & F5 & F6 & F7 & F8 & F9).
    repeat (split; [assumption|]). split; [exists h; exact F8 | exact F9].
  - change (get_events today fuel self (PyDate h) = Some (Ok L, self')) in E.
    destruct (get_events_frame_date today fuel self h L self' E)
      as (F1 & F2 & F3 & F4 & F5 & F6 & F7 & F8 & F9).
    repeat (split; [assumption|]). split; [exists h; exact F8 | exact F9].
Qed.

Lemma get_events_frame_witness :
  (forall dflt,
      [mkdate 2023 7 1; mkdate 2023 7 2; mkdate 2023 7 3] <> [] ->
      last_occurence
        (mkRecurringEvent (PyDate (mkdate 2023 7 3)) 1 1 None None None
                          (Some (mkdate 2023 7 3)))
      = PyDate (last [mkdate 2023 7 1; mkdate 2023 7 2; mkdate 2023 7 3]
                     dflt))
  /\ forall fuel',
       get_events (mkdate 2024 1 1) (S fuel')
         (mkRecurringEvent (PyDate (mkdate 2023 7 3)) 1 1 None None None
                           (Some (mkdate 2023 7 3)))
         (PyDate (mkdate 2023 7 3))
       = Some (Ok [],
               mkRecurringEvent (PyDate (mkdate 2023 7 3)) 1 1 None None None
                                (Some (mkdate 2023 7 3))).
Proof.
  pose proof (get_events_frame (mkdate 2024 1 1) 10 daily_from_2023_06_30
                (PyDate (mkdate 2023 7 3))
                [mkdate 2023 7 1; mkdate 2023 7 2; mkdate 2023 7 3]
                (mkRecurringEvent (PyDate (mkdate 2023 7 3)) 1 1 None None
                                  None (Some (mkdate 2023 7 3)))
                eq_refl) as H.
  split; apply H.
Defined.

(** The loop follows the chain: when the chain passes the horizon right
    after the prefix [L], the loop returns [L] appended to what it had. *)
Lemma get_events_loop_run L :
  forall self periods observed d' h,
    _interval_end self = Some h ->
    chain_from self observed L ->
    Forall (fun x => date_le x h) L ->
    next_date_is self (last L observed) d' ->
    date_lt h d' ->
    forall fuel, (List.length L < fuel)%nat ->
      get_events_loop fuel self periods observed
      = Some (Ok (periods ++ L),
              match L with
              | [] => self
              | _ => with_last_occurence self (last L observed)
              end).
Proof.
  induction L as [|a L IH]; intros self periods observed d' h Eh Ch Fa Nx Lt
    fuel Hf; (destruct fuel as [|fuel]; [cbn in Hf; lia|]);
    cbn [get_events_loop].
  - cbn [last] in Nx. unfold next_date_is in Nx. rewrite Nx, Eh.
    unfold date_gtb. unfold date_lt in Lt. rewrite Lt.
    rewrite app_nil_r. reflexivity.
  - destruct Ch as [Na Ch]. unfold next_date_is in Na. rewrite Na, Eh.
    inversion Fa as [|? ? Ha Fa']; subst.
    unfold date_le, date_leb in Ha. apply negb_true_iff in Ha.
    unfold date_gtb. rewrite Ha. rewrite last_cons in Nx.
    rewrite (IH (with_last_occurence self a) (periods ++ [a]) a d' h);
      [ | exact Eh | apply chain_from_cursor; exact Ch | exact Fa'
        | exact Nx | exact Lt | cbn [List.length] in Hf; lia ].
    rewrite <- app_assoc, last_cons. cbn [app].
    destruct L; reflexivity.
Qed.

Lemma Forall_last (P : date -> Prop) l d0 :
  P d0 -> Forall P l -> P (last l d0).
Proof.
  intros H0 F. revert d0 H0. induction F as [|a l Ha F IH]; intros d0 H0.
  - exact H0.
  - rewrite last_cons. apply IH. exact Ha.
Qed.

Section ForwardRule.

(** A constructed rule with a positive interval and a documented weekday:
    the rules on which every step moves forward. *)
Variable self : RecurringEvent.
Hypothesis Hconstructed : constructed self.
Hypothesis Hinterval : 1 <= _interval self.
Hypothesis Hweekday : weekday_documented self.

(** The dates of a chain are dates, each later than the one before. *)
Lemma chain_from_valid l :
  forall d0,
    valid_date d0 -> chain_from self d0 l ->
    valid_date (last l d0) /\ toordinal d0 <= toordinal (last l d0).
Proof.
  induction l as [|a l IH]; intros d0 V0 Ch.
  - cbn [last]. split; [exact V0 | lia].
  - destruct Ch as [Na Cl].
    destruct (get_next_date_forward self d0 a Hconstructed Hinterval
                Hweekday V0 Na) as [Va La].
    rewrite last_cons. destruct (IH a Va Cl) as [Vl Ll].
    split; [exact Vl | lia].
Qed.

(** A daily rule yields a date at every step when the day after the
    horizon (and after the start) still is a date. *)
Lemma daily_steps_yield_dates d0 h :
  _weekday self = None -> _day self = None -> _recurs self = 1 ->
  valid_date d0 -> valid_date h ->
  toordinal d0 + _interval self <= MAXORDINAL ->
  toordinal h + _interval self <= MAXORDINAL ->
  steps_yield_dates self d0 h.
Proof.
  intros Ew Ed Er V0 Vh B0 Bh l Ch Fl.
  destruct (chain_from_valid l d0 V0 Ch) as [Vl Ll].
  assert (Bl : toordinal (last l d0) + _interval self <= MAXORDINAL).
  { destruct l as [|a l]; [exact B0|].
    assert (Hle : date_le (last (a :: l) d0) h).
    { rewrite last_cons. apply Forall_last; inversion Fl; assumption. }
    apply toordinal_le in Hle; [lia | exact Vl | exact Vh]. }
  pose proof (toordinal_bounds _ Vl) as Bo.
  exists (fromordinal (toordinal (last l d0) + _interval self)).
  unfold next_date_is, get_next_date. rewrite Ew, Ed, Er.
  cbn [truthy Z.eqb].
  unfold _get_daily_period. rewrite add_days_in_range by lia. reflexivity.
Qed.

(** The chain passes the horizon: each step moves forward by a day at
    least, so the distance to the horizon bounds the number of steps. *)
Lemma chain_reaches_horizon h :
  valid_date h ->
  forall (n : nat) observed,
    valid_date observed ->
    toordinal h - toordinal observed < Z.of_nat n ->
    steps_yield_dates self observed h ->
    exists L d',
      chain_from self observed L
      /\ Forall (fun x => date_le x h) L
      /\ next_date_is self (last L observed) d'
      /\ date_lt h d'.
Proof.
  intros Vh.
  induction n as [|n IH]; intros observed Vo Hn Steps;
    destruct (Steps [] I ltac:(constructor)) as [d1 Nx]; cbn [last] in Nx;
    destruct (get_next_date_forward self observed d1 Hconstructed
                Hinterval Hweekday Vo Nx) as [V1 L1].
  - (* the cursor is past the horizon already *)
    assert (Lt : date_lt h d1) by (apply toordinal_lt; [assumption..|lia]).
    exists [], d1. repeat split; [constructor | exact Nx | exact Lt].
  - destruct (date_ltb h d1) eqn:Eg.
    + exists [], d1. repeat split; [constructor | exact Nx | exact Eg].
    + assert (Le1 : date_le d1 h)
        by (unfold date_le, date_leb; rewrite Eg; reflexivity).
      assert (Steps1 : steps_yield_dates self d1 h).
      { intros l Cl Fl.
        destruct (Steps (d1 :: l)) as [d' Hd'].
        - split; assumption.
        - constructor; assumption.
        - rewrite last_cons in Hd'. exists d'. exact Hd'. }
      destruct (IH d1 V1 ltac:(lia) Steps1)
        as (L & d' & Cn & Fn & Nn & Ln).
      exists (d1 :: L), d'. rewrite last_cons.
      split; [split; assumption|].
      split; [constructor; assumption|].
      split; assumption.
Qed.

End ForwardRule.

Lemma next_date_is_functional self d a b :
  next_date_is self d a -> next_date_is self d b -> a = b.
Proof.
  unfold next_date_is. intros Ha Hb. rewrite Ha in Hb.
  injection Hb as ->. reflexivity.
Qed.

Lemma date_le_lt_absurd a h : date_le a h -> date_lt h a -> False.
Proof.
  unfold date_le, date_leb, date_lt. intros Hle Hlt. rewrite Hlt in Hle.
  discriminate.
Qed.

(** There is one maximal prefix at most. *)
Lemma maximal_prefix_unique self h :
  forall L L' d0,
    maximal_prefix self d0 h L -> maximal_prefix self d0 h L' -> L = L'.
Proof.
  induction L as [|a L IH]; intros [|b L'] d0
    (C1 & F1 & d1 & N1 & Lt1) (C2 & F2 & d2 & N2 & Lt2).
  - reflexivity.
  - exfalso. destruct C2 as [Nb _]. cbn [last] in N1.
    rewrite (next_date_is_functional _ _ _ _ N1 Nb) in Lt1.
    inversion F2 as [|? ? Hb _]; subst.
    exact (date_le_lt_absurd _ _ Hb Lt1).
  - exfalso. destruct C1 as [Na _]. cbn [last] in N2.
    rewrite (next_date_is_functional _ _ _ _ N2 Na) in Lt2.
    inversion F1 as [|? ? Ha _]; subst.
    exact (date_le_lt_absurd _ _ Ha Lt2).
  - destruct C1 as [Na C1], C2 as [Nb C2].
    pose proof (next_date_is_functional _ _ _ _ Na Nb) as Eab. subst b.
    rewrite last_cons in N1, N2.
    inversion F1 as [|? ? _ F1']; subst.
    inversion F2 as [|? ? _ F2']; subst.
    f_equal. apply (IH L' a).
    + split; [exact C1|]. split; [exact F1'|]. exists d1. split; assumption.
    + split; [exact C2|]. split; [exact F2'|]. exists d2. split; assumption.
Qed.

(** A chain that gets beyond the horizon has a maximal prefix: it ends
    before the first element beyond the horizon. *)
Lemma reaches_beyond_prefix self h :
  forall l d0 d',
    chain_from self d0 l -> next_date_is self (last l d0) d' ->
    date_lt h d' ->
    exists L, maximal_prefix self d0 h L.
Proof.
  induction l as [|a l IH]; intros d0 d' Ch Nx Lt.
  - exists []. split; [exact I|]. split; [constructor|].
    exists d'. split; assumption.
  - destruct Ch as [Na Ch]. rewrite last_cons in Nx.
    destruct (date_ltb h a) eqn:Ha.
    + exists []. split; [exact I|]. split; [constructor|].
      exists a. split; [exact Na | exact Ha].
    + destruct (IH a d' Ch Nx Lt) as (L & C & F & d'' & N & Lt'').
      exists (a :: L). split; [split; assumption|].
      split.
      * constructor; [|exact F]. unfold date_le, date_leb. rewrite Ha.
        reflexivity.
      * exists d''. rewrite last_cons. split; assumption.
Qed.

(** With no more rounds than the prefix has elements the loop is still
    running. *)
Lemma get_events_loop_short L :
  forall self periods observed h,
    _interval_end self = Some h ->
    chain_from self observed L ->
    Forall (fun x => date_le x h) L ->
    forall fuel, (fuel <= List.length L)%nat ->
      get_events_loop fuel self periods observed = None.
Proof.
  induction L as [|a L IH]; intros self periods observed h Eh Ch Fa fuel Hf.
  - destruct fuel; [reflexivity | cbn in Hf; lia].
  - destruct fuel as [|fuel]; [reflexivity|]. cbn [get_events_loop].
    destruct Ch as [Na Ch]. unfold next_date_is in Na. rewrite Na, Eh.
    inversion Fa as [|? ? Ha Fa']; subst.
    unfold date_le, date_leb in Ha. apply negb_true_iff in Ha.
    unfold date_gtb. rewrite Ha.
    apply (IH (with_last_occurence self a) (periods ++ [a]) a h);
      [ exact Eh | apply chain_from_cursor; exact Ch | exact Fa'
      | cbn [List.length] in Hf; lia ].
Qed.

(** The call returns the maximal prefix when there is one. *)
Lemma maximal_prefix_returns today self d0 h L :
  _last_occurence self = PyDate d0 ->
  maximal_prefix self d0 h L ->
  get_events_returns today self h L.
Proof.
  intros E0 (Ch & Fa & d' & Nx & Lt).
  assert (Run : forall fuel, (List.length L < fuel)%nat ->
            exists self',
              get_events today fuel self (PyDate h) = Some (Ok L, self')).
  { intros fuel Hf. unfold get_events. rewrite set_interval_end_date.
    cbn [with_interval_end _last_occurence]. rewrite E0.
    eexists. apply (get_events_loop_run L _ [] d0 d' h);
      [ reflexivity | apply chain_from_interval_end; exact Ch | exact Fa
      | exact Nx | exact Lt | exact Hf ]. }
  split; [exact Run|].
  intros fuel r self' E.
  destruct (Nat.le_gt_cases fuel (List.length L)) as [Hf | Hf].
  - exfalso. unfold get_events in E. rewrite set_interval_end_date in E.
    cbn [with_interval_end _last_occurence] in E. rewrite E0 in E.
    rewrite (get_events_loop_short L _ [] d0 h) in E;
      [ discriminate | reflexivity | apply chain_from_interval_end; exact Ch
      | exact Fa | exact Hf ].
  - destruct (Run fuel Hf) as [s Es]. rewrite Es in E.
    injection E as <- _. reflexivity.
Qed.

(** A step that returns its reference date keeps the loop running. *)
Lemma get_events_loop_fixed_point d0 h :
  date_le d0 h ->
  forall fuel s periods,
    get_next_date s d0 = Ok (Some d0) -> _interval_end s = Some h ->
    get_events_loop fuel s periods d0 = None.
Proof.
  intros Hle. unfold date_le, date_leb in Hle. apply negb_true_iff in Hle.
  induction fuel as [|fuel IH]; intros s periods Hs Hh; [reflexivity|].
  cbn [get_events_loop]. rewrite Hs, Hh. unfold date_gtb. rewrite Hle.
  apply IH; [exact Hs | exact Hh].
Qed.

Lemma chain_from_fixed_point self d0 :
  get_next_date self d0 = Ok (Some d0) ->
  forall l, chain_from self d0 l -> last l d0 = d0.
Proof.
  intros Step. induction l as [|a l IH]; intros Ch; [reflexivity|].
  destruct Ch as [Na Ch]. unfold next_date_is in Na. rewrite Step in Na.
  injection Na as <-. rewrite last_cons. apply IH. exact Ch.
Qed.

(** C2, counterexample: the constructor accepts a daily rule with interval
    0.  Every evaluator step of its enumeration from 2023-06-30 up to the
    horizon 2023-07-03 yields a date, the reference date again; no list is
    a maximal prefix, and [get_events] returns nothing, however many rounds
    the loop is given. *)
Lemma get_events_interval_zero_no_return :
  __init__ (PyDate (mkdate 2023 6 30)) 1 0 None None None PyNone
  = Ok (mkRecurringEvent (PyDate (mkdate 2023 6 30)) 1 0 None None None None)
  /\ steps_yield_dates
       (mkRecurringEvent (PyDate (mkdate 2023 6 30)) 1 0 None None None None)
       (mkdate 2023 6 30) (mkdate 2023 7 3)
  /\ (forall L,
         ~ maximal_prefix
             (mkRecurringEvent (PyDate (mkdate 2023 6 30)) 1 0 None None None
                               None)
             (mkdate 2023 6 30) (mkdate 2023 7 3) L)
  /\ (forall today fuel,
         get_events today fuel
           (mkRecurringEvent (PyDate (mkdate 2023 6 30)) 1 0 None None None
                             None)
           (PyDate (mkdate 2023 7 3))
         = None).
Proof.
  assert (Step : get_next_date
                   (mkRecurringEvent (PyDate (mkdate 2023 6 30)) 1 0 None
                                     None None None)
                   (mkdate 2023 6 30)
                 = Ok (Some (mkdate 2023 6 30)))
    by (vm_compute; reflexivity).
  split; [reflexivity|]. split; [|split].
  - intros l Ch _. rewrite (chain_from_fixed_point _ _ Step l Ch).
    exists (mkdate 2023 6 30). exact Step.
  - intros L (Ch & _ & d' & Nx & Lt).
    rewrite (chain_from_fixed_point _ _ Step L Ch) in Nx.
    unfold next_date_is in Nx. rewrite Step in Nx. injection Nx as <-.
    unfold date_lt in Lt. vm_compute in Lt. discriminate.
  - intros today fuel. unfold get_events. rewrite set_interval_end_date.
    cbn [with_interval_end _last_occurence].
    apply (get_events_loop_fixed_point (mkdate 2023 6 30) (mkdate 2023 7 3));
      [ reflexivity | exact Step | reflexivity ].
Qed.

(** C2, amended: for a constructed rule with a positive interval (the
    weekday, if set, in the documented range 1..8), a cursor and a horizon
    that are dates, and every evaluator step up to the horizon yielding a
    date, [get_events] with horizon h returns exactly the maximal prefix of
    the chain of next occurrences after the last occurrence: the dates are
    in the order generated, each is at most h, and the next occurrence
    after them lies beyond h.  For every rule the call returns that prefix
    as soon as the chain gets beyond the horizon; there is one such prefix
    at most; and a list that the call returns is that prefix. *)
Theorem get_events_maximal_prefix (today : date) (self : RecurringEvent)
    (d0 h : date) :
  _last_occurence self = PyDate d0 ->
  (constructed self -> 1 <= _interval self -> weekday_documented self ->
   valid_date d0 -> valid_date h -> steps_yield_dates self d0 h ->
   exists L,
     maximal_prefix self d0 h L /\ get_events_returns today self h L)
  /\ (reaches_beyond self d0 h ->
      exists L,
        maximal_prefix self d0 h L /\ get_events_returns today self h L)
  /\ (forall L L',
         maximal_prefix self d0 h L -> maximal_prefix self d0 h L' -> L = L')
  /\ (forall fuel L self',
         get_events today fuel self (PyDate h) = Some (Ok L, self') ->
         maximal_prefix self d0 h L).
Proof.
  intros E0.
  assert (Reach : reaches_beyond self d0 h ->
            exists L,
              maximal_prefix self d0 h L
              /\ get_events_returns today self h L).
  { intros (l & d' & Ch & Nx & Lt).
    destruct (reaches_beyond_prefix self h l d0 d' Ch Nx Lt) as [L M].
    exists L. split; [exact M|].
    apply (maximal_prefix_returns today self d0); assumption. }
  split; [|split; [exact Reach | split]].
  - intros C Hi Hw V0 Vh Steps. apply Reach.
    destruct (chain_reaches_horizon self C Hi Hw h Vh
                (Z.to_nat (toordinal h - toordinal d0 + 1)) d0 V0
                ltac:(lia) Steps)
      as (L & d' & Ch & _ & Nx & Lt).
    exists L, d'. split; [exact Ch|]. split; assumption.
  - intros L L'. apply maximal_prefix_unique.
  - intros fuel L self'. unfold get_events. rewrite set_interval_end_date.
    cbn [with_interval_end _last_occurence]. rewrite E0.
    intros E. apply get_events_loop_Ok in E.
    destruct E as (new & d' & h' & -> & Eh & Ch & Fa & Nx & Lt & _).
    cbn [_interval_end] in Eh. injection Eh as <-. cbn [app].
    apply chain_from_interval_end in Ch.
    split; [exact Ch|]. split; [exact Fa|]. exists d'. split; assumption.
Qed.

(** Scenario 5 of the documentation: daily from 2023-06-30 up to
    2023-07-03. *)
Lemma get_events_maximal_prefix_witness :
  maximal_prefix daily_from_2023_06_30 (mkdate 2023 6 30) (mkdate 2023 7 3)
                 [mkdate 2023 7 1; mkdate 2023 7 2; mkdate 2023 7 3]
  /\ get_events_returns (mkdate 2024 1 1) daily_from_2023_06_30
                        (mkdate 2023 7 3)
                        [mkdate 2023 7 1; mkdate 2023 7 2; mkdate 2023 7 3].
Proof.
  destruct (get_events_maximal_prefix (mkdate 2024 1 1) daily_from_2023_06_30
              (mkdate 2023 6 30) (mkdate 2023 7 3) eq_refl)
    as (Returns & _ & Unique & _).
  destruct Returns as (L & M & R);
    [ reflexivity | cbn; lia | exact I | reflexivity | reflexivity | | ].
  - apply daily_steps_yield_dates;
      [ reflexivity | cbn; lia | exact I | reflexivity | reflexivity
      | reflexivity | reflexivity | reflexivity
      | vm_compute; discriminate | vm_compute; discriminate ].
  - assert (EL : L = [mkdate 2023 7 1; mkdate 2023 7 2; mkdate 2023 7 3]).
    { apply Unique; [exact M|].
      split; [repeat split|]. split; [repeat constructor|].
      exists (mkdate 2023 7 4). split; reflexivity. }
    rewrite <- EL. split; assumption.
Defined.

(** * Further properties of the module *)

(** ** Dates within a month *)

Lemma weekday_in_month d k :
  weekday (mkdate (year d) (month d) k) = (month_start d + k + 5) mod 7.
Proof.
  unfold weekday, toordinal, month_start. cbn [year month day].
  rewrite (ymd2ord_day _ _ k). f_equal. lia.
Qed.

Lemma valid_in_month d k :
  valid_date d -> 1 <= k <= days_in_month (year d) (month d) ->
  valid_date (mkdate (year d) (month d) k).
Proof.
  intros Hd Hk. apply valid_date_iff in Hd. apply valid_date_iff.
  cbn [year month day]. lia.
Qed.

(** Moving inside a month never leaves the calendar. *)
Lemma add_days_in_month d k j :
  valid_date d ->
  1 <= k <= days_in_month (year d) (month d) ->
  1 <= k + j <= days_in_month (year d) (month d) ->
  add_days (mkdate (year d) (month d) k) j
  = Ok (mkdate (year d) (month d) (k + j)).
Proof.
  intros Hd Hk Hkj.
  pose proof (month_start_bounds d Hd) as (B1 & B2 & _).
  assert (E : toordinal (mkdate (year d) (month d) k)
              = month_start d + (k - 1)).
  { unfold toordinal, month_start. cbn [year month day].
    apply ymd2ord_day. }
  rewrite add_days_in_range by (rewrite E; lia).
  rewrite E. f_equal.
  replace (month_start d + (k - 1) + j) with (month_start d + (k + j - 1))
    by lia.
  apply fromordinal_in_month; assumption.
Qed.

(** ** [get_next_workday_by_interval] *)

(** X1: whatever the interval, a date returned by
    [get_next_workday_by_interval] is a Monday to Friday, and it lies n or
    n + 2 days after the starting date. *)
Theorem get_next_workday_by_interval_workday (d : date) (n : Z) (r : date) :
  valid_date d ->
  get_next_workday_by_interval d n = Ok r ->
  valid_date r
  /\ 0 <= weekday r <= 4
  /\ (toordinal r = toordinal d + n \/ toordinal r = toordinal d + n + 2).
Proof.
  intros Hd. unfold get_next_workday_by_interval.
  destruct (add_days d n) as [l|] eqn:El; [|discriminate]. cbn [bind].
  destruct (add_days_Ok d n l Hd El) as [Vl Ol].
  pose proof (weekday_bounds l) as Bl.
  destruct (Z.ltb_spec 4 (weekday l)) as [Hw | Hw].
  - intros E. destruct (add_days_Ok l 2 r Vl E) as [Vr Or].
    split; [exact Vr|]. split; [|right; lia].
    unfold weekday in *. rewrite Or. Z.div_mod_to_equations. lia.
  - intros [= <-]. split; [exact Vl|]. split; [lia | left; exact Ol].
Qed.

Lemma get_next_workday_by_interval_workday_witness :
  valid_date (mkdate 2023 6 5)
  /\ 0 <= weekday (mkdate 2023 6 5) <= 4
  /\ (toordinal (mkdate 2023 6 5) = toordinal (mkdate 2023 6 2) + 1
      \/ toordinal (mkdate 2023 6 5) = toordinal (mkdate 2023 6 2) + 1 + 2).
Proof.
  apply (get_next_workday_by_interval_workday (mkdate 2023 6 2) 1
                                              (mkdate 2023 6 5)).
  - reflexivity.
  - reflexivity.
Defined.

(** ** [get_next_weekday] *)

(** X2: for a weekday w in 1..7, [get_next_weekday] returns the day of
    weekday w in the Monday-to-Sunday week of the given date (so up to 6
    days earlier or later); it fails only when that day lies after the last
    date, 9999-12-31. *)
Theorem get_next_weekday_same_week (d : date) (w : Z) :
  valid_date d -> 1 <= w <= 7 ->
  (toordinal d - weekday d + (w - 1) <= MAXORDINAL ->
   exists r, get_next_weekday d w = Ok r)
  /\ (forall r, get_next_weekday d w = Ok r ->
        valid_date r
        /\ weekday r = w - 1
        /\ toordinal r - weekday r = toordinal d - weekday d
        /\ -6 <= toordinal r - toordinal d <= 6).
Proof.
  intros Hd Hw. unfold get_next_weekday. cbv zeta.
  pose proof (toordinal_bounds d Hd) as Bd.
  pose proof (weekday_bounds d) as Bw.
  split.
  - intros Hmax. eexists. apply add_days_in_range.
    split; [|lia].
    unfold weekday in *. Z.div_mod_to_equations. lia.
  - intros r E. destruct (add_days_Ok _ _ _ Hd E) as [Vr Or].
    split; [exact Vr|].
    assert (Wr : weekday r = w - 1).
    { unfold weekday in *. rewrite Or. Z.div_mod_to_equations. lia. }
    rewrite Wr. repeat split; lia.
Qed.

Lemma get_next_weekday_same_week_witness :
  (toordinal (mkdate 2023 6 2) - weekday (mkdate 2023 6 2) + (1 - 1)
   <= MAXORDINAL ->
   exists r, get_next_weekday (mkdate 2023 6 2) 1 = Ok r)
  /\ (forall r, get_next_weekday (mkdate 2023 6 2) 1 = Ok r ->
        valid_date r
        /\ weekday r = 1 - 1
        /\ toordinal r - weekday r
           = toordinal (mkdate 2023 6 2) - weekday (mkdate 2023 6 2)
        /\ -6 <= toordinal r - toordinal (mkdate 2023 6 2) <= 6).
Proof.
  apply (get_next_weekday_same_week (mkdate 2023 6 2) 1).
  - reflexivity.
  - lia.
Defined.

Example get_next_weekday_steps_back :
  get_next_weekday (mkdate 2023 6 2) 1 = Ok (mkdate 2023 5 29).
Proof. vm_compute. reflexivity. Qed.

(** ** [get_nth_weekday_of_month], ordinals 1 to 4 *)

(** X3: for an ordinal o in 1..4 and a weekday w in 1..7,
    [get_nth_weekday_of_month] always returns a date: the one of weekday w
    among the days 7(o-1)+1 .. 7o of the month of the given date, that is,
    the o-th occurrence of the weekday in the month. *)
Theorem get_nth_weekday_of_month_nth (d : date) (o w : Z) :
  valid_date d -> 1 <= o <= 4 -> 1 <= w <= 7 ->
  exists r,
    get_nth_weekday_of_month d o w = Ok r
    /\ valid_date r
    /\ year r = year d /\ month r = month d
    /\ weekday r = w - 1
    /\ 7 * (o - 1) < day r <= 7 * o.
Proof.
  intros Hd Ho Hw.
  pose proof (month_start_bounds d Hd) as (B1 & B2 & _).
  pose proof (days_in_month_bounds (year d) (month d)
                ltac:(apply valid_date_iff in Hd; lia)) as Bd.
  set (adj := (w - 1 - (month_start d + 6) mod 7) mod 7).
  pose proof (Z.mod_pos_bound (w - 1 - (month_start d + 6) mod 7) 7
                ltac:(lia)) as Ba.
  fold adj in Ba.
  set (k := adj + 7 * (o - 1) + 1).
  assert (Hk : 1 <= k <= days_in_month (year d) (month d)) by (subst k; lia).
  exists (mkdate (year d) (month d) k).
  split.
  - rewrite get_nth_weekday_of_month_unfold.
    rewrite nth_weekday_body_ordinal_Ok;
      [ | exact Hd | lia | lia | fold adj; lia ].
    fold adj. f_equal.
    replace (month_start d + adj + 7 * (o - 1))
      with (month_start d + (k - 1)) by (subst k; lia).
    apply fromordinal_in_month; assumption.
  - split; [apply valid_in_month; assumption|].
    split; [reflexivity|]. split; [reflexivity|].
    split; [|cbn [day]; subst k; lia].
    rewrite weekday_in_month. subst k adj.
    generalize (month_start d). intros ms.
    Z.div_mod_to_equations. lia.
Qed.

Lemma get_nth_weekday_of_month_nth_witness :
  exists r,
    get_nth_weekday_of_month (mkdate 2023 4 20) 1 5 = Ok r
    /\ valid_date r
    /\ year r = 2023 /\ month r = 4
    /\ weekday r = 5 - 1
    /\ 7 * (1 - 1) < day r <= 7 * 1.
Proof.
  apply (get_nth_weekday_of_month_nth (mkdate 2023 4 20) 1 5).
  - reflexivity.
  - lia.
  - lia.
Defined.

(** The ordinal of the result for ordinal 5. *)
Lemma get_nth_weekday_of_month_5_ordinal d w r :
  valid_date d -> w <= 7 ->
  get_nth_weekday_of_month d 5 w = Ok r ->
  valid_date r
  /\ toordinal r
     = month_start d + days_in_month (year d) (month d)
       + (w - 1
          - (month_start d + days_in_month (year d) (month d) + 6) mod 7)
         mod 7
       - 7.
Proof.
  intros Hd Hw E.
  rewrite get_nth_weekday_of_month_unfold in E. unfold nth_weekday_body in E.
  destruct (Z.ltb_spec 7 w); [lia|].
  cbn [Z.ltb Z.eqb Z.compare Pos.compare Pos.compare_cont] in E.
  assert (Hlast : ~ (year d = 9999 /\ month d = 12)).
  { intros [H9 H12]. rewrite H9, H12 in E. discriminate. }
  destruct (next_month_replace d Hd Hlast) as (Enm & Vnm & Snm).
  rewrite Enm in E. cbn [bind] in E.
  destruct (get_nth_weekday_of_month (first_of_next_month d) 1 w)
    as [r1|] eqn:E1; [|discriminate].
  cbn [bind] in E.
  rewrite get_nth_weekday_of_month_unfold in E1.
  destruct (nth_weekday_body_ordinal get_nth_weekday_of_month
              (first_of_next_month d) 1 w r1 Vnm Hw ltac:(lia) E1)
    as [V1 O1].
  destruct (add_days_Ok _ _ _ V1 E) as [Vr Or].
  split; [exact Vr|]. rewrite Or, O1, Snm. lia.
Qed.

(** X4: the "last" weekday of a month is its fourth or its fifth
    occurrence: whenever ordinal 5 returns a date, it is the date returned
    for ordinal 4 or the date one week after it. *)
Theorem get_nth_weekday_of_month_last_is_4th_or_5th (d : date) (w : Z)
    (r5 : date) :
  valid_date d -> 1 <= w <= 7 ->
  get_nth_weekday_of_month d 5 w = Ok r5 ->
  exists r4,
    get_nth_weekday_of_month d 4 w = Ok r4
    /\ (r5 = r4 \/ add_days r4 7 = Ok r5).
Proof.
  intros Hd Hw E5.
  pose proof (month_start_bounds d Hd) as (B1 & B2 & _).
  pose proof (days_in_month_bounds (year d) (month d)
                ltac:(apply valid_date_iff in Hd; lia)) as Bd.
  pose proof (Z.mod_pos_bound (w - 1 - (month_start d + 6) mod 7) 7
                ltac:(lia)) as Ba.
  set (o4 := month_start d + (w - 1 - (month_start d + 6) mod 7) mod 7
             + 7 * (4 - 1)) in *.
  assert (R4 : 1 <= o4 <= MAXORDINAL) by (subst o4; lia).
  destruct (fromordinal_spec o4 R4) as [V4 O4].
  exists (fromordinal o4). split.
  { rewrite get_nth_weekday_of_month_unfold.
    apply nth_weekday_body_ordinal_Ok; [exact Hd | lia | lia | exact R4]. }
  destruct (get_nth_weekday_of_month_5_ordinal d w r5 Hd ltac:(lia) E5)
    as [V5 O5].
  assert (Hcase : toordinal r5 = o4 \/ toordinal r5 = o4 + 7).
  { rewrite O5. subst o4. clear - Bd Hw. revert Bd.
    generalize (month_start d), (days_in_month (year d) (month d)).
    intros ms dim Bdim. Z.div_mod_to_equations. lia. }
  destruct Hcase as [Heq | Hweek].
  - left. apply toordinal_inj; [exact V5 | exact V4 | lia].
  - right. pose proof (toordinal_bounds r5 V5) as B5.
    rewrite add_days_in_range by lia. f_equal.
    rewrite O4, <- Hweek. apply fromordinal_toordinal. exact V5.
Qed.

Lemma get_nth_weekday_of_month_last_is_4th_or_5th_witness :
  exists r4,
    get_nth_weekday_of_month (mkdate 2023 12 5) 4 5 = Ok r4
    /\ (mkdate 2023 12 29 = r4 \/ add_days r4 7 = Ok (mkdate 2023 12 29)).
Proof.
  apply (get_nth_weekday_of_month_last_is_4th_or_5th (mkdate 2023 12 5) 5
                                                     (mkdate 2023 12 29)).
  - reflexivity.
  - lia.
  - reflexivity.
Defined.

(** ** First, last and n-th workday of a month *)

(** The day of the month that [get_first_workday_of_month] returns. *)
Lemma get_first_workday_of_month_day d :
  valid_date d ->
  exists k,
    get_first_workday_of_month d = Ok (mkdate (year d) (month d) k)
    /\ k = (if weekday (mkdate (year d) (month d) 1) =? 5 then 3
            else if weekday (mkdate (year d) (month d) 1) =? 6 then 2
            else 1).
Proof.
  intros Hd. unfold get_first_workday_of_month. cbv zeta.
  destruct (replace_day_1 d Hd) as [-> V1]. cbn [bind].
  pose proof (days_in_month_bounds (year d) (month d)
                ltac:(apply valid_date_iff in Hd; lia)) as Bd.
  destruct (Z.eqb_spec (weekday (mkdate (year d) (month d) 1)) 5) as [E5|N5].
  - cbn [orb]. exists 3. split; [|reflexivity]. rewrite E5.
    apply (add_days_in_month d 1 2 Hd); lia.
  - destruct (Z.eqb_spec (weekday (mkdate (year d) (month d) 1)) 6)
      as [E6|N6]; cbn [orb].
    + exists 2. split; [|reflexivity]. rewrite E6.
      apply (add_days_in_month d 1 1 Hd); lia.
    + exists 1. split; reflexivity.
Qed.

(** X5: [get_first_workday_of_month] always returns a date: a Monday to
    Friday among the first three days of the month of the given date, with
    only Saturdays and Sundays before it in that month. *)
Theorem get_first_workday_of_month_first (d : date) :
  valid_date d ->
  exists r,
    get_first_workday_of_month d = Ok r
    /\ valid_date r
    /\ year r = year d /\ month r = month d
    /\ 1 <= day r <= 3
    /\ 0 <= weekday r <= 4
    /\ forall k, 1 <= k < day r ->
                 5 <= weekday (mkdate (year d) (month d) k).
Proof.
  intros Hd. destruct (get_first_workday_of_month_day d Hd) as (k & E & Hk).
  pose proof (days_in_month_bounds (year d) (month d)
                ltac:(apply valid_date_iff in Hd; lia)) as Bd.
  exists (mkdate (year d) (month d) k).
  assert (R : 1 <= k <= 3)
    by (subst k; destruct (_ =? 5); [|destruct (_ =? 6)]; lia).
  split; [exact E|]. split; [apply valid_in_month; [exact Hd | lia]|].
  split; [reflexivity|]. split; [reflexivity|]. cbn [day].
  split; [exact R|].
  rewrite weekday_in_month in Hk. rewrite weekday_in_month.
  split.
  - destruct (Z.eqb_spec ((month_start d + 1 + 5) mod 7) 5);
      [|destruct (Z.eqb_spec ((month_start d + 1 + 5) mod 7) 6)];
      subst k; Z.div_mod_to_equations; lia.
  - intros j Hj. rewrite weekday_in_month.
    destruct (Z.eqb_spec ((month_start d + 1 + 5) mod 7) 5);
      [|destruct (Z.eqb_spec ((month_start d + 1 + 5) mod 7) 6)];
      subst k; Z.div_mod_to_equations; lia.
Qed.

Lemma get_first_workday_of_month_first_witness :
  exists r,
    get_first_workday_of_month (mkdate 2023 4 20) = Ok r
    /\ valid_date r
    /\ year r = 2023 /\ month r = 4
    /\ 1 <= day r <= 3
    /\ 0 <= weekday r <= 4
    /\ forall k, 1 <= k < day r -> 5 <= weekday (mkdate 2023 4 k).
Proof.
  apply (get_first_workday_of_month_first (mkdate 2023 4 20)). reflexivity.
Defined.

(** The day of the month that [get_last_workday_of_month] returns. *)
Lemma get_last_workday_of_month_day d :
  valid_date d ->
  exists k,
    get_last_workday_of_month d = Ok (mkdate (year d) (month d) k)
    /\ k = days_in_month (year d) (month d)
           - (if (month_start d + days_in_month (year d) (month d) + 5) mod 7
                 =? 5 then 1
              else if (month_start d + days_in_month (year d) (month d) + 5)
                      mod 7 =? 6 then 2
              else 0).
Proof.
  intros Hd. unfold get_last_workday_of_month. cbv zeta.
  destruct (replace_last_day d Hd) as [-> V]. cbn [bind].
  pose proof (days_in_month_bounds (year d) (month d)
                ltac:(apply valid_date_iff in Hd; lia)) as Bd.
  rewrite weekday_in_month.
  set (dim := days_in_month (year d) (month d)) in *.
  destruct (Z.eqb_spec ((month_start d + dim + 5) mod 7) 5) as [E5|N5];
    [|destruct (Z.eqb_spec ((month_start d + dim + 5) mod 7) 6) as [E6|N6]];
    cbn [orb].
  - (* a Saturday: one day back *)
    exists (dim - 1). split; [|reflexivity]. rewrite E5.
    replace (dim - 1) with (dim + - (5 - 4)) by lia.
    apply (add_days_in_month d dim (- (5 - 4)) Hd); lia.
  - (* a Sunday: two days back *)
    exists (dim - 2). split; [|reflexivity]. rewrite E6.
    replace (dim - 2) with (dim + - (6 - 4)) by lia.
    apply (add_days_in_month d dim (- (6 - 4)) Hd); lia.
  - exists dim. split; [reflexivity | lia].
Qed.

(** X6: [get_last_workday_of_month] always returns a date: a Monday to
    Friday among the last three days of the month of the given date, with
    only Saturdays and Sundays after it in that month. *)
Theorem get_last_workday_of_month_last (d : date) :
  valid_date d ->
  exists r,
    get_last_workday_of_month d = Ok r
    /\ valid_date r
    /\ year r = year d /\ month r = month d
    /\ days_in_month (year d) (month d) - 2 <= day r
       <= days_in_month (year d) (month d)
    /\ 0 <= weekday r <= 4
    /\ forall k, day r < k <= days_in_month (year d) (month d) ->
                 5 <= weekday (mkdate (year d) (month d) k).
Proof.
  intros Hd. destruct (get_last_workday_of_month_day d Hd) as (k & E & Hk).
  pose proof (days_in_month_bounds (year d) (month d)
                ltac:(apply valid_date_iff in Hd; lia)) as Bd.
  set (dim := days_in_month (year d) (month d)) in *.
  assert (R : dim - 2 <= k <= dim)
    by (subst k; destruct (_ =? 5); [|destruct (_ =? 6)]; lia).
  exists (mkdate (year d) (month d) k).
  split; [exact E|]. split; [apply valid_in_month; [exact Hd | lia]|].
  split; [reflexivity|]. split; [reflexivity|]. cbn [day].
  split; [exact R|]. rewrite weekday_in_month.
  split.
  - destruct (Z.eqb_spec ((month_start d + dim + 5) mod 7) 5);
      [|destruct (Z.eqb_spec ((month_start d + dim + 5) mod 7) 6)];
      subst k; Z.div_mod_to_equations; lia.
  - intros j Hj. rewrite weekday_in_month.
    destruct (Z.eqb_spec ((month_start d + dim + 5) mod 7) 5);
      [|destruct (Z.eqb_spec ((month_start d + dim + 5) mod 7) 6)];
      subst k; Z.div_mod_to_equations; lia.
Qed.

Lemma get_last_workday_of_month_last_witness :
  exists r,
    get_last_workday_of_month (mkdate 2023 12 5) = Ok r
    /\ valid_date r
    /\ year r = 2023 /\ month r = 12
    /\ days_in_month 2023 12 - 2 <= day r <= days_in_month 2023 12
    /\ 0 <= weekday r <= 4
    /\ forall k, day r < k <= days_in_month 2023 12 ->
                 5 <= weekday (mkdate 2023 12 k).
Proof.
  apply (get_last_workday_of_month_last (mkdate 2023 12 5)). reflexivity.
Defined.

(** The day of the month that [get_nth_workday_of_month] returns for an
    ordinal in 1..5, from the day [kf] of the first workday. *)
Lemma get_nth_workday_of_month_day d o :
  valid_date d -> 1 <= o <= 5 ->
  exists kf,
    get_first_workday_of_month d = Ok (mkdate (year d) (month d) kf)
    /\ 1 <= kf <= 3
    /\ 0 <= (month_start d + kf + 5) mod 7 <= 4
    /\ get_nth_workday_of_month d (Some o)
       = Ok (mkdate (year d) (month d)
                    (kf + (o - 1)
                     + (if 4 <? (month_start d + kf + 5) mod 7 + o - 1
                        then 2 else 0))).
Proof.
  intros Hd Ho.
  destruct (get_first_workday_of_month_day d Hd) as (k & E & Hk).
  pose proof (days_in_month_bounds (year d) (month d)
                ltac:(apply valid_date_iff in Hd; lia)) as Bd.
  assert (R : 1 <= k <= 3)
    by (subst k; destruct (_ =? 5); [|destruct (_ =? 6)]; lia).
  assert (Wf : 0 <= (month_start d + k + 5) mod 7 <= 4).
  { rewrite weekday_in_month in Hk.
    destruct (Z.eqb_spec ((month_start d + 1 + 5) mod 7) 5);
      [|destruct (Z.eqb_spec ((month_start d + 1 + 5) mod 7) 6)];
      subst k; Z.div_mod_to_equations; lia. }
  exists k. split; [exact E|]. split; [exact R|]. split; [exact Wf|].
  unfold get_nth_workday_of_month. cbv zeta. rewrite E. cbn [bind].
  rewrite (add_days_in_month d k (o - 1) Hd) by lia. cbn [bind].
  rewrite weekday_in_month.
  apply (add_days_in_month d (k + (o - 1)) _ Hd); [lia|].
  destruct (4 <? _); lia.
Qed.

(** X7: for an ordinal o in 1..5, [get_nth_workday_of_month] always
    returns a date of the month: the o-th workday counted from the first
    workday, that is, the date within the seven days from the first workday
    whose weekday is o - 1 workdays on (Friday followed by Monday); for
    ordinal 1 it is the first workday itself.  With [None] as ordinal the
    call raises [TypeError]. *)
Theorem get_nth_workday_of_month_nth (d : date) (o : Z) :
  valid_date d -> 1 <= o <= 5 ->
  (exists fw r,
      get_first_workday_of_month d = Ok fw
      /\ get_nth_workday_of_month d (Some o) = Ok r
      /\ valid_date r
      /\ year r = year d /\ month r = month d
      /\ weekday r = (weekday fw + o - 1) mod 5
      /\ 0 <= toordinal r - toordinal fw <= 6
      /\ (o = 1 -> r = fw))
  /\ get_nth_workday_of_month d None = Raise TypeError.
Proof.
  intros Hd Ho.
  destruct (get_nth_workday_of_month_day d o Hd Ho)
    as (k & E & R & Wf & En).
  pose proof (days_in_month_bounds (year d) (month d)
                ltac:(apply valid_date_iff in Hd; lia)) as Bd.
  split; [|unfold get_nth_workday_of_month; rewrite E; reflexivity].
  set (delta := if 4 <? (month_start d + k + 5) mod 7 + o - 1 then 2 else 0)
    in *.
  assert (Rd : 0 <= delta <= 2) by (subst delta; destruct (4 <? _); lia).
  exists (mkdate (year d) (month d) k),
    (mkdate (year d) (month d) (k + (o - 1) + delta)).
  split; [exact E|]. split; [exact En|].
  split; [apply valid_in_month; [exact Hd | lia]|].
  split; [reflexivity|]. split; [reflexivity|].
  rewrite !weekday_in_month. unfold toordinal. cbn [year month day].
  rewrite (ymd2ord_day _ _ (k + (o - 1) + delta)), (ymd2ord_day _ _ k).
  split.
  { subst delta.
    destruct (Z.ltb_spec 4 ((month_start d + k + 5) mod 7 + o - 1));
      Z.div_mod_to_equations; lia. }
  split; [lia|].
  intros ->. subst delta.
  destruct (Z.ltb_spec 4 ((month_start d + k + 5) mod 7 + 1 - 1)); [lia|].
  f_equal. lia.
Qed.

Lemma get_nth_workday_of_month_nth_witness :
  (exists fw r,
      get_first_workday_of_month (mkdate 2023 9 15) = Ok fw
      /\ get_nth_workday_of_month (mkdate 2023 9 15) (Some 2) = Ok r
      /\ valid_date r
      /\ year r = 2023 /\ month r = 9
      /\ weekday r = (weekday fw + 2 - 1) mod 5
      /\ 0 <= toordinal r - toordinal fw <= 6
      /\ (2 = 1 -> r = fw))
  /\ get_nth_workday_of_month (mkdate 2023 9 15) None = Raise TypeError.
Proof.
  apply (get_nth_workday_of_month_nth (mkdate 2023 9 15) 2).
  - reflexivity.
  - lia.
Defined.

(** September 2023 starts on a Friday: its second workday is Monday the
    4th. *)
Example second_workday_of_september_2023 :
  get_nth_workday_of_month (mkdate 2023 9 15) (Some 2) = Ok (mkdate 2023 9 4).
Proof. vm_compute. reflexivity. Qed.

(** ** Period calculations *)

(** X8: the weekly branch of [_get_weekday_period] (no ordinal, weekday w
    in 1..7) returns the day of weekday w in the week that lies [interval]
    weeks after the week of the starting date; from a starting date that
    falls on weekday w it is exactly [interval] weeks later. *)
Theorem get_weekday_period_weekly (self : RecurringEvent) (d r : date) :
  valid_date d ->
  truthy (_ordinal self) = false ->
  1 <= val (_weekday self) <= 7 ->
  _get_weekday_period self d = Ok r ->
  valid_date r
  /\ weekday r = val (_weekday self) - 1
  /\ toordinal r - weekday r
     = toordinal d - weekday d + 7 * _interval self
  /\ (weekday d = val (_weekday self) - 1 ->
      toordinal r = toordinal d + 7 * _interval self).
Proof.
  intros Hd To Hw. unfold _get_weekday_period. rewrite To.
  destruct (add_days d (7 * _interval self)) as [d1|] eqn:E1; [|discriminate].
  cbn [bind]. unfold get_next_weekday. cbv zeta. intros E.
  destruct (add_days_Ok _ _ _ Hd E1) as [V1 O1].
  destruct (add_days_Ok _ _ _ V1 E) as [Vr Or].
  assert (W1 : weekday d1 = weekday d).
  { unfold weekday. rewrite O1.
    replace (toordinal d + 7 * _interval self + 6)
      with (toordinal d + 6 + _interval self * 7) by lia.
    apply Z_mod_plus_full. }
  pose proof (weekday_bounds d) as Bd.
  assert (Wr : weekday r = val (_weekday self) - 1).
  { unfold weekday in *. rewrite Or, O1. rewrite O1 in W1.
    generalize dependent (toordinal d). intros od W1 Bd.
    Z.div_mod_to_equations. lia. }
  split; [exact Vr|]. split; [exact Wr|]. rewrite Wr.
  split; [lia|]. intros Hsame. lia.
Qed.

(** Scenario 1 of the documentation: every 4 weeks on Saturday, from a
    Saturday. *)
Lemma get_weekday_period_weekly_witness :
  valid_date (mkdate 2023 2 4)
  /\ weekday (mkdate 2023 2 4) = val (Some 6) - 1
  /\ toordinal (mkdate 2023 2 4) - weekday (mkdate 2023 2 4)
     = toordinal d_2023_01_07 - weekday d_2023_01_07 + 7 * 4
  /\ (weekday d_2023_01_07 = val (Some 6) - 1 ->
      toordinal (mkdate 2023 2 4) = toordinal d_2023_01_07 + 7 * 4).
Proof.
  apply (get_weekday_period_weekly every_4_weeks_on_saturday d_2023_01_07
                                   (mkdate 2023 2 4)).
  - reflexivity.
  - reflexivity.
  - cbn. lia.
  - reflexivity.
Defined.

(** A valid date with a given ordinal inside a month is the date of that
    month. *)
Lemma date_of_month_ordinal d r k :
  valid_date d -> valid_date r ->
  1 <= k <= days_in_month (year d) (month d) ->
  toordinal r = month_start d + (k - 1) ->
  r = mkdate (year d) (month d) k.
Proof.
  intros Hd Hr Hk Ho. apply toordinal_inj.
  - exact Hr.
  - apply valid_in_month; assumption.
  - rewrite Ho. unfold toordinal, month_start. cbn [year month day].
    symmetry. apply ymd2ord_day.
Qed.

(** The first of the target month, when [replace] accepts it. *)
Lemma target_month_first d i d1 :
  replace d (Some (year d + fst (rollover (month d) i)))
          (Some (snd (rollover (month d) i))) (Some 1) = Ok d1 ->
  d1 = mkdate (year d + fst (rollover (month d) i))
              (snd (rollover (month d) i)) 1
  /\ valid_date d1.
Proof. unfold replace. apply new_date_Ok. Qed.

Lemma target_month_first_Ok d i :
  valid_date d -> 1 <= i <= 12 ->
  year d + fst (rollover (month d) i) <= 9999 ->
  replace d (Some (year d + fst (rollover (month d) i)))
          (Some (snd (rollover (month d) i))) (Some 1)
  = Ok (mkdate (year d + fst (rollover (month d) i))
               (snd (rollover (month d) i)) 1).
Proof.
  intros Hd Hi Hy. apply valid_date_iff in Hd. destruct Hd as (Hyd & Hm & _).
  pose proof (rollover_in_range (month d) i Hm Hi) as Htm.
  pose proof (rollover_advances (month d) i Hm ltac:(lia)) as (A1 & _).
  apply replace_first_of_month; lia.
Qed.

(** X9: the monthly branch of [_get_weekday_period] (ordinal o in 1..5,
    weekday w in 1..7): a date it returns lies in the target month of the
    rollover and falls on weekday w, within the days 7(o-1)+1 .. 7o for an
    ordinal up to 4 and within the last seven days for ordinal 5; for an
    interval in 1..12, a target year up to 9999 and an ordinal up to 4 it
    does return a date. *)
Theorem get_weekday_period_monthly (self : RecurringEvent) (d : date) :
  valid_date d ->
  truthy (_ordinal self) = true ->
  1 <= val (_ordinal self) <= 5 ->
  1 <= val (_weekday self) <= 7 ->
  let ty := year d + fst (rollover (month d) (_interval self)) in
  let tm := snd (rollover (month d) (_interval self)) in
  (forall r, _get_weekday_period self d = Ok r ->
     valid_date r /\ year r = ty /\ month r = tm
     /\ weekday r = val (_weekday self) - 1
     /\ (val (_ordinal self) <= 4 ->
         7 * (val (_ordinal self) - 1) < day r <= 7 * val (_ordinal self))
     /\ (val (_ordinal self) = 5 -> days_in_month ty tm - 7 < day r))
  /\ (1 <= _interval self <= 12 -> ty <= 9999 -> val (_ordinal self) <= 4 ->
      exists r, _get_weekday_period self d = Ok r).
Proof.
  intros Hd To Ho Hw. cbv zeta.
  rewrite (get_weekday_period_rollover self d To).
  destruct (rollover (month d) (_interval self)) as [yi tm] eqn:Er.
  cbn [fst snd].
  assert (Hfst : fst (rollover (month d) (_interval self)) = yi)
    by (rewrite Er; reflexivity).
  assert (Hsnd : snd (rollover (month d) (_interval self)) = tm)
    by (rewrite Er; reflexivity).
  set (o := val (_ordinal self)) in *. set (w := val (_weekday self)) in *.
  split.
  - intros r E.
    destruct (replace d _ _ _) as [d1|] eqn:E1; [|discriminate].
    cbn [bind] in E. rewrite <- Hfst, <- Hsnd in E1.
    apply target_month_first in E1. rewrite Hfst, Hsnd in E1.
    destruct E1 as [-> V1].
    set (d1 := mkdate (year d + yi) tm 1) in *.
    pose proof (month_start_bounds d1 V1) as (B1 & B2 & _).
    pose proof (days_in_month_bounds (year d1) (month d1)
                  ltac:(apply valid_date_iff in V1; lia)) as Bd.
    assert (Hk : exists k,
               valid_date r
               /\ 1 <= k <= days_in_month (year d1) (month d1)
               /\ toordinal r = month_start d1 + (k - 1)
               /\ (month_start d1 + k + 5) mod 7 = w - 1
               /\ (o <= 4 -> 7 * (o - 1) < k <= 7 * o)
               /\ (o = 5 -> days_in_month (year d1) (month d1) - 7 < k)).
    { destruct (Z.eq_dec o 5) as [E5 | N5].
      - rewrite E5 in E.
        destruct (get_nth_weekday_of_month_5_ordinal d1 w r V1 ltac:(lia) E)
          as [Vr Or].
        exists (toordinal r - month_start d1 + 1).
        split; [exact Vr|]. rewrite Or.
        generalize dependent (month_start d1).
        generalize dependent (days_in_month (year d1) (month d1)).
        intros dim Bdim ms _ B1 B2.
        repeat split; try (Z.div_mod_to_equations; lia).
      - rewrite get_nth_weekday_of_month_unfold in E.
        destruct (nth_weekday_body_ordinal get_nth_weekday_of_month d1 o w r
                    V1 ltac:(lia) ltac:(lia) E) as [Vr Or].
        exists (toordinal r - month_start d1 + 1).
        split; [exact Vr|]. rewrite Or.
        generalize dependent (month_start d1).
        generalize dependent (days_in_month (year d1) (month d1)).
        intros dim Bdim ms _ B1 B2.
        repeat split; try (Z.div_mod_to_equations; lia). }
    destruct Hk as (k & Vr & Rk & Ok_ & Wk & K4 & K5).
    pose proof (date_of_month_ordinal d1 r k V1 Vr Rk Ok_) as ->.
    cbn [year month day] in *.
    split; [exact Vr|]. split; [reflexivity|]. split; [reflexivity|].
    split; [|split; assumption].
    rewrite (weekday_in_month d1 k). exact Wk.
  - intros Hi Hy Ho4. rewrite <- Hfst in Hy.
    pose proof (target_month_first_Ok d (_interval self) Hd Hi Hy) as E1.
    rewrite Hfst, Hsnd in E1. rewrite E1. cbn [bind].
    set (d1 := mkdate (year d + yi) tm 1) in *.
    assert (V1 : valid_date d1).
    { rewrite <- Hfst, <- Hsnd in E1. apply target_month_first in E1.
      rewrite Hfst, Hsnd in E1. apply E1. }
    pose proof (month_start_bounds d1 V1) as (B1 & B2 & _).
    pose proof (days_in_month_bounds (year d1) (month d1)
                  ltac:(apply valid_date_iff in V1; lia)) as Bd.
    pose proof (Z.mod_pos_bound (w - 1 - (month_start d1 + 6) mod 7) 7
                  ltac:(lia)) as Ba.
    eexists. rewrite get_nth_weekday_of_month_unfold.
    apply nth_weekday_body_ordinal_Ok; [exact V1 | lia | lia | lia].
Qed.

(** Every three months on the first Friday, from 2023-01-06. *)
Lemma get_weekday_period_monthly_witness :
  (forall r,
      _get_weekday_period
        (mkRecurringEvent (PyDate (mkdate 2023 1 6)) 4 3 None (Some 1)
                          (Some 5) None) (mkdate 2023 1 6) = Ok r ->
      valid_date r
      /\ year r = 2023 + fst (rollover 1 3)
      /\ month r = snd (rollover 1 3)
      /\ weekday r = 5 - 1
      /\ (1 <= 4 -> 7 * (1 - 1) < day r <= 7 * 1)
      /\ (1 = 5 ->
          days_in_month (2023 + fst (rollover 1 3)) (snd (rollover 1 3)) - 7
          < day r))
  /\ (1 <= 3 <= 12 -> 2023 + fst (rollover 1 3) <= 9999 -> 1 <= 4 ->
      exists r,
        _get_weekday_period
          (mkRecurringEvent (PyDate (mkdate 2023 1 6)) 4 3 None (Some 1)
                            (Some 5) None) (mkdate 2023 1 6) = Ok r).
Proof.
  apply (get_weekday_period_monthly
           (mkRecurringEvent (PyDate (mkdate 2023 1 6)) 4 3 None (Some 1)
                             (Some 5) None) (mkdate 2023 1 6)).
  - reflexivity.
  - reflexivity.
  - cbn. lia.
  - cbn. lia.
Defined.

(** X10: for an ordinal o in 1..5, an interval in 1..12 and a target year
    up to 9999, [_get_ordinal_workday_period] returns a Monday to Friday of
    the target month of the rollover: one of its last three days for
    ordinal 5, one of its first nine days otherwise. *)
Theorem get_ordinal_workday_period_workday (self : RecurringEvent)
    (d : date) (o : Z) :
  valid_date d ->
  _ordinal self = Some o -> 1 <= o <= 5 ->
  1 <= _interval self <= 12 ->
  year d + fst (rollover (month d) (_interval self)) <= 9999 ->
  let ty := year d + fst (rollover (month d) (_interval self)) in
  let tm := snd (rollover (month d) (_interval self)) in
  exists r,
    _get_ordinal_workday_period self d = Ok r
    /\ valid_date r /\ year r = ty /\ month r = tm
    /\ 0 <= weekday r <= 4
    /\ (o = 5 -> days_in_month ty tm - 2 <= day r)
    /\ (o <= 4 -> day r <= 9).
Proof.
  intros Hd Eo Ho Hi Hy. cbv zeta.
  rewrite get_ordinal_workday_period_rollover.
  pose proof (target_month_first_Ok d (_interval self) Hd Hi Hy) as E1.
  destruct (rollover (month d) (_interval self)) as [yi tm] eqn:Er.
  cbn [fst snd] in *. rewrite E1. cbn [bind].
  set (d1 := mkdate (year d + yi) tm 1) in *.
  assert (V1 : valid_date d1).
  { unfold replace in E1. apply new_date_Ok in E1. apply E1. }
  pose proof (days_in_month_bounds (year d1) (month d1)
                ltac:(apply valid_date_iff in V1; lia)) as Bd.
  rewrite Eo. cbn [eq_int].
  destruct (Z.eqb_spec o 5) as [E5 | N5].
  - destruct (get_last_workday_of_month_day d1 V1) as (k & E & Hk).
    set (dim := days_in_month (year d1) (month d1)) in *.
    assert (R : dim - 2 <= k <= dim)
      by (subst k; destruct (_ =? 5); [|destruct (_ =? 6)]; lia).
    exists (mkdate (year d1) (month d1) k).
    split; [exact E|]. split; [apply valid_in_month; [exact V1 | lia]|].
    split; [reflexivity|]. split; [reflexivity|].
    rewrite weekday_in_month. cbn [day].
    split; [|split; [intros _; exact (proj1 R) | lia]].
    destruct (Z.eqb_spec ((month_start d1 + dim + 5) mod 7) 5);
      [|destruct (Z.eqb_spec ((month_start d1 + dim + 5) mod 7) 6)];
      subst k; Z.div_mod_to_equations; lia.
  - destruct (get_nth_workday_of_month_day d1 o V1 Ho)
      as (kf & _ & R & Wf & En).
    set (delta := if 4 <? (month_start d1 + kf + 5) mod 7 + o - 1
                  then 2 else 0) in *.
    assert (Rd : 0 <= delta <= 2) by (subst delta; destruct (4 <? _); lia).
    exists (mkdate (year d1) (month d1) (kf + (o - 1) + delta)).
    split; [exact En|]. split; [apply valid_in_month; [exact V1 | lia]|].
    split; [reflexivity|]. split; [reflexivity|].
    rewrite weekday_in_month. cbn [day].
    split; [|split; [lia | intros _; lia]].
    subst delta.
    destruct (Z.ltb_spec 4 ((month_start d1 + kf + 5) mod 7 + o - 1));
      Z.div_mod_to_equations; lia.
Qed.

(** The last workday of the month after November 2023. *)
Lemma get_ordinal_workday_period_workday_witness :
  exists r,
    _get_ordinal_workday_period
      (mkRecurringEvent (PyDate (mkdate 2023 11 30)) 4 1 None (Some 5)
                        (Some 8) None) (mkdate 2023 11 30) = Ok r
    /\ valid_date r
    /\ year r = 2023 + fst (rollover 11 1)
    /\ month r = snd (rollover 11 1)
    /\ 0 <= weekday r <= 4
    /\ (5 = 5 ->
        days_in_month (2023 + fst (rollover 11 1)) (snd (rollover 11 1)) - 2
        <= day r)
    /\ (5 <= 4 -> day r <= 9).
Proof.
  apply (get_ordinal_workday_period_workday
           (mkRecurringEvent (PyDate (mkdate 2023 11 30)) 4 1 None (Some 5)
                             (Some 8) None) (mkdate 2023 11 30) 5).
  - reflexivity.
  - reflexivity.
  - lia.
  - cbn. lia.
  - cbn. lia.
Defined.

(** X11: on a rule without ordinal and with interval 1,
    [_get_workdaily_period] applied to a Monday to Friday other than
    9999-12-31 returns the next workday: the following day, or the Monday
    three days later when the starting date is a Friday.  From 9999-12-31,
    the last date there is and a Friday, it raises [OverflowError].  With
    an ordinal set the method raises [NotImplementedError] for every
    starting date. *)
Theorem get_workdaily_period_next_workday (self : RecurringEvent) (d : date) :
  valid_date d ->
  (truthy (_ordinal self) = true ->
   _get_workdaily_period self d = Raise NotImplementedError)
  /\ (truthy (_ordinal self) = false -> _interval self = 1 ->
      0 <= weekday d <= 4 -> d <> mkdate 9999 12 31 ->
      exists r,
        _get_workdaily_period self d = Ok r
        /\ valid_date r
        /\ 0 <= weekday r <= 4
        /\ toordinal r = toordinal d + (if weekday d =? 4 then 3 else 1))
  /\ (truthy (_ordinal self) = false -> _interval self = 1 ->
      weekday (mkdate 9999 12 31) = 4
      /\ _get_workdaily_period self (mkdate 9999 12 31)
         = Raise OverflowError).
Proof.
  intros Hd. unfold _get_workdaily_period. split; [|split]; intros To.
  - rewrite To. reflexivity.
  - rewrite To. intros -> Hw Hlast.
    pose proof (toordinal_bounds d Hd) as Bd.
    assert (H1 : toordinal d + 1 <= MAXORDINAL).
    { destruct (Z.eq_dec (toordinal d) MAXORDINAL) as [Emax|]; [|lia].
      exfalso. apply Hlast.
      apply (toordinal_inj d (mkdate 9999 12 31) Hd); [reflexivity|].
      rewrite Emax. reflexivity. }
    unfold get_next_workday_by_interval.
    rewrite add_days_in_range by lia. cbn [bind].
    destruct (fromordinal_spec (toordinal d + 1) ltac:(lia)) as [V1 O1].
    assert (W1 : weekday (fromordinal (toordinal d + 1))
                 = (weekday d + 1) mod 7).
    { unfold weekday. rewrite O1. unfold weekday in Hw. clear - Hw.
      Z.div_mod_to_equations. lia. }
    rewrite W1.
    destruct (Z.ltb_spec 4 ((weekday d + 1) mod 7)) as [Hlt | Hge];
      destruct (Z.eqb_spec (weekday d) 4) as [E4 | N4];
      try (exfalso; clear - Hw Hlt N4; Z.div_mod_to_equations; lia);
      try (exfalso; clear - Hw Hge E4; Z.div_mod_to_equations; lia).
    + assert (H3 : toordinal d + 3 <= MAXORDINAL).
      { unfold weekday in E4. unfold MAXORDINAL in *. clear - E4 H1.
        Z.div_mod_to_equations. lia. }
      rewrite add_days_in_range by (rewrite O1; lia). rewrite O1.
      destruct (fromordinal_spec (toordinal d + 1 + 2) ltac:(lia))
        as [V2 O2].
      exists (fromordinal (toordinal d + 1 + 2)).
      split; [reflexivity|]. split; [exact V2|].
      split; [|lia].
      unfold weekday. rewrite O2. unfold weekday in E4. clear - E4.
      Z.div_mod_to_equations. lia.
    + exists (fromordinal (toordinal d + 1)).
      split; [reflexivity|]. split; [exact V1|].
      rewrite W1. split; [|lia]. clear - Hw N4. Z.div_mod_to_equations. lia.
  - rewrite To. intros ->. split; vm_compute; reflexivity.
Qed.

Lemma get_workdaily_period_next_workday_witness :
  exists r,
    _get_workdaily_period
      (mkRecurringEvent (PyDate (mkdate 2023 6 2)) 2 1 None None None None)
      (mkdate 2023 6 2) = Ok r
    /\ valid_date r
    /\ 0 <= weekday r <= 4
    /\ toordinal r
       = toordinal (mkdate 2023 6 2)
         + (if weekday (mkdate 2023 6 2) =? 4 then 3 else 1).
Proof.
  destruct (get_workdaily_period_next_workday
              (mkRecurringEvent (PyDate (mkdate 2023 6 2)) 2 1 None None None
                                None) (mkdate 2023 6 2))
    as (_ & Next & _).
  - reflexivity.
  - apply Next.
    + reflexivity.
    + reflexivity.
    + vm_compute. split; discriminate.
    + discriminate.
Defined.

(** ** Enumeration: order, failure, divergence *)

Lemma chain_from_increasing self :
  constructed self -> 1 <= _interval self -> weekday_documented self ->
  forall l d0,
    valid_date d0 -> chain_from self d0 l ->
    increasing_from d0 l /\ Forall valid_date l.
Proof.
  intros C Hi Hw. induction l as [|a l IH]; intros d0 V0 Ch.
  - split; [exact I | constructor].
  - destruct Ch as [Na Cl].
    destruct (get_next_date_forward self d0 a C Hi Hw V0 Na) as [Va La].
    destruct (IH a Va Cl) as [Il Fl].
    split; [split; [|exact Il] | constructor; assumption].
    apply toordinal_lt; assumption.
Qed.

(** X12: on a constructed rule with a positive interval (weekday, if set,
    in the documented range), the list that [get_events] returns is
    strictly increasing, starts after the former last occurrence and holds
    dates only; the last occurrence afterwards is the former one or a later
    date. *)
Theorem get_events_increasing (today : date) (fuel : nat)
    (self : RecurringEvent) (d0 h : date) (L : list date)
    (self' : RecurringEvent) :
  constructed self -> 1 <= _interval self -> weekday_documented self ->
  _last_occurence self = PyDate d0 -> valid_date d0 ->
  get_events today fuel self (PyDate h) = Some (Ok L, self') ->
  increasing_from d0 L
  /\ Forall valid_date L
  /\ exists d1,
       last_occurence self' = PyDate d1 /\ valid_date d1
       /\ (d1 = d0 \/ date_lt d0 d1).
Proof.
  intros C Hi Hw E0 V0. unfold get_events. rewrite set_interval_end_date.
  cbn [with_interval_end _last_occurence]. rewrite E0. intros E.
  apply get_events_loop_Ok in E.
  destruct E as (new & d' & h' & -> & Eh & Ch & Fa & Nx & Lt & ->).
  cbn [app]. apply chain_from_interval_end in Ch.
  destruct (chain_from_increasing self C Hi Hw new d0 V0 Ch) as [Inc Val].
  destruct (chain_from_valid self C Hi Hw new d0 V0 Ch) as [Vl Ll].
  split; [exact Inc|]. split; [exact Val|].
  unfold last_occurence. destruct new as [|a new].
  - exists d0. cbn [with_interval_end _last_occurence].
    split; [exact E0|]. split; [exact V0 | left; reflexivity].
  - exists (last (a :: new) d0). cbn [with_last_occurence _last_occurence].
    split; [reflexivity|]. split; [exact Vl|]. right.
    destruct Inc as [La _].
    apply toordinal_lt; [exact V0 | exact Vl|].
    rewrite last_cons in *. destruct Ch as [Na Cl].
    destruct (get_next_date_forward self d0 a C Hi Hw V0 Na) as [Va Lta].
    destruct (chain_from_valid self C Hi Hw new a Va Cl) as [_ Lla]. lia.
Qed.

Lemma get_events_increasing_witness :
  increasing_from (mkdate 2023 6 30)
                  [mkdate 2023 7 1; mkdate 2023 7 2; mkdate 2023 7 3]
  /\ Forall valid_date [mkdate 2023 7 1; mkdate 2023 7 2; mkdate 2023 7 3]
  /\ exists d1,
       last_occurence
         (mkRecurringEvent (PyDate (mkdate 2023 7 3)) 1 1 None None None
                           (Some (mkdate 2023 7 3))) = PyDate d1
       /\ valid_date d1
       /\ (d1 = mkdate 2023 6 30 \/ date_lt (mkdate 2023 6 30) d1).
Proof.
  apply (get_events_increasing (mkdate 2024 1 1) 10 daily_from_2023_06_30
           (mkdate 2023 6 30) (mkdate 2023 7 3)
           [mkdate 2023 7 1; mkdate 2023 7 2; mkdate 2023 7 3]
           (mkRecurringEvent (PyDate (mkdate 2023 7 3)) 1 1 None None None
                             (Some (mkdate 2023 7 3)))).
  - reflexivity.
  - cbn. lia.
  - exact I.
  - reflexivity.
  - reflexivity.
  - reflexivity.
Defined.

(** What a run of the loop that ends in an exception has done. *)
Lemma get_events_loop_Raise fuel :
  forall self periods observed e self' h,
    _interval_end self = Some h ->
    get_events_loop fuel self periods observed = Some (Raise e, self') ->
    exists consumed,
      chain_from self observed consumed
      /\ Forall (fun x => date_le x h) consumed
      /\ self' = match consumed with
                 | [] => self
                 | _ => with_last_occurence self (last consumed observed)
                 end
      /\ (get_next_date self (last consumed observed) = Raise e
          \/ (get_next_date self (last consumed observed) = Ok None
              /\ e = TypeError)).
Proof.
  induction fuel as [|fuel IH]; intros self periods observed e self' h Eh E;
    [discriminate|].
  cbn [get_events_loop] in E. rewrite Eh in E.
  destruct (get_next_date self observed) as [[d1|]|e1] eqn:En.
  - destruct (date_gtb d1 h) eqn:Eg; [discriminate|].
    apply (IH (with_last_occurence self d1) _ _ _ _ h Eh) in E.
    destruct E as (consumed & Ch & Fa & -> & Hlast).
    exists (d1 :: consumed). rewrite last_cons.
    split; [split; [exact En | apply chain_from_cursor in Ch; exact Ch]|].
    split.
    { constructor; [|exact Fa]. unfold date_le, date_leb.
      unfold date_gtb in Eg. rewrite Eg. reflexivity. }
    split; [destruct consumed; reflexivity | exact Hlast].
  - injection E as <- <-. exists []. cbn [last].
    split; [exact I|]. split; [constructor|]. split; [reflexivity|].
    right. split; [exact En | reflexivity].
  - injection E as <- <-. exists []. cbn [last].
    split; [exact I|]. split; [constructor|]. split; [reflexivity|].
    left. exact En.
Qed.

(** X13: when [get_events], called with a horizon h, ends in an exception,
    the exception is the one of the evaluator step that follows the
    occurrences consumed so far ([TypeError] when that step returned
    [None]); those occurrences were all at most h, the cursor has been moved
    to the last of them and the horizon is stored, while the list collected
    so far is lost. *)
Theorem get_events_failure (today : date) (fuel : nat)
    (self : RecurringEvent) (d0 h : date) (e : exn)
    (self' : RecurringEvent) :
  _last_occurence self = PyDate d0 ->
  get_events today fuel self (PyDate h) = Some (Raise e, self') ->
  exists consumed,
    chain_from self d0 consumed
    /\ Forall (fun x => date_le x h) consumed
    /\ self' = after_enumeration self d0 h consumed
    /\ (get_next_date self (last consumed d0) = Raise e
        \/ (get_next_date self (last consumed d0) = Ok None
            /\ e = TypeError)).
Proof.
  intros E0. unfold get_events. rewrite set_interval_end_date.
  cbn [with_interval_end _last_occurence]. rewrite E0. intros E.
  apply (get_events_loop_Raise fuel (with_interval_end self h) _ _ _ _ h
           eq_refl) in E.
  destruct E as (consumed & Ch & Fa & -> & Hlast).
  exists consumed. apply chain_from_interval_end in Ch.
  split; [exact Ch|]. split; [exact Fa|]. split; [reflexivity | exact Hlast].
Qed.

(** Daily from 9999-12-30 up to the last date: one occurrence is consumed,
    the next step overflows. *)
Lemma get_events_failure_witness :
  exists consumed,
    chain_from
      (mkRecurringEvent (PyDate (mkdate 9999 12 30)) 1 1 None None None None)
      (mkdate 9999 12 30) consumed
    /\ Forall (fun x => date_le x (mkdate 9999 12 31)) consumed
    /\ mkRecurringEvent (PyDate (mkdate 9999 12 31)) 1 1 None None None
                        (Some (mkdate 9999 12 31))
       = after_enumeration
           (mkRecurringEvent (PyDate (mkdate 9999 12 30)) 1 1 None None None
                             None)
           (mkdate 9999 12 30) (mkdate 9999 12 31) consumed
    /\ (get_next_date
          (mkRecurringEvent (PyDate (mkdate 9999 12 30)) 1 1 None None None
                            None) (last consumed (mkdate 9999 12 30))
        = Raise OverflowError
        \/ (get_next_date
              (mkRecurringEvent (PyDate (mkdate 9999 12 30)) 1 1 None None
                                None None)
              (last consumed (mkdate 9999 12 30)) = Ok None
            /\ OverflowError = TypeError)).
Proof.
  apply (get_events_failure (mkdate 2024 1 1) 5
           (mkRecurringEvent (PyDate (mkdate 9999 12 30)) 1 1 None None None
                             None)
           (mkdate 9999 12 30) (mkdate 9999 12 31) OverflowError
           (mkRecurringEvent (PyDate (mkdate 9999 12 31)) 1 1 None None None
                             (Some (mkdate 9999 12 31)))).
  - reflexivity.
  - vm_compute. reflexivity.
Defined.

Lemma constructed_cursor self d :
  constructed self -> constructed (with_last_occurence self d).
Proof.
  unfold constructed, _check_consistency.
  cbn [with_last_occurence _last_occurence _recurs _interval _day _ordinal
       _weekday isinstance_date negb].
  destruct (isinstance_date (_last_occurence self)); cbn [negb];
    [trivial | discriminate].
Qed.

Lemma constructed_interval_end self h :
  constructed self -> constructed (with_interval_end self h).
Proof. unfold constructed, _check_consistency. trivial. Qed.

(** X14: whatever its argument and however it ends (a list or an
    exception), [get_events] leaves recurs, interval, day, ordinal and
    weekday as they were, and an object that passed the checks of the
    constructor still passes them. *)
Theorem get_events_keeps_rule (today : date) (fuel : nat)
    (self : RecurringEvent) (interval_end : pyval)
    (outcome : result (list date)) (self' : RecurringEvent) :
  get_events today fuel self interval_end = Some (outcome, self') ->
  same_rule self self' /\ (constructed self -> constructed self').
Proof.
  assert (Date : forall h,
             get_events today fuel self (PyDate h) = Some (outcome, self') ->
             same_rule self self' /\ (constructed self -> constructed self')).
  { intros h. unfold get_events. rewrite set_interval_end_date.
    cbn [with_interval_end _last_occurence].
    destruct (_last_occurence self) as [|d0|o] eqn:E0;
      try (intros [= <- <-]; split;
           [repeat split | apply constructed_interval_end]).
    destruct outcome as [L|e]; intros E.
    - apply get_events_loop_Ok in E.
      destruct E as (new & d' & h' & _ & _ & _ & _ & _ & _ & ->).
      destruct new; (split; [repeat split|]); intros C;
        try apply constructed_cursor;
        apply (constructed_interval_end self h C).
    - apply (get_events_loop_Raise fuel (with_interval_end self h) _ _ _ _ h
               eq_refl) in E.
      destruct E as (consumed & _ & _ & -> & _).
      destruct consumed; (split; [repeat split|]); intros C;
        try apply constructed_cursor;
        apply (constructed_interval_end self h C). }
  destruct interval_end as [|h|[h|]].
  - intros [= <- <-]. split; [repeat split | trivial].
  - apply Date.
  - apply Date.
  - intros [= <- <-]. split; [repeat split | trivial].
Qed.

Lemma get_events_keeps_rule_witness :
  same_rule daily_from_2023_06_30
            (mkRecurringEvent (PyDate (mkdate 2023 7 3)) 1 1 None None None
                              (Some (mkdate 2023 7 3)))
  /\ (constructed daily_from_2023_06_30 ->
      constructed
        (mkRecurringEvent (PyDate (mkdate 2023 7 3)) 1 1 None None None
                          (Some (mkdate 2023 7 3)))).
Proof.
  apply (get_events_keeps_rule (mkdate 2024 1 1) 10 daily_from_2023_06_30
           (PyDate (mkdate 2023 7 3))
           (Ok [mkdate 2023 7 1; mkdate 2023 7 2; mkdate 2023 7 3])).
  reflexivity.
Defined.

(** X15: a daily rule with interval 0, which the constructor accepts,
    never finishes an enumeration whose horizon is not before the last
    occurrence: every step returns the last occurrence again, and no amount
    of fuel lets the loop end. *)
Theorem get_events_interval_zero_diverges (today : date)
    (self : RecurringEvent) (d0 h : date) :
  _last_occurence self = PyDate d0 -> valid_date d0 ->
  truthy (_weekday self) = false -> truthy (_day self) = false ->
  _recurs self = 1 -> _interval self = 0 ->
  date_le d0 h ->
  get_next_date self d0 = Ok (Some d0)
  /\ forall fuel, get_events today fuel self (PyDate h) = None.
Proof.
  intros E0 V0 Tw Td Er Ei Hle.
  assert (Step : get_next_date self d0 = Ok (Some d0)).
  { unfold get_next_date. rewrite Tw, Td, Er. cbn [Z.eqb Pos.eqb].
    unfold _get_daily_period. rewrite Ei.
    pose proof (toordinal_bounds d0 V0).
    rewrite add_days_in_range by lia. cbn [bind].
    rewrite Z.add_0_r, fromordinal_toordinal by exact V0. reflexivity. }
  split; [exact Step|].
  assert (Loop : forall fuel s periods,
             get_next_date s d0 = Ok (Some d0) ->
             _interval_end s = Some h ->
             get_events_loop fuel s periods d0 = None).
  { induction fuel as [|fuel IH]; intros s periods Hs Hh; [reflexivity|].
    cbn [get_events_loop]. rewrite Hs, Hh.
    unfold date_le, date_leb in Hle. apply negb_true_iff in Hle.
    unfold date_gtb. rewrite Hle. apply IH; [exact Hs | exact Hh]. }
  intros fuel. unfold get_events. rewrite set_interval_end_date.
  cbn [with_interval_end _last_occurence]. rewrite E0.
  apply Loop; [exact Step | reflexivity].
Qed.

Lemma get_events_interval_zero_diverges_witness :
  __init__ (PyDate (mkdate 2023 6 30)) 1 0 None None None PyNone
  = Ok (mkRecurringEvent (PyDate (mkdate 2023 6 30)) 1 0 None None None None)
  /\ get_next_date
       (mkRecurringEvent (PyDate (mkdate 2023 6 30)) 1 0 None None None None)
       (mkdate 2023 6 30) = Ok (Some (mkdate 2023 6 30))
  /\ forall fuel,
       get_events (mkdate 2024 1 1) fuel
         (mkRecurringEvent (PyDate (mkdate 2023 6 30)) 1 0 None None None
                           None) (PyDate (mkdate 2023 7 3)) = None.
Proof.
  split; [reflexivity|].
  apply (get_events_interval_zero_diverges (mkdate 2024 1 1)
           (mkRecurringEvent (PyDate (mkdate 2023 6 30)) 1 0 None None None
                             None) (mkdate 2023 6 30) (mkdate 2023 7 3));
    reflexivity.
Defined.

(** On a daily rule every element of a chain lies one interval after the
    one before. *)
Lemma daily_chain_last self :
  truthy (_weekday self) = false -> truthy (_day self) = false ->
  _recurs self = 1 ->
  forall l d0,
    valid_date d0 -> chain_from self d0 l ->
    valid_date (last l d0)
    /\ toordinal (last l d0)
       = toordinal d0 + _interval self * Z.of_nat (List.length l).
Proof.
  intros Tw Td Er. induction l as [|a l IH]; intros d0 V0 Ch.
  - cbn [last List.length]. split; [exact V0 | lia].
  - destruct Ch as [Na Cl]. unfold next_date_is, get_next_date in Na.
    rewrite Tw, Td, Er in Na. cbn [Z.eqb Pos.eqb] in Na.
    unfold _get_daily_period in Na.
    destruct (add_days d0 (_interval self)) as [a'|] eqn:Ea; [|discriminate].
    cbn [bind] in Na. injection Na as ->.
    destruct (add_days_Ok _ _ _ V0 Ea) as [Va Oa].
    rewrite last_cons. destruct (IH a Va Cl) as [Vl Ol].
    split; [exact Vl|]. rewrite Ol, Oa. cbn [List.length]. lia.
Qed.

(** X16: for a daily rule with interval n >= 1 and a horizon h not before
    the last occurrence d0 (with the day n after h still a date),
    [number_of_periods] returns the number of whole intervals between the
    two dates, (h - d0) div n in days, for every sufficient fuel. *)
Theorem number_of_periods_daily (today : date) (self : RecurringEvent)
    (d0 h : date) :
  constructed self ->
  _weekday self = None -> _day self = None -> _recurs self = 1 ->
  1 <= _interval self ->
  _last_occurence self = PyDate d0 -> valid_date d0 -> valid_date h ->
  date_le d0 h ->
  toordinal h + _interval self <= MAXORDINAL ->
  exists fuel0,
    forall fuel, (fuel0 <= fuel)%nat ->
      exists self',
        number_of_periods today fuel self (PyDate h)
        = Some (Ok ((toordinal h - toordinal d0) / _interval self), self').
Proof.
  intros C Ew Ed Er Hi E0 V0 Vh Hle Bh.
  assert (Hw : weekday_documented self)
    by (unfold weekday_documented; rewrite Ew; exact I).
  assert (Tw : truthy (_weekday self) = false) by (rewrite Ew; reflexivity).
  assert (Td : truthy (_day self) = false) by (rewrite Ed; reflexivity).
  pose proof Hle as Hle'. apply toordinal_le in Hle'; [|exact V0|exact Vh].
  pose proof (daily_steps_yield_dates self C Hi Hw d0 h Ew Ed Er V0 Vh
                ltac:(lia) Bh) as Steps.
  destruct (chain_reaches_horizon self C Hi Hw h Vh
              (Z.to_nat (toordinal h - toordinal d0 + 1)) d0 V0
              ltac:(lia) Steps) as (L & d' & Ch & Fa & Nx & Lt).
  destruct (daily_chain_last self Tw Td Er L d0 V0 Ch) as [Vl Ol].
  destruct (daily_chain_last self Tw Td Er [d'] (last L d0) Vl
              ltac:(split; [exact Nx | exact I])) as [Vd' Od'].
  cbn [last List.length] in Vd', Od'.
  assert (Hlast : toordinal (last L d0) <= toordinal h).
  { apply toordinal_le; [exact Vl | exact Vh|].
    apply (Forall_last (fun x => date_le x h)); assumption. }
  pose proof Lt as Lt'. apply toordinal_lt in Lt; [|exact Vh|exact Vd'].
  assert (Hcount : Z.of_nat (List.length L)
                   = (toordinal h - toordinal d0) / _interval self).
  { apply Z.div_unique
      with (r := toordinal h - toordinal d0
                 - _interval self * Z.of_nat (List.length L)); lia. }
  exists (S (List.length L)). intros fuel Hf.
  unfold number_of_periods, get_events. rewrite set_interval_end_date.
  cbn [with_interval_end _last_occurence]. rewrite E0.
  rewrite (get_events_loop_run L _ [] d0 d' h);
    [ | reflexivity | apply chain_from_interval_end; exact Ch | exact Fa
      | exact Nx | exact Lt' | lia ].
  cbn [app]. rewrite Hcount. eexists. reflexivity.
Qed.

(** Scenario 5 of the documentation: three daily occurrences. *)
Lemma number_of_periods_daily_witness :
  exists fuel0,
    forall fuel, (fuel0 <= fuel)%nat ->
      exists self',
        number_of_periods (mkdate 2024 1 1) fuel daily_from_2023_06_30
                          (PyDate (mkdate 2023 7 3))
        = Some (Ok ((toordinal (mkdate 2023 7 3)
                     - toordinal (mkdate 2023 6 30)) / 1), self').
Proof.
  apply (number_of_periods_daily (mkdate 2024 1 1) daily_from_2023_06_30
                                 (mkdate 2023 6 30) (mkdate 2023 7 3));
    [ reflexivity | reflexivity | reflexivity | reflexivity | cbn; lia
    | reflexivity | reflexivity | reflexivity | reflexivity
    | vm_compute; discriminate ].
Defined.

(** ** What the constructor accepts, and how it fails *)

(** The checks of [_check_consistency] on the object that [__init__]
    builds, in terms of the arguments. *)
Lemma check_consistency_init last_occurence recurs interval day ordinal wd
    first_occurence :
  _check_consistency
    (mkRecurringEvent
       (effective_last_occurence last_occurence first_occurence)
       recurs interval (or_None day) (or_None ordinal) (or_None wd) None)
  = if negb (isinstance_date
               (effective_last_occurence last_occurence first_occurence))
    then Raise ValueError
    else if truthy day && ((val day <? 1) || (31 <? val day))
    then Raise ValueError
    else if truthy ordinal && ((val ordinal <? 1) || (5 <? val ordinal))
    then Raise ValueError
    else if truthy day && truthy ordinal then Raise AssertionError
    else if truthy day && truthy wd then Raise AssertionError
    else if eq_int wd 8 && negb (recurs =? 4) then Raise AssertionError
    else if eq_int wd 8 && negb (truthy ordinal) then Raise AssertionError
    else if negb (recurs =? 4) && truthy day then Raise AssertionError
    else if negb ((recurs =? 2) || (recurs =? 4)) && truthy ordinal
    then Raise AssertionError
    else if negb ((recurs =? 3) || (recurs =? 4)) && truthy wd
    then Raise AssertionError
    else Ok tt.
Proof.
  unfold _check_consistency.
  cbn [_last_occurence _recurs _interval _day _ordinal _weekday].
  rewrite !truthy_or_None, (eq_int_or_None wd 8) by lia.
  destruct (truthy day) eqn:Td; [rewrite (val_or_None day Td)|];
    (destruct (truthy ordinal) eqn:To;
     [rewrite (val_or_None ordinal To)|]); reflexivity.
Qed.

Lemma eq_int_Some o k : eq_int o k = true <-> o = Some k.
Proof.
  unfold eq_int. destruct o as [v|]; [|split; discriminate].
  rewrite Z.eqb_eq. split; [intros -> | intros [= ->]]; reflexivity.
Qed.

(** X17: the constructor accepts every combination of arguments in which
    the date kept as last occurrence is a date, day and ordinal are absent,
    0 or in their ranges 1..31 and 1..5, and no invariant is violated; it
    then stores the arguments with 0 replaced by [None] and no horizon.
    Recurs, interval and the range of the weekday are not checked. *)
Theorem init_accepts (last_occurence : pyval) (recurs interval : Z)
    (day ordinal wd : option Z) (first_occurence : pyval) (d0 : date) :
  effective_last_occurence last_occurence first_occurence = PyDate d0 ->
  (forall v, day = Some v -> v = 0 \/ 1 <= v <= 31) ->
  (forall v, ordinal = Some v -> v = 0 \/ 1 <= v <= 5) ->
  ~ invariant_violated recurs day ordinal wd ->
  __init__ last_occurence recurs interval day ordinal wd first_occurence
  = Ok (mkRecurringEvent (PyDate d0) recurs interval (or_None day)
                         (or_None ordinal) (or_None wd) None).
Proof.
  intros Ed Hday Hord Hinv. unfold __init__. cbv zeta.
  fold (effective_last_occurence last_occurence first_occurence).
  rewrite check_consistency_init, Ed. cbn [isinstance_date negb].
  unfold invariant_violated in Hinv. rewrite <- !truthy_is_set in Hinv.
  rewrite <- (eq_int_Some wd 8) in Hinv.
  assert (Rd : truthy day && ((val day <? 1) || (31 <? val day)) = false).
  { destruct day as [v|]; [|reflexivity]. cbn [truthy val].
    destruct (Hday v eq_refl) as [-> | Hv]; [reflexivity|].
    destruct (Z.ltb_spec v 1), (Z.ltb_spec 31 v); lia. }
  assert (Ro : truthy ordinal && ((val ordinal <? 1) || (5 <? val ordinal))
               = false).
  { destruct ordinal as [v|]; [|reflexivity]. cbn [truthy val].
    destruct (Hord v eq_refl) as [-> | Hv]; [reflexivity|].
    destruct (Z.ltb_spec v 1), (Z.ltb_spec 5 v); lia. }
  rewrite Rd, Ro.
  destruct (truthy day), (truthy ordinal), (truthy wd), (eq_int wd 8),
    (Z.eqb_spec recurs 4), (Z.eqb_spec recurs 2), (Z.eqb_spec recurs 3);
    cbn [andb orb negb bind]; try reflexivity; exfalso; apply Hinv;
    intuition (try discriminate; try lia).
Qed.

(** Every three months on the first Friday, as in the comments of the
    module, with the first occurrence standing in for the last. *)
Lemma init_accepts_witness :
  __init__ PyNone 4 3 (Some 0) (Some 1) (Some 4) (PyDate (mkdate 2023 1 6))
  = Ok (mkRecurringEvent (PyDate (mkdate 2023 1 6)) 4 3 (or_None (Some 0))
                         (or_None (Some 1)) (or_None (Some 4)) None).
Proof.
  apply (init_accepts PyNone 4 3 (Some 0) (Some 1) (Some 4)
                      (PyDate (mkdate 2023 1 6)) (mkdate 2023 1 6)).
  - reflexivity.
  - intros v [= <-]. left. reflexivity.
  - intros v [= <-]. right. lia.
  - unfold invariant_violated, is_set.
    intros [[(v & [= <-] & Hv) _] | [[(v & [= <-] & Hv) _]
           | [[H _] | [[H _] | [[(v & [= <-] & Hv) _] | [(_ & H2 & H4)
           | (_ & H3 & H4)]]]]]];
      try congruence; try discriminate.
Defined.

(** X18: the constructor fails with [ValueError] or [AssertionError] only:
    with [ValueError] whenever the date kept as last occurrence is not a
    date or day or ordinal is out of range, whatever else is wrong, and
    with [AssertionError] only when an invariant is violated. *)
Theorem init_error_kinds (last_occurence : pyval) (recurs interval : Z)
    (day ordinal wd : option Z) (first_occurence : pyval) :
  (forall e,
      __init__ last_occurence recurs interval day ordinal wd first_occurence
      = Raise e -> e = ValueError \/ e = AssertionError)
  /\ (isinstance_date
        (effective_last_occurence last_occurence first_occurence) = false
      \/ (exists v, day = Some v /\ v <> 0 /\ ~ (1 <= v <= 31))
      \/ (exists v, ordinal = Some v /\ v <> 0 /\ ~ (1 <= v <= 5)) ->
      __init__ last_occurence recurs interval day ordinal wd first_occurence
      = Raise ValueError)
  /\ (__init__ last_occurence recurs interval day ordinal wd first_occurence
      = Raise AssertionError ->
      invariant_violated recurs day ordinal wd).
Proof.
  unfold __init__. cbv zeta.
  fold (effective_last_occurence last_occurence first_occurence).
  rewrite check_consistency_init.
  set (nodate := negb (isinstance_date
                         (effective_last_occurence last_occurence
                                                   first_occurence))).
  set (badday := truthy day && ((val day <? 1) || (31 <? val day))).
  set (badord := truthy ordinal
                 && ((val ordinal <? 1) || (5 <? val ordinal))).
  split; [|split].
  - intros e.
    repeat match goal with
      | |- context [if ?c then _ else _] => destruct c
      end; cbn [bind]; intros [= <-]; auto.
  - intros H.
    assert (Hb : nodate = true \/ badday = true \/ badord = true).
    { destruct H as [H | [(v & -> & Hv0 & Hv) | (v & -> & Hv0 & Hv)]].
      - left. subst nodate. rewrite H. reflexivity.
      - right. left. subst badday. cbn [truthy val].
        destruct (Z.eqb_spec v 0); [lia|]. cbn [negb andb].
        destruct (Z.ltb_spec v 1), (Z.ltb_spec 31 v); try reflexivity; lia.
      - right. right. subst badord. cbn [truthy val].
        destruct (Z.eqb_spec v 0); [lia|]. cbn [negb andb].
        destruct (Z.ltb_spec v 1), (Z.ltb_spec 5 v); try reflexivity; lia. }
    destruct nodate; [reflexivity|]. destruct badday; [reflexivity|].
    destruct badord; [reflexivity|].
    destruct Hb as [Hb | [Hb | Hb]]; discriminate.
  - destruct nodate; [discriminate|]. destruct badday; [discriminate|].
    destruct badord; [discriminate|].
    unfold invariant_violated. rewrite <- !truthy_is_set.
    rewrite <- (eq_int_Some wd 8).
    destruct (truthy day), (truthy ordinal), (truthy wd), (eq_int wd 8),
      (Z.eqb_spec recurs 4), (Z.eqb_spec recurs 2), (Z.eqb_spec recurs 3);
      cbn [andb orb negb bind]; intros E; try discriminate;
      intuition (try discriminate; try lia).
Qed.

Lemma init_error_kinds_witness :
  __init__ (PyOther None) 3 1 (Some 15) None (Some 2) PyNone
  = Raise ValueError
  /\ invariant_violated 3 (Some 15) None (Some 2).
Proof.
  destruct (init_error_kinds (PyOther None) 3 1 (Some 15) None (Some 2)
                             PyNone) as (_ & Value & _).
  destruct (init_error_kinds (PyDate (mkdate 2023 1 6)) 3 1 (Some 15) None
                             (Some 2) PyNone) as (_ & _ & Assertion).
  split.
  - apply Value. left. reflexivity.
  - apply Assertion. reflexivity.
Defined.

(** ** The exceptions of the evaluator *)

Lemma bind_Raise {A B : Type} (m : result A) (k : A -> result B) e :
  bind m k = Raise e -> m = Raise e \/ exists a, m = Ok a /\ k a = Raise e.
Proof.
  destruct m as [a|e']; cbn [bind].
  - intros H. right. exists a. split; [reflexivity | exact H].
  - intros [= ->]. left. reflexivity.
Qed.

Lemma add_days_date_error d n e : add_days d n = Raise e -> date_error e.
Proof. intros H. apply add_days_Raise in H. right. apply H. Qed.

Lemma replace_date_error d y m dd e :
  replace d y m dd = Raise e -> date_error e.
Proof. unfold replace. intros H. apply new_date_Raise in H. left. apply H. Qed.

(** Splits a failed sequence of date operations into the operation that
    failed. *)
Ltac date_errors :=
  repeat match goal with
    | H : bind _ _ = Raise _ |- _ =>
        apply bind_Raise in H; destruct H as [H | (? & _ & H)]
    | H : (if ?c then _ else _) = Raise _ |- _ => destruct c
    | H : add_days _ _ = Raise _ |- _ => exact (add_days_date_error _ _ _ H)
    | H : replace _ _ _ _ = Raise _ |- _ =>
        exact (replace_date_error _ _ _ _ _ H)
    | H : Raise _ = Raise _ |- _ => injection H as <-
    | H : Ok _ = Raise _ |- _ => discriminate H
    end.

Lemma nth_weekday_body_date_error f d o w e :
  (forall d' o' w' e', f d' o' w' = Raise e' -> date_error e') ->
  nth_weekday_body f d o w = Raise e -> date_error e.
Proof.
  intros Hf H. unfold nth_weekday_body in H.
  destruct (7 <? w); [injection H as <-; left; reflexivity|].
  destruct (5 <? o); [injection H as <-; left; reflexivity|].
  destruct (o =? 5).
  - apply bind_Raise in H. destruct H as [H | (nm & _ & H)].
    + destruct (month d <? 12); exact (replace_date_error _ _ _ _ _ H).
    + apply bind_Raise in H. destruct H as [H | (r1 & _ & H)].
      * exact (Hf _ _ _ _ H).
      * exact (add_days_date_error _ _ _ H).
  - date_errors.
Qed.

Lemma get_nth_weekday_of_month_date_error d o w e :
  get_nth_weekday_of_month d o w = Raise e -> date_error e.
Proof.
  unfold get_nth_weekday_of_month. apply nth_weekday_body_date_error.
  intros d' o' w' e'. apply nth_weekday_body_date_error.
  intros ? ? ? ? [= <-]. left. reflexivity.
Qed.

Lemma get_last_workday_of_month_date_error d e :
  get_last_workday_of_month d = Raise e -> date_error e.
Proof. unfold get_last_workday_of_month. cbv zeta. intros H. date_errors. Qed.

Lemma get_first_workday_of_month_date_error d e :
  get_first_workday_of_month d = Raise e -> date_error e.
Proof. unfold get_first_workday_of_month. cbv zeta. intros H. date_errors. Qed.

Lemma get_nth_workday_of_month_date_error d o e :
  get_nth_workday_of_month d (Some o) = Raise e -> date_error e.
Proof.
  unfold get_nth_workday_of_month. cbv zeta. intros H.
  apply bind_Raise in H. destruct H as [H | (fw & _ & H)].
  - exact (get_first_workday_of_month_date_error _ _ H).
  - date_errors.
Qed.

(** X19: on a constructed rule with the weekday, if set, in the documented
    range, [get_next_date] raises nothing but the exceptions of the date
    operations ([ValueError] when the target month or year is no date,
    [OverflowError] when a date leaves the calendar) and
    [NotImplementedError], the latter exactly on the workdaily branch with
    an ordinal; in particular it never raises [TypeError]. *)
Theorem get_next_date_errors (self : RecurringEvent) (d : date) (e : exn) :
  constructed self -> weekday_documented self ->
  get_next_date self d = Raise e ->
  date_error e
  \/ (e = NotImplementedError
      /\ _recurs self = 2 /\ truthy (_ordinal self) = true
      /\ truthy (_weekday self) = false /\ truthy (_day self) = false).
Proof.
  intros C Hw. unfold get_next_date.
  destruct (truthy (_weekday self)) eqn:Tw.
  - assert (W : 1 <= val (_weekday self) <= 8).
    { unfold weekday_documented in Hw. unfold truthy in Tw.
      destruct (_weekday self) as [w|]; [|discriminate]. cbn [val].
      destruct (Z.eqb_spec w 0); [discriminate | lia]. }
    destruct (Z.ltb_spec (val (_weekday self)) 8) as [W8 | W8]; intros H;
      left; apply bind_Raise in H; destruct H as [H | (r & _ & H)];
      try discriminate H.
    + unfold _get_weekday_period in H. cbv zeta in H.
      destruct (truthy (_ordinal self)).
      * apply bind_Raise in H. destruct H as [H | (d1 & _ & H)].
        -- exact (replace_date_error _ _ _ _ _ H).
        -- exact (get_nth_weekday_of_month_date_error _ _ _ _ H).
      * unfold get_next_weekday in H. date_errors.
    + unfold _get_ordinal_workday_period in H. cbv zeta in H.
      apply bind_Raise in H. destruct H as [H | (d1 & _ & H)].
      * exact (replace_date_error _ _ _ _ _ H).
      * assert (To : truthy (_ordinal self) = true).
        { apply (constructed_workday self C).
          unfold truthy in Tw.
          destruct (_weekday self) as [w|]; [|discriminate].
          cbn [val eq_int] in *. apply Z.eqb_eq. lia. }
        destruct (eq_int (_ordinal self) 5).
        -- exact (get_last_workday_of_month_date_error _ _ H).
        -- unfold truthy in To.
           destruct (_ordinal self) as [o|]; [|discriminate].
           exact (get_nth_workday_of_month_date_error _ _ _ H).
  - destruct (truthy (_day self)) eqn:Td.
    + intros H. left. apply bind_Raise in H.
      destruct H as [H | (r & _ & H)]; [|discriminate H].
      unfold _get_day_period in H. cbv zeta in H.
      destruct (replace d _ _ (Some (val (_day self)))) as [r1|e1] eqn:E1;
        [discriminate H|].
      unfold replace in E1. apply new_date_Raise in E1. destruct E1 as [-> _].
      cbn [except_ValueError] in H. date_errors.
    + destruct (Z.eqb_spec (_recurs self) 1).
      * intros H. left. unfold _get_daily_period in H. date_errors.
      * destruct (Z.eqb_spec (_recurs self) 2) as [E2|]; [|discriminate].
        intros H. unfold _get_workdaily_period in H.
        destruct (truthy (_ordinal self)).
        -- cbn [bind] in H. injection H as <-. right. auto.
        -- left. unfold get_next_workday_by_interval in H. date_errors.
Qed.

(** Workdaily with an ordinal: the combination the source leaves
    unimplemented. *)
Lemma get_next_date_errors_witness :
  date_error NotImplementedError
  \/ (NotImplementedError = NotImplementedError
      /\ 2 = 2 /\ truthy (Some 2) = true
      /\ truthy None = false /\ truthy None = false).
Proof.
  apply (get_next_date_errors
           (mkRecurringEvent (PyDate (mkdate 2023 1 31)) 2 1 None (Some 2)
                             None None) (mkdate 2023 1 31)
           NotImplementedError).
  - reflexivity.
  - exact I.
  - reflexivity.
Defined.

(** ** The weekdays of the enumerated dates *)

Section ChainProperty.

(** A property that every step of the evaluator establishes holds for all
    dates of a chain. *)
Variable self : RecurringEvent.
Variable P : date -> Prop.
Hypothesis step :
  forall d r, valid_date d -> get_next_date self d = Ok (Some r) ->
              valid_date r /\ P r.

Lemma chain_from_Forall l :
  forall d0, valid_date d0 -> chain_from self d0 l -> Forall P l.
Proof.
  induction l as [|a l IH]; intros d0 V0 Ch; [constructor|].
  destruct Ch as [Na Cl]. destruct (step d0 a V0 Na) as [Va Pa].
  constructor; [exact Pa | exact (IH a Va Cl)].
Qed.

Lemma get_events_Forall today fuel d0 h L self' :
  _last_occurence self = PyDate d0 -> valid_date d0 ->
  get_events today fuel self (PyDate h) = Some (Ok L, self') ->
  Forall P L.
Proof.
  intros E0 V0. unfold get_events. rewrite set_interval_end_date.
  cbn [with_interval_end _last_occurence]. rewrite E0. intros E.
  apply get_events_loop_Ok in E.
  destruct E as (new & d' & h' & -> & _ & Ch & _).
  cbn [app]. apply chain_from_interval_end in Ch.
  exact (chain_from_Forall new d0 V0 Ch).
Qed.

End ChainProperty.

(** A date returned on a rule with a weekday in 1..7 falls on it. *)
Lemma get_next_date_weekday self d r :
  constructed self -> truthy (_weekday self) = true ->
  1 <= val (_weekday self) <= 7 ->
  valid_date d -> get_next_date self d = Ok (Some r) ->
  valid_date r /\ weekday r = val (_weekday self) - 1.
Proof.
  intros C Tw Hw Hd. unfold get_next_date. rewrite Tw.
  destruct (Z.ltb_spec (val (_weekday self)) 8); [|lia].
  destruct (_get_weekday_period self d) as [r'|] eqn:E; [|discriminate].
  cbn [bind]. intros [= ->]. unfold _get_weekday_period in E.
  set (w := val (_weekday self)) in *.
  destruct (truthy (_ordinal self)) eqn:To.
  - cbv zeta in E.
    destruct (replace d _ _ _) as [d1|] eqn:E1; [|discriminate].
    cbn [bind] in E. unfold replace in E1. apply new_date_Ok in E1.
    destruct E1 as [_ V1]. pose proof (constructed_ordinal self C To) as Ho.
    destruct (Z.eq_dec (val (_ordinal self)) 5) as [E5 | N5].
    + rewrite E5 in E.
      destruct (get_nth_weekday_of_month_5_ordinal d1 w r V1 ltac:(lia) E)
        as [Vr Or].
      split; [exact Vr|]. unfold weekday. rewrite Or.
      generalize (month_start d1 + days_in_month (year d1) (month d1)).
      intros z. Z.div_mod_to_equations. lia.
    + rewrite get_nth_weekday_of_month_unfold in E.
      destruct (nth_weekday_body_ordinal get_nth_weekday_of_month d1
                  (val (_ordinal self)) w r V1 ltac:(lia) ltac:(lia) E)
        as [Vr Or].
      split; [exact Vr|]. unfold weekday. rewrite Or.
      generalize (month_start d1), (val (_ordinal self)). intros z o.
      Z.div_mod_to_equations. lia.
  - destruct (add_days d (7 * _interval self)) as [d1|] eqn:E1;
      [|discriminate].
    cbn [bind] in E. unfold get_next_weekday in E. cbv zeta in E.
    destruct (add_days_Ok _ _ _ Hd E1) as [V1 O1].
    destruct (add_days_Ok _ _ _ V1 E) as [Vr Or].
    split; [exact Vr|]. unfold weekday in *. rewrite Or.
    generalize (toordinal d1). intros z. Z.div_mod_to_equations. lia.
Qed.

(** X20: on a constructed rule with a weekday w in 1..7 (weekly, or monthly
    with an ordinal), every date that [get_events] returns falls on
    weekday w. *)
Theorem get_events_on_weekday (today : date) (fuel : nat)
    (self : RecurringEvent) (d0 h : date) (L : list date)
    (self' : RecurringEvent) :
  constructed self -> truthy (_weekday self) = true ->
  1 <= val (_weekday self) <= 7 ->
  _last_occurence self = PyDate d0 -> valid_date d0 ->
  get_events today fuel self (PyDate h) = Some (Ok L, self') ->
  Forall (fun x => weekday x = val (_weekday self) - 1) L.
Proof.
  intros C Tw Hw E0 V0 E.
  apply (get_events_Forall self
           (fun x => weekday x = val (_weekday self) - 1)) with
    (today := today) (fuel := fuel) (d0 := d0) (h := h) (self' := self');
    try assumption.
  intros d r Vd Er. exact (get_next_date_weekday self d r C Tw Hw Vd Er).
Qed.

(** Every 4 weeks on Saturday, from 2023-01-07 up to 2023-03-31. *)
Lemma get_events_on_weekday_witness :
  Forall (fun x => weekday x = val (Some 6) - 1)
         [mkdate 2023 2 4; mkdate 2023 3 4].
Proof.
  apply (get_events_on_weekday (mkdate 2024 1 1) 5 every_4_weeks_on_saturday
           d_2023_01_07 (mkdate 2023 3 31)
           [mkdate 2023 2 4; mkdate 2023 3 4]
           (mkRecurringEvent (PyDate (mkdate 2023 3 4)) 3 4 None None
                             (Some 6) (Some (mkdate 2023 3 31)))).
  - reflexivity.
  - reflexivity.
  - cbn. lia.
  - reflexivity.
  - reflexivity.
  - vm_compute. reflexivity.
Defined.

(** A date returned on a workdaily rule or on a rule with weekday 8 (any
    workday) is a Monday to Friday. *)
Lemma get_next_date_workday self d r :
  constructed self ->
  (_weekday self = Some 8
   \/ (truthy (_weekday self) = false /\ truthy (_day self) = false
       /\ _recurs self = 2)) ->
  valid_date d -> get_next_date self d = Ok (Some r) ->
  valid_date r /\ 0 <= weekday r <= 4.
Proof.
  intros C Hrule Hd. unfold get_next_date.
  destruct Hrule as [E8 | (Tw & Td & E2)].
  - rewrite E8. cbn [truthy val Z.eqb negb Z.ltb Z.compare Pos.compare
                     Pos.compare_cont].
    destruct (_get_ordinal_workday_period self d) as [r'|] eqn:E;
      [|discriminate].
    cbn [bind]. intros [= ->]. unfold _get_ordinal_workday_period in E.
    cbv zeta in E.
    destruct (replace d _ _ _) as [d1|] eqn:E1; [|discriminate].
    cbn [bind] in E. unfold replace in E1. apply new_date_Ok in E1.
    destruct E1 as [_ V1].
    assert (To : truthy (_ordinal self) = true)
      by (apply (constructed_workday self C); rewrite E8; reflexivity).
    pose proof (constructed_ordinal self C To) as Ho.
    pose proof (days_in_month_bounds (year d1) (month d1)
                  ltac:(apply valid_date_iff in V1; lia)) as Bd.
    unfold truthy in To. destruct (_ordinal self) as [o|]; [|discriminate].
    cbn [val eq_int] in *.
    destruct (Z.eqb_spec o 5) as [E5 | N5].
    + destruct (get_last_workday_of_month_day d1 V1) as (k & Ek & Hk).
      rewrite Ek in E. injection E as <-.
      set (dim := days_in_month (year d1) (month d1)) in *.
      assert (R : dim - 2 <= k <= dim)
        by (subst k; destruct (_ =? 5); [|destruct (_ =? 6)]; lia).
      split; [apply valid_in_month; [exact V1 | lia]|].
      rewrite weekday_in_month.
      destruct (Z.eqb_spec ((month_start d1 + dim + 5) mod 7) 5);
        [|destruct (Z.eqb_spec ((month_start d1 + dim + 5) mod 7) 6)];
        subst k; Z.div_mod_to_equations; lia.
    + destruct (get_nth_workday_of_month_day d1 o V1 Ho)
        as (kf & _ & R & Wf & En).
      rewrite En in E. injection E as <-.
      split.
      * apply valid_in_month; [exact V1|]. destruct (4 <? _); lia.
      * rewrite weekday_in_month.
        destruct (Z.ltb_spec 4 ((month_start d1 + kf + 5) mod 7 + o - 1));
          Z.div_mod_to_equations; lia.
  - rewrite Tw, Td, E2. cbn [Z.eqb Pos.eqb].
    destruct (_get_workdaily_period self d) as [r'|] eqn:E; [|discriminate].
    cbn [bind]. intros [= ->]. unfold _get_workdaily_period in E.
    destruct (truthy (_ordinal self)); [discriminate|].
    unfold get_next_workday_by_interval in E.
    destruct (add_days d (_interval self)) as [l|] eqn:El; [|discriminate].
    cbn [bind] in E. destruct (add_days_Ok _ _ _ Hd El) as [Vl Ol].
    pose proof (weekday_bounds l) as Bl.
    destruct (Z.ltb_spec 4 (weekday l)) as [Hw | Hw].
    + destruct (add_days_Ok l 2 r Vl E) as [Vr Or].
      split; [exact Vr|]. unfold weekday in *. rewrite Or.
      generalize dependent (toordinal l). intros z _ Bl Hw.
      Z.div_mod_to_equations. lia.
    + injection E as <-. split; [exact Vl | lia].
Qed.

(** X21: on a constructed workdaily rule, and on a constructed rule with
    weekday 8 (the n-th or last workday of a month), every date that
    [get_events] returns is a Monday to Friday. *)
Theorem get_events_on_workdays (today : date) (fuel : nat)
    (self : RecurringEvent) (d0 h : date) (L : list date)
    (self' : RecurringEvent) :
  constructed self ->
  (_weekday self = Some 8
   \/ (truthy (_weekday self) = false /\ truthy (_day self) = false
       /\ _recurs self = 2)) ->
  _last_occurence self = PyDate d0 -> valid_date d0 ->
  get_events today fuel self (PyDate h) = Some (Ok L, self') ->
  Forall (fun x => 0 <= weekday x <= 4) L.
Proof.
  intros C Hrule E0 V0 E.
  apply (get_events_Forall self (fun x => 0 <= weekday x <= 4)) with
    (today := today) (fuel := fuel) (d0 := d0) (h := h) (self' := self');
    try assumption.
  intros d r Vd Er. exact (get_next_date_workday self d r C Hrule Vd Er).
Qed.

(** Workdaily from Thursday 2023-06-01 up to Wednesday 2023-06-07. *)
Lemma get_events_on_workdays_witness :
  Forall (fun x => 0 <= weekday x <= 4)
         [mkdate 2023 6 2; mkdate 2023 6 5; mkdate 2023 6 6;
          mkdate 2023 6 7].
Proof.
  apply (get_events_on_workdays (mkdate 2024 1 1) 6
           (mkRecurringEvent (PyDate (mkdate 2023 6 1)) 2 1 None None None
                             None)
           (mkdate 2023 6 1) (mkdate 2023 6 7)
           [mkdate 2023 6 2; mkdate 2023 6 5; mkdate 2023 6 6;
            mkdate 2023 6 7]
           (mkRecurringEvent (PyDate (mkdate 2023 6 7)) 2 1 None None None
                             (Some (mkdate 2023 6 7)))).
  - reflexivity.
  - right. repeat split.
  - reflexivity.
  - reflexivity.
  - vm_compute. reflexivity.
Defined.

(** ** Monthly rules: the month and the day of the enumerated dates *)

Lemma constructed_day self :
  constructed self -> truthy (_day self) = true ->
  1 <= val (_day self) <= 31.
Proof.
  unfold constructed, _check_consistency. intros C Ht. rewrite Ht in C.
  destruct (negb _); [discriminate|]. cbn [andb] in C.
  destruct (Z.ltb_spec (val (_day self)) 1);
    destruct (Z.ltb_spec 31 (val (_day self)));
    cbn [orb] in C; try discriminate; lia.
Qed.

(** A date returned by [get_nth_weekday_of_month] is a date of the month. *)
Lemma get_nth_weekday_of_month_same_month d o w r :
  valid_date d -> 1 <= o <= 5 -> w <= 7 ->
  get_nth_weekday_of_month d o w = Ok r ->
  valid_date r /\ year r = year d /\ month r = month d.
Proof.
  intros Hd Ho Hw E.
  pose proof (month_start_bounds d Hd) as (B1 & B2 & _).
  pose proof (days_in_month_bounds (year d) (month d)
                ltac:(apply valid_date_iff in Hd; lia)) as Bd.
  assert (Hk : valid_date r
               /\ exists k, 1 <= k <= days_in_month (year d) (month d)
                            /\ toordinal r = month_start d + (k - 1)).
  { destruct (Z.eq_dec o 5) as [E5 | N5].
    - rewrite E5 in E.
      destruct (get_nth_weekday_of_month_5_ordinal d w r Hd Hw E) as [Vr Or].
      split; [exact Vr|]. exists (toordinal r - month_start d + 1).
      rewrite Or.
      pose proof (Z.mod_pos_bound
                    (w - 1 - (month_start d
                              + days_in_month (year d) (month d) + 6) mod 7)
                    7 ltac:(lia)).
      lia.
    - rewrite get_nth_weekday_of_month_unfold in E.
      destruct (nth_weekday_body_ordinal get_nth_weekday_of_month d o w r
                  Hd Hw ltac:(lia) E) as [Vr Or].
      split; [exact Vr|]. exists (toordinal r - month_start d + 1).
      rewrite Or.
      pose proof (Z.mod_pos_bound (w - 1 - (month_start d + 6) mod 7) 7
                    ltac:(lia)).
      lia. }
  destruct Hk as (Vr & k & Rk & Ok_).
  rewrite (date_of_month_ordinal d r k Hd Vr Rk Ok_).
  split; [apply valid_in_month; assumption|]. split; reflexivity.
Qed.

(** One step on a monthly rule: the date returned lies in the month
    [interval] months after the month of the reference date; on a
    day-of-month rule it is the requested day, or the last day of a shorter
    month. *)
Lemma get_next_date_monthly self d r :
  constructed self -> 1 <= _interval self -> weekday_documented self ->
  monthly_rule self ->
  valid_date d -> get_next_date self d = Ok (Some r) ->
  valid_date r
  /\ month_index r = month_index d + _interval self
  /\ (truthy (_weekday self) = false ->
      day r = Z.min (val (_day self)) (days_in_month (year r) (month r))).
Proof.
  intros C Hi Hw Hrule Hd. unfold get_next_date.
  pose proof Hd as Hd'. apply valid_date_iff in Hd'.
  destruct Hd' as (Hy & Hm & Hdd).
  pose proof (rollover_advances (month d) (_interval self) Hm Hi)
    as (A1 & A2 & A3).
  unfold rollover in A1, A2, A3. cbv zeta in A1, A2, A3.
  cbn [fst snd] in A1, A2, A3.
  set (yi := Z.quot (month d + _interval self) 13) in *.
  assert (Target : forall dd d1,
             new_date (year d + yi) (month d + _interval self - yi * 12) dd
             = Ok d1 ->
             valid_date d1
             /\ year d1 = year d + yi
             /\ month d1 = month d + _interval self - yi * 12
             /\ day d1 = dd
             /\ month_index d1 = month_index d + _interval self).
  { intros dd d1 E1. apply new_date_Ok in E1. destruct E1 as [-> V1].
    split; [exact V1|]. unfold month_index. cbn [year month day].
    clearbody yi. repeat split; lia. }
  destruct Hrule as [[Tw To] | [Tw Td]]; rewrite Tw.
  - (* a weekday with an ordinal *)
    assert (W : 1 <= val (_weekday self) <= 8).
    { unfold weekday_documented in Hw. unfold truthy in Tw.
      destruct (_weekday self) as [w|]; [|discriminate]. cbn [val].
      destruct (Z.eqb_spec w 0); [discriminate | lia]. }
    pose proof (constructed_ordinal self C To) as Ho.
    destruct (Z.ltb_spec (val (_weekday self)) 8) as [W8 | W8].
    + destruct (_get_weekday_period self d) as [r'|] eqn:E; [|discriminate].
      cbn [bind]. intros [= ->]. unfold _get_weekday_period in E.
      rewrite To in E. cbv zeta in E. fold yi in E.
      destruct (replace d _ _ _) as [d1|] eqn:E1; [|discriminate].
      cbn [bind] in E. unfold replace in E1.
      destruct (Target 1 d1 E1) as (V1 & Y1 & M1 & _ & I1).
      destruct (get_nth_weekday_of_month_same_month d1
                  (val (_ordinal self)) (val (_weekday self)) r V1 Ho
                  ltac:(lia) E) as (Vr & Yr & Mr).
      split; [exact Vr|]. split; [|intros; discriminate].
      unfold month_index in *. rewrite Yr, Mr. exact I1.
    + destruct (_get_ordinal_workday_period self d) as [r'|] eqn:E;
        [|discriminate].
      cbn [bind]. intros [= ->]. unfold _get_ordinal_workday_period in E.
      cbv zeta in E. fold yi in E.
      destruct (replace d _ _ _) as [d1|] eqn:E1; [|discriminate].
      cbn [bind] in E. unfold replace in E1.
      destruct (Target 1 d1 E1) as (V1 & Y1 & M1 & _ & I1).
      pose proof (days_in_month_bounds (year d1) (month d1)
                    ltac:(apply valid_date_iff in V1; lia)) as Bd.
      unfold truthy in To. destruct (_ordinal self) as [o|]; [|discriminate].
      cbn [val eq_int] in *.
      assert (Hr : exists k, r = mkdate (year d1) (month d1) k
                             /\ 1 <= k <= days_in_month (year d1) (month d1)).
      { destruct (Z.eqb_spec o 5) as [E5 | N5].
        - destruct (get_last_workday_of_month_day d1 V1) as (k & Ek & Hk).
          rewrite Ek in E. injection E as <-. exists k.
          split; [reflexivity|].
          subst k. destruct (_ =? 5); [|destruct (_ =? 6)]; lia.
        - destruct (get_nth_workday_of_month_day d1 o V1 Ho)
            as (kf & _ & R & Wf & En).
          rewrite En in E. injection E as <-. eexists.
          split; [reflexivity|]. destruct (4 <? _); lia. }
      destruct Hr as (k & -> & Rk).
      split; [apply valid_in_month; assumption|].
      split; [|intros; discriminate].
      unfold month_index in *. cbn [year month]. exact I1.
  - (* a day of the month *)
    rewrite Td. pose proof (constructed_day self C Td) as Rday.
    destruct (_get_day_period self d) as [r'|] eqn:E; [|discriminate].
    cbn [bind]. intros [= ->]. unfold _get_day_period in E. cbv zeta in E.
    fold yi in E.
    destruct (replace d _ _ (Some (val (_day self)))) as [r1|e1] eqn:E1.
    + cbn [except_ValueError] in E. injection E as <-. unfold replace in E1.
      destruct (Target _ r1 E1) as (V1 & Y1 & M1 & D1 & I1).
      split; [exact V1|]. split; [exact I1|]. intros _.
      apply valid_date_iff in V1. lia.
    + unfold replace in E1. apply new_date_Raise in E1.
      destruct E1 as [-> F1]. cbn [except_ValueError] in E.
      destruct (replace d _ _ (Some 1)) as [d2|] eqn:E2; [|discriminate].
      cbn [bind] in E. unfold replace in E2. apply new_date_Ok in E2.
      destruct E2 as [-> V2].
      apply valid_date_iff in V2. cbn [year month day] in V2.
      destruct V2 as (Hy2 & Hm2 & _).
      set (tm := month d + _interval self - yi * 12) in *.
      rewrite (day_before_next_month (year d + yi) tm) in E by lia.
      injection E as <-.
      split; [apply last_day_of_month_valid; lia|].
      unfold month_index. cbn [year month day].
      split; [subst tm; lia|]. intros _.
      assert (Hshort : days_in_month (year d + yi) tm < val (_day self)).
      { destruct (Z.lt_ge_cases (days_in_month (year d + yi) tm)
                                (val (_day self))) as [Hlt | Hge];
          [exact Hlt|].
        exfalso.
        assert (T : check_date_fields (year d + yi) tm (val (_day self))
                    = true) by (apply check_date_fields_true; lia).
        rewrite T in F1. discriminate. }
      lia.
Qed.

Lemma chain_from_months_apart self :
  constructed self -> 1 <= _interval self -> weekday_documented self ->
  monthly_rule self ->
  forall l d0,
    valid_date d0 -> chain_from self d0 l ->
    months_apart (_interval self) d0 l.
Proof.
  intros C Hi Hw Hrule. induction l as [|a l IH]; intros d0 V0 Ch.
  - exact I.
  - destruct Ch as [Na Cl].
    destruct (get_next_date_monthly self d0 a C Hi Hw Hrule V0 Na)
      as (Va & Ia & _).
    split; [exact Ia | exact (IH a Va Cl)].
Qed.

(** X22: on a constructed monthly rule (a weekday in 1..8 with an ordinal,
    or a day of the month) with a positive interval, the dates that
    [get_events] returns lie exactly [interval] months apart, the first one
    [interval] months after the former last occurrence: no month is skipped
    or repeated, also across years. *)
Theorem get_events_months_apart (today : date) (fuel : nat)
    (self : RecurringEvent) (d0 h : date) (L : list date)
    (self' : RecurringEvent) :
  constructed self -> 1 <= _interval self -> weekday_documented self ->
  monthly_rule self ->
  _last_occurence self = PyDate d0 -> valid_date d0 ->
  get_events today fuel self (PyDate h) = Some (Ok L, self') ->
  months_apart (_interval self) d0 L.
Proof.
  intros C Hi Hw Hrule E0 V0. unfold get_events.
  rewrite set_interval_end_date.
  cbn [with_interval_end _last_occurence]. rewrite E0. intros E.
  apply get_events_loop_Ok in E.
  destruct E as (new & d' & h' & -> & _ & Ch & _).
  cbn [app]. apply chain_from_interval_end in Ch.
  exact (chain_from_months_apart self C Hi Hw Hrule new d0 V0 Ch).
Qed.

(** Every month on the 31st, from 2023-11-30 up to 2024-03-15. *)
Lemma get_events_months_apart_witness :
  months_apart 1 (mkdate 2023 11 30)
               [mkdate 2023 12 31; mkdate 2024 1 31; mkdate 2024 2 29].
Proof.
  apply (get_events_months_apart (mkdate 2024 6 1) 6
           (mkRecurringEvent (PyDate (mkdate 2023 11 30)) 4 1 (Some 31) None
                             None None)
           (mkdate 2023 11 30) (mkdate 2024 3 15)
           [mkdate 2023 12 31; mkdate 2024 1 31; mkdate 2024 2 29]
           (mkRecurringEvent (PyDate (mkdate 2024 2 29)) 4 1 (Some 31) None
                             None (Some (mkdate 2024 3 15)))).
  - reflexivity.
  - cbn. lia.
  - exact I.
  - right. split; reflexivity.
  - reflexivity.
  - reflexivity.
  - vm_compute. reflexivity.
Defined.

(** X23: on a constructed day-of-month rule with a positive interval, every
    date that [get_events] returns has the requested day, or is the last
    day of its month when the month is shorter; a short month does not
    shift the dates that follow. *)
Theorem get_events_day_of_month (today : date) (fuel : nat)
    (self : RecurringEvent) (d0 h : date) (L : list date)
    (self' : RecurringEvent) :
  constructed self -> 1 <= _interval self ->
  truthy (_weekday self) = false -> truthy (_day self) = true ->
  _last_occurence self = PyDate d0 -> valid_date d0 ->
  get_events today fuel self (PyDate h) = Some (Ok L, self') ->
  Forall (fun x => day x = Z.min (val (_day self))
                                 (days_in_month (year x) (month x))) L.
Proof.
  intros C Hi Tw Td E0 V0 E.
  assert (Hw : weekday_documented self).
  { unfold weekday_documented. unfold truthy in Tw.
    destruct (_weekday self) as [w|]; [|exact I].
    destruct (Z.eqb_spec w 0); [left; assumption | discriminate]. }
  apply (get_events_Forall self
           (fun x => day x = Z.min (val (_day self))
                                   (days_in_month (year x) (month x)))) with
    (today := today) (fuel := fuel) (d0 := d0) (h := h) (self' := self');
    try assumption.
  intros d r Vd Er.
  destruct (get_next_date_monthly self d r C Hi Hw
              ltac:(right; split; assumption) Vd Er) as (Vr & _ & Dr).
  split; [exact Vr | exact (Dr Tw)].
Qed.

Lemma get_events_day_of_month_witness :
  Forall (fun x => day x = Z.min (val (Some 31))
                                 (days_in_month (year x) (month x)))
         [mkdate 2023 12 31; mkdate 2024 1 31; mkdate 2024 2 29].
Proof.
  apply (get_events_day_of_month (mkdate 2024 6 1) 6
           (mkRecurringEvent (PyDate (mkdate 2023 11 30)) 4 1 (Some 31) None
                             None None)
           (mkdate 2023 11 30) (mkdate 2024 3 15)
           [mkdate 2023 12 31; mkdate 2024 1 31; mkdate 2024 2 29]
           (mkRecurringEvent (PyDate (mkdate 2024 2 29)) 4 1 (Some 31) None
                             None (Some (mkdate 2024 3 15)))).
  - reflexivity.
  - cbn. lia.
  - reflexivity.
  - reflexivity.
  - reflexivity.
  - reflexivity.
  - vm_compute. reflexivity.
Defined.
